(** * rrweb-recorder: console, network and navigation capture

    A shallow embedding of [rrweb-recorder.js] (and of its standalone
    variant, which carries its own [addCustomEvent]) together with the
    properties of its interception, correlation and serialization code.

    The script is JavaScript.  Its values are modelled by [JsValue], its
    strings by sequences of UTF-16 code units, its exceptions by an
    [outcome] that is either [Normal] or [Throw], and the page state it
    touches (the [session] array, the original console, the clock, the
    location) by the record [World] threaded through a small state and
    exception monad. *)

From Stdlib Require Import List ZArith NArith Bool Lia String Ascii Arith.
From Stdlib Require Import DecimalZ DecimalFacts.
Import ListNotations.

Local Open Scope Z_scope.

(* ================================================================== *)
(** ** JavaScript strings *)

(** A JavaScript string is a sequence of 16-bit code units; [length] and
    [slice] count code units, not characters. *)
Definition jsstring := list N.

(** ASCII literals of the source, as code units. *)
Definition js (s : string) : jsstring :=
  map N_of_ascii (list_ascii_of_string s).

Fixpoint jsstring_eqb (a b : jsstring) : bool :=
  match a, b with
  | [], [] => true
  | x :: a', y :: b' => N.eqb x y && jsstring_eqb a' b'
  | _, _ => false
  end.

(** [s.slice(start, end)] (String.prototype.slice): a negative index
    counts from the end, and both indices are clamped to the string. *)
Definition slice_index (len i : Z) : Z :=
  if i <? 0 then Z.max (len + i) 0 else Z.min i len.

Definition slice (s : jsstring) (start fin : Z) : jsstring :=
  let len := Z.of_nat (List.length s) in
  let from := slice_index len start in
  let to := slice_index len fin in
  let span := Z.max (to - from) 0 in
  firstn (Z.to_nat span) (skipn (Z.to_nat from) s).

(** [s.includes(t)]: [t] occurs in [s] as a contiguous run of code units. *)
Fixpoint starts_with (t s : jsstring) : bool :=
  match t, s with
  | [], _ => true
  | _ :: _, [] => false
  | a :: t', b :: s' => N.eqb a b && starts_with t' s'
  end.

Fixpoint includes (s t : jsstring) : bool :=
  starts_with t s ||
  match s with
  | [] => false
  | _ :: s' => includes s' t
  end.

(** [parts.join(sep)] on rendered parts. *)
Fixpoint join (sep : jsstring) (parts : list jsstring) : jsstring :=
  match parts with
  | [] => []
  | [p] => p
  | p :: rest => p ++ sep ++ join sep rest
  end.

(** Decimal digits of an integer, as Number::toString prints it. *)
Fixpoint uint_units (d : Decimal.uint) : jsstring :=
  match d with
  | Decimal.Nil => []
  | Decimal.D0 d => 48%N :: uint_units d
  | Decimal.D1 d => 49%N :: uint_units d
  | Decimal.D2 d => 50%N :: uint_units d
  | Decimal.D3 d => 51%N :: uint_units d
  | Decimal.D4 d => 52%N :: uint_units d
  | Decimal.D5 d => 53%N :: uint_units d
  | Decimal.D6 d => 54%N :: uint_units d
  | Decimal.D7 d => 55%N :: uint_units d
  | Decimal.D8 d => 56%N :: uint_units d
  | Decimal.D9 d => 57%N :: uint_units d
  end.

Definition int_text (z : Z) : jsstring :=
  match Z.to_int z with
  | Decimal.Pos d => uint_units d
  | Decimal.Neg d => 45%N :: uint_units d
  end.

(* ================================================================== *)
(** ** Completions and values *)

(** The result of evaluating JavaScript code: a value, or a thrown one. *)
Inductive outcome (E A : Type) : Type :=
| Normal (a : A)
| Throw (e : E).
Arguments Normal {E A} a.
Arguments Throw {E A} e.

(** JSON documents, the trees that [JSON.stringify] prints and
    [JSON.parse] reads. *)
Unset Elimination Schemes.
Inductive Json : Type :=
| JNull
| JBool (b : bool)
| JNum (z : Z)
| JStr (s : jsstring)
| JArr (items : list Json)
| JObj (members : list (jsstring * Json)).
Set Elimination Schemes.

(** Numbers: the integral doubles with the four special values.
    Fractional doubles are outside the model (printing them is
    floating-point formatting). *)
Inductive jsnumber : Type :=
| NumInt (z : Z)
| NumNegZero
| NumNaN
| NumInf (negative : bool).

(** A field of a [FormData]: a string, or a [File]. *)
Inductive FormEntry : Type :=
| FieldString (s : jsstring)
| FieldFile.

(** The values the recorder can be handed.

    [VObject] is a plain data object: its own enumerable properties in
    enumeration order, none of them an accessor, none named [toString],
    [valueOf] or [toJSON].  [VError] is an instance of [Error]: its
    name, message and stack, and its JSON conversion, which is that of
    the object of its enumerable own properties ([{}] for an error that
    has none, as the errors the engine throws) unless it has a [toJSON]
    of its own.
    [VHost] is any other object (a cyclic structure, a class instance, a
    function, a [Headers], an object without prototype, ...), described
    by what the three built-in operations the recorder applies to it
    produce: its JSON conversion ([None] where [JSON.stringify] gives
    [undefined]), its string coercion, and its readable properties. *)
Unset Elimination Schemes.
Inductive JsValue : Type :=
| VUndefined
| VNull
| VBool (b : bool)
| VNumber (n : jsnumber)
| VBigInt (z : Z)
| VString (s : jsstring)
| VSymbol (description : jsstring)
| VArray (elems : list JsValue)
| VObject (props : list (jsstring * JsValue))
| VError (name message stack : jsstring)
         (toJSON : outcome JsValue (option Json))
| VFormData (entries : list (jsstring * FormEntry))
| VArrayBuffer (byteLength : N)
| VUint8Array (bytes : list N)
| VHost (toJSON : outcome JsValue (option Json))
        (toStr : outcome JsValue jsstring)
        (props : list (jsstring * JsValue)).
Set Elimination Schemes.

Definition completion (A : Type) : Type := outcome JsValue A.

(** The engine's own [TypeError]s.  Their message texts and stacks are
    engine specific; no property below depends on them. *)
Definition TypeError (msg : string) : JsValue :=
  VError (js "TypeError") (js msg) (js "") (Normal (Some (JObj []))).

(** Sequencing and [try { } catch (e) { }] on completions. *)
Definition cbind {A B} (c : completion A) (k : A -> completion B)
  : completion B :=
  match c with
  | Normal a => k a
  | Throw e => Throw e
  end.

Definition ctry {A} (body : completion A) (handler : JsValue -> completion A)
  : completion A :=
  match body with
  | Normal a => Normal a
  | Throw e => handler e
  end.

Fixpoint cmap {A B} (f : A -> completion B) (l : list A)
  : completion (list B) :=
  match l with
  | [] => Normal []
  | a :: l' =>
      cbind (f a) (fun b => cbind (cmap f l') (fun bs => Normal (b :: bs)))
  end.

(* ================================================================== *)
(** ** Built-in operations the recorder applies to values *)

(** [!v] is [negb (ToBoolean v)]. *)
Definition ToBoolean (v : JsValue) : bool :=
  match v with
  | VUndefined | VNull => false
  | VBool b => b
  | VNumber (NumInt z) => negb (z =? 0)
  | VNumber NumNegZero | VNumber NumNaN => false
  | VNumber (NumInf _) => true
  | VBigInt z => negb (z =? 0)
  | VString s => match s with [] => false | _ :: _ => true end
  | _ => true
  end.

Definition number_text (n : jsnumber) : jsstring :=
  match n with
  | NumInt z => int_text z
  | NumNegZero => js "0"
  | NumNaN => js "NaN"
  | NumInf false => js "Infinity"
  | NumInf true => js "-Infinity"
  end.

Definition Error_text (name message : jsstring) : jsstring :=
  match name, message with
  | [], _ => message
  | _, [] => name
  | _, _ => name ++ js ": " ++ message
  end.

(** [String(v)]: the generic string coercion.  An array joins the
    coercions of its elements, [null] and [undefined] elements giving the
    empty string and a symbol element being refused. *)
Fixpoint String_ (v : JsValue) : completion jsstring :=
  match v with
  | VUndefined => Normal (js "undefined")
  | VNull => Normal (js "null")
  | VBool true => Normal (js "true")
  | VBool false => Normal (js "false")
  | VNumber n => Normal (number_text n)
  | VBigInt z => Normal (int_text z)
  | VString s => Normal s
  | VSymbol d => Normal (js "Symbol(" ++ d ++ js ")")
  | VArray elems =>
      cbind
        ((fix each (l : list JsValue) : completion (list jsstring) :=
            match l with
            | [] => Normal []
            | x :: r =>
                cbind (match x with
                       | VUndefined | VNull => Normal []
                       | VSymbol _ =>
                           Throw (TypeError
                                    "Cannot convert a Symbol value to a string")
                       | _ => String_ x
                       end)
                  (fun s => cbind (each r) (fun ss => Normal (s :: ss)))
            end) elems)
        (fun parts => Normal (join (js ",") parts))
  | VObject _ => Normal (js "[object Object]")
  | VError name message _ _ => Normal (Error_text name message)
  | VFormData _ => Normal (js "[object FormData]")
  | VArrayBuffer _ => Normal (js "[object ArrayBuffer]")
  | VUint8Array bytes =>
      Normal (join (js ",") (map (fun b => int_text (Z.of_N b)) bytes))
  | VHost _ toStr _ => toStr
  end.

(** The coercion of a template literal [`${v}`]: as [String(v)], except
    that a symbol is refused. *)
Definition ToString (v : JsValue) : completion jsstring :=
  match v with
  | VSymbol _ => Throw (TypeError "Cannot convert a Symbol value to a string")
  | _ => String_ v
  end.

(** [v.name]: reading a property.  [null] and [undefined] have none. *)
Fixpoint lookup {A} (k : jsstring) (props : list (jsstring * A)) : option A :=
  match props with
  | [] => None
  | (k', a) :: rest => if jsstring_eqb k k' then Some a else lookup k rest
  end.

Definition own (props : list (jsstring * JsValue)) (k : jsstring) : JsValue :=
  match lookup k props with
  | Some v => v
  | None => VUndefined
  end.

Definition length_value {A} (l : list A) : JsValue :=
  VNumber (NumInt (Z.of_nat (List.length l))).

Definition get (v : JsValue) (name : string) : completion JsValue :=
  match v with
  | VUndefined | VNull =>
      Throw (TypeError "Cannot read properties of undefined or null")
  | VObject props => Normal (own props (js name))
  | VHost _ _ props => Normal (own props (js name))
  | VError n m s _ =>
      Normal (own [(js "name", VString n); (js "message", VString m);
                   (js "stack", VString s)] (js name))
  | VString s => Normal (own [(js "length", length_value s)] (js name))
  | VArray l => Normal (own [(js "length", length_value l)] (js name))
  | VArrayBuffer n =>
      Normal (own [(js "byteLength", VNumber (NumInt (Z.of_N n)))] (js name))
  | VUint8Array b =>
      Normal (own [(js "byteLength", length_value b);
                   (js "length", length_value b)] (js name))
  | _ => Normal VUndefined
  end.

(** [o[k] = v] on a plain object.  An existing key keeps its place; a
    new key that is an array index goes among the index keys in
    ascending order, which are enumerated first; any other new key goes
    last. *)
Definition digit_val (u : N) : option N :=
  if ((48 <=? u) && (u <=? 57))%N then Some (u - 48)%N else None.

Fixpoint digits_val (acc : N) (s : jsstring) : option N :=
  match s with
  | [] => Some acc
  | u :: r =>
      match digit_val u with
      | Some d => digits_val (10 * acc + d)%N r
      | None => None
      end
  end.

Definition array_index (k : jsstring) : option N :=
  match k with
  | [] => None
  | [48%N] => Some 0%N
  | 48%N :: _ => None
  | _ =>
      match digits_val 0%N k with
      | Some n => if (n <=? 4294967294)%N then Some n else None
      | None => None
      end
  end.

Fixpoint replace_prop {A} (k : jsstring) (a : A) (props : list (jsstring * A))
  : list (jsstring * A) :=
  match props with
  | [] => []
  | (k', a') :: rest =>
      if jsstring_eqb k k' then (k', a) :: rest
      else (k', a') :: replace_prop k a rest
  end.

Fixpoint insert_index {A} (n : N) (k : jsstring) (a : A)
  (props : list (jsstring * A)) : list (jsstring * A) :=
  match props with
  | [] => [(k, a)]
  | (k', a') :: rest =>
      match array_index k' with
      | Some m =>
          if (m <? n)%N then (k', a') :: insert_index n k a rest
          else (k, a) :: (k', a') :: rest
      | None => (k, a) :: (k', a') :: rest
      end
  end.

Definition obj_set {A} (props : list (jsstring * A)) (k : jsstring) (a : A)
  : list (jsstring * A) :=
  match lookup k props with
  | Some _ => replace_prop k a props
  | None =>
      match array_index k with
      | Some n => insert_index n k a props
      | None => props ++ [(k, a)]
      end
  end.

(** [Object.fromEntries(entries)], and the loop
    [for (const [key, value] of entries) o[key] = f(value)]. *)
Definition fromEntries {A B} (f : A -> B) (entries : list (jsstring * A))
  : list (jsstring * B) :=
  fold_left (fun o kv => obj_set o (fst kv) (f (snd kv))) entries [].

(* ------------------------------------------------------------------ *)
(** *** JSON.stringify *)

(** The JSON conversion of a value (SerializeJSONProperty): [None] where
    the value has no JSON form ([undefined], a symbol), a thrown
    [TypeError] for a BigInt, and for an object whatever its own
    conversion gives, a cyclic one throwing. *)
Definition or_null (o : option Json) : Json :=
  match o with
  | Some j => j
  | None => JNull
  end.

Fixpoint indexed (i : nat) (bytes : list N) : list (jsstring * Json) :=
  match bytes with
  | [] => []
  | b :: rest =>
      (int_text (Z.of_nat i), JNum (Z.of_N b)) :: indexed (S i) rest
  end.

Fixpoint to_json (v : JsValue) : completion (option Json) :=
  match v with
  | VUndefined => Normal None
  | VNull => Normal (Some JNull)
  | VBool b => Normal (Some (JBool b))
  | VNumber (NumInt z) => Normal (Some (JNum z))
  | VNumber NumNegZero => Normal (Some (JNum 0))
  | VNumber _ => Normal (Some JNull)
  | VBigInt _ => Throw (TypeError "Do not know how to serialize a BigInt")
  | VString s => Normal (Some (JStr s))
  | VSymbol _ => Normal None
  | VArray elems =>
      cbind
        ((fix each (l : list JsValue) : completion (list Json) :=
            match l with
            | [] => Normal []
            | x :: r =>
                cbind (to_json x) (fun o =>
                cbind (each r) (fun js => Normal (or_null o :: js)))
            end) elems)
        (fun items => Normal (Some (JArr items)))
  | VObject props =>
      cbind
        ((fix each (l : list (jsstring * JsValue))
            : completion (list (jsstring * Json)) :=
            match l with
            | [] => Normal []
            | (k, x) :: r =>
                cbind (to_json x) (fun o =>
                cbind (each r) (fun ms =>
                Normal (match o with
                        | Some j => (k, j) :: ms
                        | None => ms
                        end)))
            end) props)
        (fun members => Normal (Some (JObj members)))
  | VError _ _ _ toJSON => toJSON
  | VFormData _ => Normal (Some (JObj []))
  | VArrayBuffer _ => Normal (Some (JObj []))
  | VUint8Array bytes => Normal (Some (JObj (indexed 0 bytes)))
  | VHost toJSON _ _ => toJSON
  end.

(** QuoteJSONString: the two-character escapes, [\u00xx] for the other
    control characters, [\udxxx] for a surrogate without its partner. *)
Definition hex_digit (n : N) : N :=
  if (n <? 10)%N then (48 + n)%N else (87 + n)%N.

Definition unicode_escape (u : N) : jsstring :=
  [92%N; 117%N;
   hex_digit (N.shiftr u 12 mod 16); hex_digit (N.shiftr u 8 mod 16);
   hex_digit (N.shiftr u 4 mod 16); hex_digit (u mod 16)]%N.

Definition is_high_surrogate (u : N) : bool := ((55296 <=? u) && (u <=? 56319))%N.
Definition is_low_surrogate (u : N) : bool := ((56320 <=? u) && (u <=? 57343))%N.

Definition escape_unit (u : N) : jsstring :=
  if (u =? 8)%N then js "\b"
  else if (u =? 9)%N then js "\t"
  else if (u =? 10)%N then js "\n"
  else if (u =? 12)%N then js "\f"
  else if (u =? 13)%N then js "\r"
  else if (u =? 34)%N then [92%N; 34%N]
  else if (u =? 92)%N then [92%N; 92%N]
  else if (u <? 32)%N then unicode_escape u
  else if is_high_surrogate u || is_low_surrogate u then unicode_escape u
  else [u].

Fixpoint quote_units (s : jsstring) : jsstring :=
  match s with
  | [] => []
  | u :: rest =>
      match rest with
      | v :: rest' =>
          if is_high_surrogate u && is_low_surrogate v
          then u :: v :: quote_units rest'
          else escape_unit u ++ quote_units rest
      | [] => escape_unit u
      end
  end.

Definition quote (s : jsstring) : jsstring :=
  34%N :: quote_units s ++ [34%N].

(** SerializeJSONArray and SerializeJSONObject: [gap] is the
    indentation unit ([[]] for the compact form, two spaces for
    [JSON.stringify(v, null, 2)]), [indent] the current indentation. *)
Definition is_empty {A} (l : list A) : bool :=
  match l with
  | [] => true
  | _ :: _ => false
  end.

Definition bracket (gap stepback : jsstring) (opening closing : N)
  (parts : list jsstring) : jsstring :=
  if is_empty parts then [opening; closing]
  else if is_empty gap then opening :: join (js ",") parts ++ [closing]
  else
    let inner := stepback ++ gap in
    opening :: 10%N :: inner ++ join (44%N :: 10%N :: inner) parts
      ++ 10%N :: stepback ++ [closing].

Definition colon (gap : jsstring) : jsstring :=
  if is_empty gap then js ":" else js ": ".

Fixpoint print_json (gap indent : jsstring) (j : Json) {struct j} : jsstring :=
  match j with
  | JNull => js "null"
  | JBool true => js "true"
  | JBool false => js "false"
  | JNum z => int_text z
  | JStr s => quote s
  | JArr items =>
      bracket gap indent 91%N 93%N
        (map (print_json gap (indent ++ gap)) items)
  | JObj members =>
      bracket gap indent 123%N 125%N
        (map (fun m => quote (fst m) ++ colon gap
                         ++ print_json gap (indent ++ gap) (snd m)) members)
  end.

(** [JSON.stringify(v)] and [JSON.stringify(v, null, 2)]: a string, or
    [undefined] where the value has no JSON form. *)
Definition JSON_stringify_gap (gap : jsstring) (v : JsValue) : completion JsValue :=
  cbind (to_json v) (fun o =>
  Normal (match o with
          | Some j => VString (print_json gap [] j)
          | None => VUndefined
          end)).

Definition JSON_stringify : JsValue -> completion JsValue :=
  JSON_stringify_gap [].

Definition JSON_stringify_2 : JsValue -> completion JsValue :=
  JSON_stringify_gap (js "  ").

(** A method call [v.slice(0, n)] on the result of an expression: only a
    string has the method here. *)
Definition call_slice (v : JsValue) (n : Z) : completion jsstring :=
  match v with
  | VString s => Normal (slice s 0 n)
  | _ => Throw (TypeError "slice is not a function")
  end.

(* ------------------------------------------------------------------ *)
(** *** JSON.parse *)

(** The reader of JSON text, for documents whose numbers are integers.
    [None] stands for a [SyntaxError], and for a number outside the
    model: one with a fraction or an exponent, or a negative zero. *)
Definition is_ws (u : N) : bool :=
  ((u =? 32) || (u =? 9) || (u =? 10) || (u =? 13))%N.

Fixpoint skip_ws (s : jsstring) : jsstring :=
  match s with
  | [] => []
  | u :: r => if is_ws u then skip_ws r else s
  end.

Definition is_digit (u : N) : bool := ((48 <=? u) && (u <=? 57))%N.

Definition prepend_digit (u : N) (d : Decimal.uint) : Decimal.uint :=
  if (u =? 48)%N then Decimal.D0 d
  else if (u =? 49)%N then Decimal.D1 d
  else if (u =? 50)%N then Decimal.D2 d
  else if (u =? 51)%N then Decimal.D3 d
  else if (u =? 52)%N then Decimal.D4 d
  else if (u =? 53)%N then Decimal.D5 d
  else if (u =? 54)%N then Decimal.D6 d
  else if (u =? 55)%N then Decimal.D7 d
  else if (u =? 56)%N then Decimal.D8 d
  else Decimal.D9 d.

Fixpoint read_digits (s : jsstring) : Decimal.uint * jsstring :=
  match s with
  | [] => (Decimal.Nil, [])
  | u :: r =>
      if is_digit u
      then let (d, rest) := read_digits r in (prepend_digit u d, rest)
      else (Decimal.Nil, s)
  end.

(** What may follow the digits of an integer. *)
Definition ends_number (rest : jsstring) : bool :=
  match rest with
  | [] => true
  | u :: _ => negb ((u =? 46) || (u =? 101) || (u =? 69))%N
  end.

Definition read_unsigned (s : jsstring) : option (Decimal.uint * jsstring) :=
  let (d, rest) := read_digits s in
  match d with
  | Decimal.Nil => None
  | Decimal.D0 (Decimal.Nil) => if ends_number rest then Some (d, rest) else None
  | Decimal.D0 _ => None
  | _ => if ends_number rest then Some (d, rest) else None
  end.

Definition read_number (s : jsstring) : option (Z * jsstring) :=
  match s with
  | [] => None
  | u :: r =>
      if (u =? 45)%N then
        match read_unsigned r with
        | Some (Decimal.D0 Decimal.Nil, _) => None
        | Some (d, rest) => Some (Z.of_int (Decimal.Neg d), rest)
        | None => None
        end
      else
        match read_unsigned s with
        | Some (d, rest) => Some (Z.of_int (Decimal.Pos d), rest)
        | None => None
        end
  end.

Definition unhex (h : N) : option N :=
  if ((48 <=? h) && (h <=? 57))%N then Some (h - 48)%N
  else if ((97 <=? h) && (h <=? 102))%N then Some (h - 87)%N
  else if ((65 <=? h) && (h <=? 70))%N then Some (h - 55)%N
  else None.

Definition hex4 (a b c d : N) : option N :=
  match unhex a, unhex b, unhex c, unhex d with
  | Some x3, Some x2, Some x1, Some x0 =>
      Some (4096 * x3 + 256 * x2 + 16 * x1 + x0)%N
  | _, _, _, _ => None
  end.

Definition unescape (e : N) : option N :=
  if (e =? 34)%N then Some 34%N
  else if (e =? 92)%N then Some 92%N
  else if (e =? 47)%N then Some 47%N
  else if (e =? 98)%N then Some 8%N
  else if (e =? 102)%N then Some 12%N
  else if (e =? 110)%N then Some 10%N
  else if (e =? 114)%N then Some 13%N
  else if (e =? 116)%N then Some 9%N
  else None.

Definition cons_read (u : N) (r : option (jsstring * jsstring))
  : option (jsstring * jsstring) :=
  match r with
  | Some (t, rest) => Some (u :: t, rest)
  | None => None
  end.

(** The characters of a string after its opening quote, up to the
    closing one. *)
Fixpoint read_string (s : jsstring) : option (jsstring * jsstring) :=
  match s with
  | [] => None
  | u :: r =>
      if (u =? 34)%N then Some ([], r)
      else if (u =? 92)%N then
        match r with
        | [] => None
        | e :: r1 =>
            if (e =? 117)%N then
              match r1 with
              | a :: b :: c :: d :: r2 =>
                  match hex4 a b c d with
                  | Some x => cons_read x (read_string r2)
                  | None => None
                  end
              | _ => None
              end
            else
              match unescape e with
              | Some x => cons_read x (read_string r1)
              | None => None
              end
        end
      else if (u <? 32)%N then None
      else cons_read u (read_string r)
  end.

Definition literal (word : string) (s : jsstring) : option jsstring :=
  if starts_with (js word) s
  then Some (skipn (List.length (js word)) s)
  else None.

Definition with_value {A B} (a : A) (r : option B) : option (A * B) :=
  match r with
  | Some b => Some (a, b)
  | None => None
  end.

(** Values, the elements of an array after its bracket, and the
    members of an object after its brace.  [fuel] bounds the nesting
    and the number of elements read. *)
Fixpoint parse_value (fuel : nat) (s : jsstring) {struct fuel}
  : option (Json * jsstring) :=
  match fuel with
  | O => None
  | S fuel' =>
      match skip_ws s with
      | [] => None
      | u :: r =>
          if (u =? 110)%N then with_value JNull (literal "null" (u :: r))
          else if (u =? 116)%N then
            with_value (JBool true) (literal "true" (u :: r))
          else if (u =? 102)%N then
            with_value (JBool false) (literal "false" (u :: r))
          else if (u =? 34)%N then
            match read_string r with
            | Some (t, rest) => Some (JStr t, rest)
            | None => None
            end
          else if (u =? 91)%N then
            match skip_ws r with
            | [] => None
            | c :: r' =>
                if (c =? 93)%N then Some (JArr [], r')
                else
                  match parse_items fuel' r with
                  | Some (items, rest) => Some (JArr items, rest)
                  | None => None
                  end
            end
          else if (u =? 123)%N then
            match skip_ws r with
            | [] => None
            | c :: r' =>
                if (c =? 125)%N then Some (JObj [], r')
                else
                  match parse_members fuel' r with
                  | Some (members, rest) => Some (JObj members, rest)
                  | None => None
                  end
            end
          else
            match read_number (u :: r) with
            | Some (z, rest) => Some (JNum z, rest)
            | None => None
            end
      end
  end

with parse_items (fuel : nat) (s : jsstring) {struct fuel}
  : option (list Json * jsstring) :=
  match fuel with
  | O => None
  | S fuel' =>
      match parse_value fuel' s with
      | None => None
      | Some (j, rest) =>
          match skip_ws rest with
          | [] => None
          | c :: r =>
              if (c =? 44)%N then
                match parse_items fuel' r with
                | Some (items, rest') => Some (j :: items, rest')
                | None => None
                end
              else if (c =? 93)%N then Some ([j], r)
              else None
          end
      end
  end

with parse_members (fuel : nat) (s : jsstring) {struct fuel}
  : option (list (jsstring * Json) * jsstring) :=
  match fuel with
  | O => None
  | S fuel' =>
      match skip_ws s with
      | [] => None
      | q :: r =>
          if (q =? 34)%N then
            match read_string r with
            | None => None
            | Some (k, rest) =>
                match skip_ws rest with
                | [] => None
                | c :: r1 =>
                    if (c =? 58)%N then
                      match parse_value fuel' r1 with
                      | None => None
                      | Some (j, rest1) =>
                          match skip_ws rest1 with
                          | [] => None
                          | d :: r2 =>
                              if (d =? 44)%N then
                                match parse_members fuel' r2 with
                                | Some (ms, rest2) => Some ((k, j) :: ms, rest2)
                                | None => None
                                end
                              else if (d =? 125)%N then Some ([(k, j)], r2)
                              else None
                          end
                      end
                    else None
                end
            end
          else None
      end
  end.

(** [JSON.parse(text)], as the document tree. *)
Definition JSON_parse_tree (text : jsstring) : option Json :=
  match parse_value (S (List.length text)) text with
  | Some (j, rest) => if is_empty (skip_ws rest) then Some j else None
  | None => None
  end.

(** The value [JSON.parse] builds from the tree: the members of an
    object are defined one after the other, so a repeated key keeps
    its last value and index keys come first. *)
Fixpoint from_json (j : Json) : JsValue :=
  match j with
  | JNull => VNull
  | JBool b => VBool b
  | JNum z => VNumber (NumInt z)
  | JStr s => VString s
  | JArr items => VArray (map from_json items)
  | JObj members =>
      VObject (fromEntries (fun v => v)
                 (map (fun m => (fst m, from_json (snd m))) members))
  end.

Definition JSON_parse (text : jsstring) : option JsValue :=
  match JSON_parse_tree text with
  | Some j => Some (from_json j)
  | None => None
  end.

(* ================================================================== *)
(** ** The page state and the recorder's monad *)

(** The five console methods the recorder wraps. *)
Inductive Level : Type := Log | Error | Warn | Info | Debug.

Definition level_name (l : Level) : jsstring :=
  match l with
  | Log => js "log"
  | Error => js "error"
  | Warn => js "warn"
  | Info => js "info"
  | Debug => js "debug"
  end.

(** What the recorder reads and writes outside its own locals.

    [clock] gives the value of each successive [Date.now()] call and
    [reads] counts the calls made so far: two reads in one statement are
    two calls.  [tokens] and [draws] do the same for
    [Math.random().toString(36).slice(2)].  [session] is the script's
    [const session = []]; [console_calls] lists the calls that reached
    the original console methods saved in [originalConsole]; [href] is
    [location.href]; [downloads] lists the files handed to the browser
    for saving, each with its name and its text. *)
Record World : Type := mkWorld {
  clock : nat -> Z;
  reads : nat;
  tokens : nat -> jsstring;
  draws : nat;
  session : list JsValue;
  console_calls : list (Level * list JsValue);
  href : jsstring;
  downloads : list (jsstring * jsstring)
}.

Definition M (A : Type) : Type := World -> completion A * World.

Definition ret {A} (a : A) : M A := fun w => (Normal a, w).

Definition bind {A B} (c : M A) (k : A -> M B) : M B :=
  fun w =>
    match c w with
    | (Normal a, w') => k a w'
    | (Throw e, w') => (Throw e, w')
    end.

Definition throw {A} (e : JsValue) : M A := fun w => (Throw e, w).

(** A pure computation that may throw, run inside the monad. *)
Definition lift {A} (c : completion A) : M A := fun w => (c, w).

(** [try { body } catch (e) { handler }]: what [body] did to the page
    before it threw stays done. *)
Definition try_catch {A} (body : M A) (handler : JsValue -> M A) : M A :=
  fun w =>
    match body w with
    | (Normal a, w') => (Normal a, w')
    | (Throw e, w') => handler e w'
    end.

Declare Scope recorder_scope.
Delimit Scope recorder_scope with rec.
Notation "x <- c ;; k" := (bind c (fun x => k))
  (at level 61, c at next level, right associativity) : recorder_scope.
Notation "c ;;; k" := (bind c (fun _ => k))
  (at level 61, right associativity) : recorder_scope.
Local Open Scope recorder_scope.

(** [Date.now()]. *)
Definition Date_now : M Z :=
  fun w =>
    (Normal (clock w (reads w)),
     mkWorld (clock w) (S (reads w)) (tokens w) (draws w) (session w)
       (console_calls w) (href w) (downloads w)).

(** [Math.random().toString(36).slice(2)]. *)
Definition random_id : M jsstring :=
  fun w =>
    (Normal (tokens w (draws w)),
     mkWorld (clock w) (reads w) (tokens w) (S (draws w)) (session w)
       (console_calls w) (href w) (downloads w)).

(** [session.push(e)]. *)
Definition session_push (e : JsValue) : M unit :=
  fun w =>
    (Normal tt,
     mkWorld (clock w) (reads w) (tokens w) (draws w) (session w ++ [e])
       (console_calls w) (href w) (downloads w)).

(** [originalConsole[level].apply(console, args)]: the browser's own
    console method, which prints and returns. *)
Definition originalConsole (level : Level) (args : list JsValue) : M unit :=
  fun w =>
    (Normal tt,
     mkWorld (clock w) (reads w) (tokens w) (draws w) (session w)
       (console_calls w ++ [(level, args)]) (href w) (downloads w)).

Definition location_href : M jsstring := fun w => (Normal (href w), w).

Definition set_href (h : jsstring) : M unit :=
  fun w =>
    (Normal tt,
     mkWorld (clock w) (reads w) (tokens w) (draws w) (session w)
       (console_calls w) h (downloads w)).

Definition save_file (name text : jsstring) : M unit :=
  fun w =>
    (Normal tt,
     mkWorld (clock w) (reads w) (tokens w) (draws w) (session w)
       (console_calls w) (href w) (downloads w ++ [(name, text)])).

Definition num (z : Z) : JsValue := VNumber (NumInt z).
Definition str (s : string) : JsValue := VString (js s).

(** [a || b]. *)
Definition or_else (a b : JsValue) : JsValue :=
  if ToBoolean a then a else b.

(* ================================================================== *)
(** ** The recorder *)

(** [emit(e) { session.push(e); }], the callback given to
    [window.rrweb.record]: every event of the recording substrate
    arrives here. *)
Definition emit (e : JsValue) : M unit := session_push e.

(** The standalone variant's own emitter:
[[
    function addCustomEvent(tag, payload) {
        session.push({ type: 5, data: { tag, payload }, timestamp: Date.now() });
    }
]]
    [rrweb-recorder.js] calls the substrate's [window.rrweb.addCustomEvent]
    at the same places. *)
Definition addCustomEvent (tag : jsstring) (payload : JsValue) : M unit :=
  now <- Date_now ;;
  session_push
    (VObject [(js "type", num 5);
              (js "data", VObject [(js "tag", VString tag);
                                   (js "payload", payload)]);
              (js "timestamp", num now)]).

(** [serializeData(data, maxSize = 4096)]. *)
Definition form_field (value : FormEntry) : JsValue :=
  match value with
  | FieldString s => VString s
  | FieldFile => str "[File]"
  end.

Definition serializeData (data : JsValue) (maxSize : Z) : completion jsstring :=
  if negb (ToBoolean data) then Normal []
  else
    ctry
      (match data with
       | VString s => Normal (slice s 0 maxSize)
       | VFormData fd =>
           let entries := fromEntries form_field fd in
           cbind (JSON_stringify (VObject entries)) (fun t =>
           call_slice t maxSize)
       | VArrayBuffer n =>
           Normal (js "[Binary data: " ++ int_text (Z.of_N n) ++ js " bytes]")
       | VUint8Array b =>
           Normal (js "[Binary data: "
                     ++ int_text (Z.of_nat (List.length b)) ++ js " bytes]")
       | _ =>
           cbind (JSON_stringify data) (fun t => call_slice t maxSize)
       end)
      (fun _ =>
         cbind (String_ data) (fun t => Normal (slice t 0 maxSize))).

(** A call that leaves [maxSize] out. *)
Definition serializeData_default (data : JsValue) : completion jsstring :=
  serializeData data 4096.

(** What a settled native [fetch] hands back.  [headers] is the header
    list as [Headers] iterates it (names in lower case, one entry per
    name); [body] is what reading the body as text gives, the read
    failing with a thrown value; [bodyUsed] tells whether the body of
    this very object has been read. *)
Record Response : Type := mkResponse {
  status : Z;
  statusText : jsstring;
  ok : bool;
  headers : list (jsstring * jsstring);
  body : completion jsstring;
  bodyUsed : bool
}.

(** [res.clone()]: refused once the body has been read. *)
Definition Response_clone (res : Response) : completion Response :=
  if bodyUsed res then Throw (TypeError "Response body is already used")
  else Normal res.

(** [await r.text()], returning the text and the object, now read. *)
Definition Response_text (r : Response) : completion jsstring * Response :=
  (body r,
   mkResponse (status r) (statusText r) (ok r) (headers r) (body r) true).

(** [headers.get(name) || fallback]. *)
Definition header_or (hs : list (jsstring * jsstring)) (name fallback : string)
  : jsstring :=
  match lookup (js name) hs with
  | Some (u :: v) => u :: v
  | _ => js fallback
  end.

Inductive Settlement : Type :=
| Resolved (res : Response)
| Rejected (err : JsValue).

(** The locals of one [fetch] call that survive its [await]. *)
Record FetchCall : Type := mkFetchCall {
  call_id : jsstring;
  call_started : Z
}.

(** The five signals of an [XMLHttpRequest] the recorder listens to,
    and the two listeners it installs. *)
Inductive Signal : Type := Load | Loadend | SigError | Abort | Timeout.

Inductive Handler : Type := OnResponse | OnError.

Definition Signal_eqb (a b : Signal) : bool :=
  match a, b with
  | Load, Load | Loadend, Loadend | SigError, SigError
  | Abort, Abort | Timeout, Timeout => true
  | _, _ => false
  end.

(** The response of a native request, by its [xhr.responseType]: a
    text (for [""] and ["text"]), a parsed JSON value, a [Blob] or an
    [ArrayBuffer] of some size, a document; [null] where the browser
    has none to give. *)
Inductive XhrPayload : Type :=
| AsDefault (text : jsstring)
| AsText (text : jsstring)
| AsJson (value : JsValue)
| AsBlob (size : option N)
| AsArrayBuffer (byteLength : option N)
| AsDocument (present : bool).

(** The native request object as a listener finds it. *)
Record XhrView : Type := mkXhrView {
  xhr_payload : XhrPayload;
  xhr_contentType : option jsstring;
  xhr_status : Z;
  xhr_statusText : jsstring;
  xhr_allResponseHeaders : jsstring
}.

Definition InvalidStateError : JsValue :=
  VError (js "InvalidStateError") (js "The object is in an invalid state")
    (js "") (Normal (Some (JObj []))).

(** [xhr.responseText]: the text when the response type is [""] or
    ["text"], an [InvalidStateError] otherwise. *)
Definition xhr_responseText (v : XhrView) : completion jsstring :=
  match xhr_payload v with
  | AsDefault t | AsText t => Normal t
  | _ => Throw InvalidStateError
  end.

Definition Blob_value (size : N) : JsValue :=
  VHost (Normal (Some (JObj []))) (Normal (js "[object Blob]"))
    [(js "size", VNumber (NumInt (Z.of_N size)))].

Definition Document_value : JsValue :=
  VHost (Normal (Some (JObj []))) (Normal (js "[object HTMLDocument]")) [].

(** [xhr.response]. *)
Definition xhr_response (v : XhrView) : JsValue :=
  match xhr_payload v with
  | AsDefault t | AsText t => VString t
  | AsJson value => value
  | AsBlob (Some n) => Blob_value n
  | AsArrayBuffer (Some n) => VArrayBuffer n
  | AsDocument true => Document_value
  | _ => VNull
  end.

(** The locals of one [WrappedXHR] instance, shared by its wrapped
    methods and by the listeners they install. *)
Record XhrInstance : Type := mkXhrInstance {
  xhr_id : jsstring;
  xhr_url : JsValue;
  xhr_method : JsValue;
  xhr_started : Z;
  requestHeaders : list (jsstring * JsValue);
  xhr_requestBody : jsstring;
  listeners : list (Signal * Handler)
}.

(** The browser's own history mutator: from the arguments and the
    current location, what it returns or throws and the location it
    leaves. *)
Definition NativeHistory : Type :=
  list JsValue -> jsstring -> completion JsValue * jsstring.

Section Interceptors.

(** The event sink: [window.rrweb.addCustomEvent] in
    [rrweb-recorder.js], the script's own [addCustomEvent] in the
    standalone variant. *)
Variable sink : jsstring -> JsValue -> M unit.

(* ---------------------------------------------------------------- *)
(** *** Console capture *)

(** The rendering of one argument in [message]. *)
Definition render_message (arg : JsValue) : completion JsValue :=
  match arg with
  | VString _ => Normal arg
  | VError name message stack _ =>
      Normal (VString (name ++ js ": " ++ message ++ [10%N] ++ stack))
  | _ =>
      ctry (JSON_stringify_2 arg)
        (fun _ => cbind (String_ arg) (fun s => Normal (VString s)))
  end.

(** [rendered.join(' ')]: [undefined] and [null] join as nothing. *)
Definition Array_join (sep : jsstring) (l : list JsValue)
  : completion jsstring :=
  cbind (cmap (fun x => match x with
                        | VUndefined | VNull => Normal []
                        | _ => ToString x
                        end) l)
    (fun parts => Normal (join sep parts)).

(** The rendering of one argument in [args]. *)
Definition render_arg (arg : JsValue) : completion JsValue :=
  ctry (match arg with
        | VString _ => Normal arg
        | _ => JSON_stringify arg
        end)
    (fun _ => cbind (String_ arg) (fun s => Normal (VString s))).

(** The body of the wrapper's [try] block. *)
Definition capture_console (level : Level) (args : list JsValue) : M unit :=
  message <- lift (cbind (cmap render_message args) (Array_join (js " "))) ;;
  rendered <- lift (cmap render_arg args) ;;
  now <- Date_now ;;
  url <- location_href ;;
  sink (js "console")
    (VObject [(js "level", VString (level_name level));
              (js "message", VString message);
              (js "args", VArray rendered);
              (js "timestamp", num now);
              (js "url", VString url)]).

(** [console[level] = function(...args) { ... }]. *)
Definition console_wrapper (level : Level) (args : list JsValue) : M unit :=
  originalConsole level args ;;;
  try_catch (capture_console level args)
    (fun e => originalConsole Error [str "Failed to capture console log:"; e]).

(* ---------------------------------------------------------------- *)
(** *** fetch *)

(** [window.fetch = async function (resource, init = {})], up to its
    [await origFetch.apply(this, arguments)].  A throw here rejects
    the wrapper's promise before the native [fetch] is called. *)
Definition fetch_begin (resource init_arg : JsValue) : M FetchCall :=
  let init := match init_arg with
              | VUndefined => VObject []
              | _ => init_arg
              end in
  started <- Date_now ;;
  id <- random_id ;;
  body <- lift (get init "body") ;;
  requestBody <- (if ToBoolean body then lift (serializeData_default body)
                  else ret []) ;;
  url <- lift (String_ resource) ;;
  method <- lift (get init "method") ;;
  hs <- lift (get init "headers") ;;
  sink (js "network")
    (VObject [(js "id", VString id);
              (js "phase", str "start");
              (js "api", str "fetch");
              (js "url", VString url);
              (js "method", or_else method (str "GET"));
              (js "headers", or_else hs (VObject []));
              (js "requestBody", VString requestBody);
              (js "timestamp", num started)]) ;;;
  ret (mkFetchCall id started).

(** The inner [try] block: the response text and type chosen from
    the content type, the duplicate's body being read for all but
    images, video and audio. *)
Definition classify (res clone : Response) : completion (jsstring * jsstring) :=
  let contentType := header_or (headers res) "content-type" "" in
  if includes contentType (js "application/json") then
    cbind (fst (Response_text clone)) (fun t => Normal (t, js "json"))
  else if includes contentType (js "text/") then
    cbind (fst (Response_text clone)) (fun t => Normal (t, js "text"))
  else if includes contentType (js "image/")
          || includes contentType (js "video/")
          || includes contentType (js "audio/") then
    Normal (js "[" ++ contentType ++ js " - "
              ++ header_or (headers res) "content-length" "unknown"
              ++ js " bytes]",
            js "binary")
  else
    cbind (fst (Response_text clone)) (fun t => Normal (t, js "text")).

(** The inner [catch (err)]: the type is still the initial ["text"],
    since each branch assigns it after its read. *)
Definition read_failed (err : JsValue) : completion (jsstring * jsstring) :=
  cbind (get err "message") (fun m =>
  cbind (ToString m) (fun s =>
  Normal (js "[Error reading response: " ++ s ++ js "]", js "text"))).

(** The outer [catch (err)]. *)
Definition fetch_failed (call : FetchCall) (err : JsValue) : M Response :=
  message <- lift (get err "message") ;;
  stack <- lift (get err "stack") ;;
  t1 <- Date_now ;;
  t2 <- Date_now ;;
  sink (js "network")
    (VObject [(js "id", VString (call_id call));
              (js "phase", str "error");
              (js "error", message);
              (js "stack", stack);
              (js "duration", num (t1 - call_started call));
              (js "timestamp", num t2)]) ;;;
  throw err.

(** The outer [try] block after a resolved [await]. *)
Definition fetch_resolved (call : FetchCall) (res : Response) : M Response :=
  try_catch
    (clone <- lift (Response_clone res) ;;
     read <- lift (ctry (classify res clone) read_failed) ;;
     responseBody <- lift (serializeData_default (VString (fst read))) ;;
     t1 <- Date_now ;;
     t2 <- Date_now ;;
     sink (js "network")
       (VObject [(js "id", VString (call_id call));
                 (js "phase", str "end");
                 (js "status", num (status res));
                 (js "statusText", VString (statusText res));
                 (js "ok", VBool (ok res));
                 (js "headers", VObject (fromEntries VString (headers res)));
                 (js "responseBody", VString responseBody);
                 (js "responseType", VString (snd read));
                 (js "duration", num (t1 - call_started call));
                 (js "timestamp", num t2)]) ;;;
     ret res)
    (fetch_failed call).

(** The wrapper from its [await] on: [Normal res] resolves the
    wrapper's promise with [res], [Throw e] rejects it with [e]. *)
Definition fetch_settle (call : FetchCall) (s : Settlement) : M Response :=
  match s with
  | Resolved res => fetch_resolved call res
  | Rejected err => fetch_failed call err
  end.

(* ---------------------------------------------------------------- *)
(** *** XMLHttpRequest *)

(** [window.XMLHttpRequest = function WrappedXHR() { ... }]: a fresh
    native object with the instance's locals. *)
Definition WrappedXHR : M XhrInstance :=
  id <- random_id ;;
  ret (mkXhrInstance id (str "") (str "GET") 0 [] [] []).

(** [xhr.open = function (m, u)]; [native] is what the browser's own
    [open] does with the same arguments. *)
Definition xhr_open (m u : JsValue) (native : completion JsValue)
  (x : XhrInstance) : completion JsValue * XhrInstance :=
  (native,
   mkXhrInstance (xhr_id x) u m (xhr_started x) (requestHeaders x)
     (xhr_requestBody x) (listeners x)).

(** [xhr.setRequestHeader = function (header, value)]. *)
Definition xhr_setRequestHeader (header : jsstring) (value : JsValue)
  (native : completion JsValue) (x : XhrInstance)
  : completion JsValue * XhrInstance :=
  (native,
   mkXhrInstance (xhr_id x) (xhr_url x) (xhr_method x) (xhr_started x)
     (obj_set (requestHeaders x) header value)
     (xhr_requestBody x) (listeners x)).

(** The listeners [xhr.send] adds, in the order it adds them. *)
Definition send_listeners : list (Signal * Handler) :=
  [(Load, OnResponse); (Loadend, OnResponse);
   (SigError, OnError); (Abort, OnError); (Timeout, OnError)].

(** [xhr.send = function (body)]: the result of the call and the
    instance's locals after it. *)
Definition xhr_send (body : JsValue) (native : completion JsValue)
  (x : XhrInstance) : M (completion JsValue * XhrInstance) :=
  started <- Date_now ;;
  let x1 := mkXhrInstance (xhr_id x) (xhr_url x) (xhr_method x) started
              (requestHeaders x) (xhr_requestBody x) (listeners x) in
  match serializeData_default body with
  | Throw e => ret (Throw e, x1)
  | Normal requestBody =>
      let x2 := mkXhrInstance (xhr_id x) (xhr_url x) (xhr_method x) started
                  (requestHeaders x) requestBody (listeners x) in
      try_catch
        (sink (js "network")
           (VObject [(js "id", VString (xhr_id x));
                     (js "phase", str "start");
                     (js "api", str "xhr");
                     (js "url", xhr_url x);
                     (js "method", xhr_method x);
                     (js "headers", VObject (requestHeaders x));
                     (js "requestBody", VString requestBody);
                     (js "timestamp", num started)]) ;;;
         ret (native,
              mkXhrInstance (xhr_id x) (xhr_url x) (xhr_method x) started
                (requestHeaders x) requestBody
                (listeners x ++ send_listeners)))
        (fun e => ret (Throw e, x2))
  end.

(** [x?.name]. *)
Definition get_opt (v : JsValue) (name : string) : completion JsValue :=
  match v with
  | VUndefined | VNull => Normal VUndefined
  | _ => get v name
  end.

(** The [try] block of [handleResponse]: the response body and type. *)
Definition xhr_classify (v : XhrView) : completion (JsValue * jsstring) :=
  let json_header :=
    match xhr_contentType v with
    | Some ct => includes ct (js "application/json")
    | None => false
    end in
  match xhr_payload v with
  | AsJson _ =>
      cbind (xhr_responseText v) (fun t =>
      Normal (or_else (VString t) (xhr_response v), js "json"))
  | p =>
      if json_header then
        cbind (xhr_responseText v) (fun t =>
        Normal (or_else (VString t) (xhr_response v), js "json"))
      else
        match p with
        | AsBlob _ | AsArrayBuffer _ =>
            cbind (get_opt (xhr_response v) "size") (fun size =>
            cbind (if ToBoolean size then Normal size
                   else get_opt (xhr_response v) "byteLength") (fun n =>
            cbind (ToString (or_else n (str "unknown"))) (fun s =>
            Normal (VString (js "[Binary response: " ++ s ++ js " bytes]"),
                    js "binary"))))
        | _ =>
            cbind (xhr_responseText v) (fun t =>
            if ToBoolean (VString t) then Normal (VString t, js "text")
            else
              cbind (String_ (or_else (xhr_response v) (str ""))) (fun s =>
              Normal (VString s, js "text")))
        end
  end.

Definition xhr_read_failed (e : JsValue) : completion (JsValue * jsstring) :=
  cbind (get e "message") (fun m =>
  cbind (ToString m) (fun s =>
  Normal (VString (js "[Error reading response: " ++ s ++ js "]"),
          js "text"))).

(** [const handleResponse = () => { ... }]. *)
Definition handleResponse (x : XhrInstance) (v : XhrView) : M unit :=
  read <- lift (ctry (xhr_classify v) xhr_read_failed) ;;
  responseBody <- lift (serializeData_default (fst read)) ;;
  t1 <- Date_now ;;
  t2 <- Date_now ;;
  sink (js "network")
    (VObject [(js "id", VString (xhr_id x));
              (js "phase", str "end");
              (js "status", num (xhr_status v));
              (js "statusText", VString (xhr_statusText v));
              (js "ok", VBool ((200 <=? xhr_status v) && (xhr_status v <? 400)));
              (js "responseHeaders", VString (xhr_allResponseHeaders v));
              (js "responseBody", VString responseBody);
              (js "responseType", VString (snd read));
              (js "duration", num (t1 - xhr_started x));
              (js "timestamp", num t2)]).

(** [const handleError = () => { ... }]. *)
Definition handleError (x : XhrInstance) : M unit :=
  t1 <- Date_now ;;
  t2 <- Date_now ;;
  sink (js "network")
    (VObject [(js "id", VString (xhr_id x));
              (js "phase", str "error");
              (js "error", str "Network error");
              (js "duration", num (t1 - xhr_started x));
              (js "timestamp", num t2)]).

Definition run_handler (h : Handler) (x : XhrInstance) (v : XhrView) : M unit :=
  match h with
  | OnResponse => handleResponse x v
  | OnError => handleError x
  end.

(** The browser firing one signal on the request: every listener
    added for it runs, in the order of addition.  A listener that
    throws does not stop the others; the result lists what was
    thrown, which the browser reports as uncaught. *)
Fixpoint run_listeners (ls : list (Signal * Handler)) (sig : Signal)
  (x : XhrInstance) (v : XhrView) : M (list JsValue) :=
  match ls with
  | [] => ret []
  | (s, h) :: rest =>
      thrown <- (if Signal_eqb s sig
                 then try_catch (run_handler h x v ;;; ret [])
                        (fun e => ret [e])
                 else ret []) ;;
      more <- run_listeners rest sig x v ;;
      ret (thrown ++ more)
  end.

Definition dispatch (sig : Signal) (v : XhrView) (x : XhrInstance)
  : M (list JsValue) :=
  run_listeners (listeners x) sig x v.

Fixpoint dispatch_all (sigs : list Signal) (v : XhrView) (x : XhrInstance)
  : M (list JsValue) :=
  match sigs with
  | [] => ret []
  | sig :: rest =>
      thrown <- dispatch sig v x ;;
      more <- dispatch_all rest v x ;;
      ret (thrown ++ more)
  end.

(* ---------------------------------------------------------------- *)
(** *** History *)

Definition call_native (native : NativeHistory) (args : list JsValue)
  : M JsValue :=
  fun w =>
    let (r, h) := native args (href w) in
    (r, snd (set_href h w)).

(** [const emitNav = () => addCustomEvent("nav", { href, t })]. *)
Definition emitNav : M unit :=
  h <- location_href ;;
  now <- Date_now ;;
  sink (js "nav") (VObject [(js "href", VString h); (js "t", num now)]).

(** [history.pushState = function () { ... }]. *)
Definition pushState (push : NativeHistory) (args : list JsValue) : M JsValue :=
  r <- call_native push args ;;
  emitNav ;;;
  ret r.

(** [history.replaceState = function () { ... }]. *)
Definition replaceState (replace : NativeHistory) (args : list JsValue)
  : M JsValue :=
  r <- call_native replace args ;;
  emitNav ;;;
  ret r.

End Interceptors.

(* ------------------------------------------------------------------ *)
(** *** Session controls: [window.__rr] *)







(** [download]: the text handed to the [Blob], saved under
    [rrweb-session-${Date.now()}.json]. *)
Definition export_text (events : list JsValue) : completion JsValue :=
  JSON_stringify_2 (VArray events).

Definition download : M unit :=
  events <- (fun w => (Normal (session w), w)) ;;
  text <- lift (cbind (export_text events) String_) ;;
  now <- Date_now ;;
  save_file (js "rrweb-session-" ++ int_text now ++ js ".json") text.

(** [getNetworkEvents]: [session.filter(event => event.type === 5 &&
    event.data.tag === "network")]. *)
Definition strict_equal_num (v : JsValue) (z : Z) : bool :=
  match v with
  | VNumber (NumInt z') => z' =? z
  | _ => false
  end.

Definition strict_equal_str (v : JsValue) (s : jsstring) : bool :=
  match v with
  | VString s' => jsstring_eqb s' s
  | _ => false
  end.

Definition is_network_event (event : JsValue) : completion bool :=
  cbind (get event "type") (fun ty =>
  if strict_equal_num ty 5 then
    cbind (get event "data") (fun d =>
    cbind (get d "tag") (fun tag =>
    Normal (strict_equal_str tag (js "network"))))
  else Normal false).

Fixpoint cfilter {A} (p : A -> completion bool) (l : list A)
  : completion (list A) :=
  match l with
  | [] => Normal []
  | a :: rest =>
      cbind (p a) (fun keep =>
      cbind (cfilter p rest) (fun kept =>
      Normal (if keep then a :: kept else kept)))
  end.

Definition getNetworkEvents : M (list JsValue) :=
  fun w => (cfilter is_network_event (session w), w).

(* ================================================================== *)
(** ** Vocabulary of the properties *)

(* ------------------------------------------------------------------ *)
(** *** [serializeData] *)

(** The kinds of value [serializeData] treats before its generic
    branch. *)
Definition has_own_branch (data : JsValue) : bool :=
  match data with
  | VString _ | VFormData _ | VArrayBuffer _ | VUint8Array _ => true
  | _ => false
  end.

(** The generic branch with its fallback: [JSON.stringify(data)
    .slice(0, maxSize)], and [String(data).slice(0, maxSize)] when that
    throws. *)
Definition json_branch (data : JsValue) (maxSize : Z) : completion jsstring :=
  ctry (cbind (JSON_stringify data) (fun t => call_slice t maxSize))
    (fun _ => cbind (String_ data) (fun t => Normal (slice t 0 maxSize))).

(** A self-referential object, [const o = {}; o.self = o]:
    [JSON.stringify] refuses the cycle, [String(o)] is
    ["[object Object]"].  (Its property [self], the object itself, is
    not listed.) *)
Definition cyclic_object : JsValue :=
  VHost (Throw (TypeError "Converting circular structure to JSON"))
    (Normal (js "[object Object]")) [].

(** A self-referential array, [const a = []; a.push(a)]: the join
    behind [String(a)] renders the element that closes the cycle as
    nothing. *)
Definition cyclic_array : JsValue :=
  VHost (Throw (TypeError "Converting circular structure to JSON"))
    (Normal []) [(js "length", num 1)].

(** A self-referential object without prototype,
    [const o = Object.create(null); o.self = o]: it has no [toString]
    for [String(o)] to call. *)
Definition bare_cyclic_object : JsValue :=
  VHost (Throw (TypeError "Converting circular structure to JSON"))
    (Throw (TypeError "Cannot convert object to primitive value")) [].

(* ------------------------------------------------------------------ *)
(** *** The console *)

(** A computation that makes no call to the original console. *)
Definition keeps_console {A} (c : M A) : Prop :=
  forall w, console_calls (snd (c w)) = console_calls w.

(** The report the console wrapper makes of a capture failure. *)
Definition capture_report (e : JsValue) : Level * list JsValue :=
  (Error, [str "Failed to capture console log:"; e]).

(* ------------------------------------------------------------------ *)
(** *** Recorded events *)

(** The page after [k] more clock reads. *)
Definition after_reads (k : nat) (w : World) : World :=
  mkWorld (clock w) (k + reads w) (tokens w) (draws w) (session w)
    (console_calls w) (href w) (downloads w).

(** The page with one more event in the buffer. *)
Definition with_event (e : JsValue) (w : World) : World :=
  mkWorld (clock w) (reads w) (tokens w) (draws w) (session w ++ [e])
    (console_calls w) (href w) (downloads w).

(** The event [addCustomEvent(tag, payload)] pushes at time [ts]. *)
Definition custom_event (tag : jsstring) (payload : JsValue) (ts : Z) : JsValue :=
  VObject [(js "type", num 5);
           (js "data", VObject [(js "tag", VString tag);
                                (js "payload", payload)]);
           (js "timestamp", num ts)].

(** Reading a field of a recorded object. *)
Definition field (v : JsValue) (name : string) : JsValue :=
  match v with
  | VObject props => own props (js name)
  | _ => VUndefined
  end.

Definition payload_of (event : JsValue) : JsValue :=
  field (field event "data") "payload".

Definition tag_of (event : JsValue) : JsValue :=
  field (field event "data") "tag".

Definition phase_of (event : JsValue) : JsValue :=
  field (payload_of event) "phase".

Definition id_of (event : JsValue) : JsValue :=
  field (payload_of event) "id".

Definition keys_of (v : JsValue) : list jsstring :=
  match v with
  | VObject props => map fst props
  | _ => []
  end.

(** A network event of the given phase for the given correlation id. *)
Definition is_phase (phase : string) (id : jsstring) (event : JsValue) : bool :=
  strict_equal_str (tag_of event) (js "network")
  && strict_equal_str (id_of event) id
  && strict_equal_str (phase_of event) (js phase).

Definition is_start (id : jsstring) (event : JsValue) : bool :=
  is_phase "start" id event.

(** A terminal event: phase [end] or [error]. *)
Definition is_terminal (id : jsstring) (event : JsValue) : bool :=
  is_phase "end" id event || is_phase "error" id event.

Definition count {A} (p : A -> bool) (l : list A) : nat :=
  List.length (filter p l).

(* ------------------------------------------------------------------ *)
(** *** XMLHttpRequest *)

(** The phase of the terminal event each signal's listener emits. *)
Definition signal_phase (sig : Signal) : JsValue :=
  match sig with
  | Load | Loadend => str "end"
  | SigError | Abort | Timeout => str "error"
  end.

(** The payloads of the two terminal events of a request, given what
    the two clock reads of the listener returned. *)
Definition xhr_end_payload (x : XhrInstance) (v : XhrView)
  (responseBody responseType : jsstring) (t1 t2 : Z) : JsValue :=
  VObject [(js "id", VString (xhr_id x));
           (js "phase", str "end");
           (js "status", num (xhr_status v));
           (js "statusText", VString (xhr_statusText v));
           (js "ok", VBool ((200 <=? xhr_status v) && (xhr_status v <? 400)));
           (js "responseHeaders", VString (xhr_allResponseHeaders v));
           (js "responseBody", VString responseBody);
           (js "responseType", VString responseType);
           (js "duration", num (t1 - xhr_started x));
           (js "timestamp", num t2)].

Definition xhr_error_payload (x : XhrInstance) (t1 t2 : Z) : JsValue :=
  VObject [(js "id", VString (xhr_id x));
           (js "phase", str "error");
           (js "error", str "Network error");
           (js "duration", num (t1 - xhr_started x));
           (js "timestamp", num t2)].

(** An instance as [xhr.send] leaves it when called once on a new
    request. *)
Definition sent_once (x : XhrInstance) : Prop :=
  listeners x = send_listeners.

(* ------------------------------------------------------------------ *)
(** *** fetch *)

(** The payloads of the events of a [fetch] call. *)
Definition fetch_start_payload (call : FetchCall) (url : jsstring)
  (method hs : JsValue) (requestBody : jsstring) : JsValue :=
  VObject [(js "id", VString (call_id call));
           (js "phase", str "start");
           (js "api", str "fetch");
           (js "url", VString url);
           (js "method", or_else method (str "GET"));
           (js "headers", or_else hs (VObject []));
           (js "requestBody", VString requestBody);
           (js "timestamp", num (call_started call))].

Definition fetch_end_payload (call : FetchCall) (res : Response)
  (responseBody responseType : jsstring) (t1 t2 : Z) : JsValue :=
  VObject [(js "id", VString (call_id call));
           (js "phase", str "end");
           (js "status", num (status res));
           (js "statusText", VString (statusText res));
           (js "ok", VBool (ok res));
           (js "headers", VObject (fromEntries VString (headers res)));
           (js "responseBody", VString responseBody);
           (js "responseType", VString responseType);
           (js "duration", num (t1 - call_started call));
           (js "timestamp", num t2)].

Definition fetch_error_payload (call : FetchCall) (message stack : JsValue)
  (t1 t2 : Z) : JsValue :=
  VObject [(js "id", VString (call_id call));
           (js "phase", str "error");
           (js "error", message);
           (js "stack", stack);
           (js "duration", num (t1 - call_started call));
           (js "timestamp", num t2)].

(** A clock that does not run backwards. *)
Definition monotone (c : nat -> Z) : Prop :=
  forall i j, (i <= j)%nat -> c i <= c j.

(** A settlement the wrapper's [catch] blocks can describe: a response
    not read yet whose body read, if it fails, fails with a value
    carrying a printable [message]; or a rejection with a value that
    has properties, i.e. neither [null] nor [undefined]. *)
Definition ordinary (s : Settlement) : Prop :=
  match s with
  | Resolved res =>
      bodyUsed res = false /\
      forall e, body res = Throw e -> exists m, read_failed e = Normal m
  | Rejected err => err <> VNull /\ err <> VUndefined
  end.

Definition terminal_phase (s : Settlement) : string :=
  match s with
  | Resolved _ => "end"
  | Rejected _ => "error"
  end.

(** What the caller of the wrapper gets when it is transparent. *)
Definition settled_value (s : Settlement) : completion Response :=
  match s with
  | Resolved res => Normal res
  | Rejected err => Throw err
  end.

(** A response whose [ok] flag is the browser's: set exactly for the
    statuses 200 to 299. *)
Definition native_ok (res : Response) : Prop :=
  ok res = ((200 <=? status res) && (status res <=? 299)).

(* ------------------------------------------------------------------ *)
(** *** JSON text *)

(** A run of JSON white space. *)
Definition whitespace (s : jsstring) : Prop :=
  Forall (fun u => is_ws u = true) s.

(** Text that ends a number: nothing, or a character that is neither a
    digit nor the start of a fraction or an exponent. *)
Definition delimited (rest : jsstring) : Prop :=
  match rest with
  | [] => True
  | u :: _ => is_digit u = false /\ ends_number rest = true
  end.

(** The first character of a printed value is not white space and
    closes nothing. *)
Definition opens_value (c : N) : Prop :=
  is_ws c = false /\ (c =? 93)%N = false /\ (c =? 125)%N = false.

(** The printed form of one member of an object. *)
Definition print_member (gap indent : jsstring) (m : jsstring * Json) : jsstring :=
  quote (fst m) ++ colon gap ++ print_json gap indent (snd m).

(** A bound on the fuel reading a printed document takes. *)
Fixpoint size (j : Json) : nat :=
  match j with
  | JArr items => S (fold_right (fun x n => S (size x + n)) O items)
  | JObj members => S (fold_right (fun m n => S (size (snd m) + n)) O members)
  | _ => 1
  end.

Definition items_size (items : list Json) : nat :=
  fold_right (fun x n => S (size x + n)) O items.

Definition members_size (members : list (jsstring * Json)) : nat :=
  fold_right (fun m n => S (size (snd m) + n)) O members.

(** The reader gives back what the printer printed, with [fuel] at
    hand: for a value, for the elements of an array, and for the
    members of an object, each followed by the closing white space. *)
Definition reads_values (gap : jsstring) (fuel : nat) : Prop :=
  forall j indent rest,
    whitespace indent -> (size j <= fuel)%nat -> delimited rest ->
    parse_value fuel (print_json gap indent j ++ rest) = Some (j, rest).

Definition reads_items (gap : jsstring) (fuel : nat) : Prop :=
  forall items pre post indent rest,
    items <> [] -> whitespace pre -> whitespace post -> whitespace indent ->
    (items_size items <= fuel)%nat ->
    parse_items fuel
      (pre ++ join (44%N :: pre) (map (print_json gap indent) items)
         ++ post ++ 93%N :: rest)
    = Some (items, rest).

Definition reads_members (gap : jsstring) (fuel : nat) : Prop :=
  forall members pre post indent rest,
    members <> [] -> whitespace pre -> whitespace post -> whitespace indent ->
    (members_size members <= fuel)%nat ->
    parse_members fuel
      (pre ++ join (44%N :: pre) (map (print_member gap indent) members)
         ++ post ++ 125%N :: rest)
    = Some (members, rest).

(* ------------------------------------------------------------------ *)
(** *** JSON data *)

(** The keys of an object in enumeration order: array indices first by
    ascending value, then names, no key twice.  [key_ltb a b] holds
    when [a] may come before [b]. *)
Definition key_ltb (a b : jsstring) : bool :=
  match array_index a, array_index b with
  | Some m, Some n => (m <? n)%N
  | Some _, None => true
  | None, Some _ => false
  | None, None => negb (jsstring_eqb a b)
  end.

Fixpoint ordered_keys (ks : list jsstring) : bool :=
  match ks with
  | [] => true
  | k :: rest => forallb (key_ltb k) rest && ordered_keys rest
  end.

(** Plain JSON data: [null], booleans, integers, strings, arrays and
    objects of such, the objects listing their keys in enumeration
    order.  These are the values [JSON.stringify] encodes without
    loss. *)
Fixpoint json_data (v : JsValue) : bool :=
  match v with
  | VNull | VBool _ | VString _ => true
  | VNumber (NumInt _) => true
  | VArray elems => forallb json_data elems
  | VObject props =>
      ordered_keys (map fst props)
      && forallb (fun p => json_data (snd p)) props
  | _ => false
  end.

(** Induction on values, through arrays and objects. *)
Definition JsValue_induction (P : JsValue -> Prop)
  (Hleaf : forall v,
      match v with
      | VArray _ | VObject _ => False
      | _ => True
      end -> P v)
  (Harr : forall elems, Forall P elems -> P (VArray elems))
  (Hobj : forall props, Forall (fun p => P (snd p)) props -> P (VObject props))
  : forall v, P v :=
  fix F (v : JsValue) : P v :=
    match v with
    | VArray elems =>
        Harr elems
          ((fix G (l : list JsValue) : Forall P l :=
              match l with
              | [] => Forall_nil P
              | x :: r => Forall_cons x (F x) (G r)
              end) elems)
    | VObject props =>
        Hobj props
          ((fix G (l : list (jsstring * JsValue))
              : Forall (fun p => P (snd p)) l :=
              match l with
              | [] => Forall_nil _
              | p :: r => Forall_cons p (F (snd p)) (G r)
              end) props)
    | VUndefined => Hleaf VUndefined I
    | VNull => Hleaf VNull I
    | VBool b => Hleaf (VBool b) I
    | VNumber n => Hleaf (VNumber n) I
    | VBigInt z => Hleaf (VBigInt z) I
    | VString s => Hleaf (VString s) I
    | VSymbol d => Hleaf (VSymbol d) I
    | VError n m s j => Hleaf (VError n m s j) I
    | VFormData e => Hleaf (VFormData e) I
    | VArrayBuffer n => Hleaf (VArrayBuffer n) I
    | VUint8Array b => Hleaf (VUint8Array b) I
    | VHost a b c => Hleaf (VHost a b c) I
    end.

(* ------------------------------------------------------------------ *)
(** *** Session controls *)

(** The page after more events have reached the buffer. *)
Definition appended (later : list JsValue) (w : World) : World :=
  fold_left (fun w' e => snd (emit e w')) later w.







(* ------------------------------------------------------------------ *)
(** *** Pages and requests of the examples *)

(** A page at load: a clock that advances by 3 ms from one read to the
    next, a source of distinct ids, an empty buffer. *)
Definition page : World :=
  mkWorld (fun n => 1700000000000 + 3 * Z.of_nat n) 0
    (fun n => js "k7x" ++ [(48 + N.of_nat n)%N]) 0
    [] [] (js "https://app.example/") [].

(** A clock whose millisecond turns between the two reads of a
    terminal emission: the call starts at [T], the network takes 120 ms,
    and the tick falls between the read for [duration] and the read for
    [timestamp]. *)
Definition tick_clock (n : nat) : Z :=
  match n with
  | 0%nat | 1%nat => 1700000000000
  | 2%nat => 1700000000120
  | _ => 1700000000121
  end.

Definition tick_page : World :=
  mkWorld tick_clock 0 (tokens page) 0 [] [] (href page) [].

Definition json_response : Response :=
  mkResponse 200 (js "OK") true
    [(js "content-length", js "5"); (js "content-type", js "application/json")]
    (Normal (js "[1,2]")) false.

(** [fetch("/api/items", { method: "POST", body: "a=1" })] on that
    page, the native promise resolving with [json_response]. *)
Definition post_call : completion FetchCall * World :=
  fetch_begin addCustomEvent (str "/api/items")
    (VObject [(js "method", str "POST"); (js "body", str "a=1")]) tick_page.

Definition post_settled : completion Response * World :=
  match post_call with
  | (Normal call, w0) =>
      fetch_settle addCustomEvent call (Resolved json_response) w0
  | (Throw e, w0) => (Throw e, w0)
  end.


(** A 304 answer, as [fetch] resolves with it and as the listeners of
    an [XMLHttpRequest] find it. *)
Definition not_modified : Response :=
  mkResponse 304 (js "Not Modified") false [] (Normal []) false.

Definition not_modified_view : XhrView :=
  mkXhrView (AsDefault []) None 304 (js "Not Modified") [].

(** A request that fails on the network, as its listeners find it:
    status 0, no headers, no text. *)
Definition failed_view : XhrView := mkXhrView (AsDefault []) None 0 [] [].

(** [const xhr = new XMLHttpRequest(); xhr.open("GET", "/api/items");
    xhr.setRequestHeader("Accept", "text/plain"); xhr.send();] on a
    fresh page, the request then failing: the browser fires [error],
    then [loadend]. *)
Definition errored_request : completion (list JsValue) * World :=
  (x <- WrappedXHR ;;
   let opened :=
     snd (xhr_open (str "GET") (str "/api/items") (Normal VUndefined) x) in
   let prepared :=
     snd (xhr_setRequestHeader (js "Accept") (str "text/plain")
            (Normal VUndefined) opened) in
   sent <- xhr_send addCustomEvent VUndefined (Normal VUndefined) prepared ;;
   dispatch_all addCustomEvent [SigError; Loadend] failed_view (snd sent))
    page.

(** A native mutator that moves to the URL given as third argument and
    returns [undefined], as [pushState(state, title, url)] does for an
    absolute same-origin URL. *)
Definition go_to_url : NativeHistory :=
  fun args current =>
    (Normal VUndefined,
     match args with
     | [_; _; VString u] => u
     | _ => current
     end).

(** A native mutator that refuses its arguments. *)
Definition refuse_url : NativeHistory :=
  fun _ current =>
    (Throw (VError (js "SecurityError") (js "The operation is insecure")
              (js "") (Normal (Some (JObj [])))),
     current).


(* ================================================================== *)
(** ** The recorder, continued: the window listeners *)

Section Listeners.

Variable sink : jsstring -> JsValue -> M unit.

(** [window.addEventListener('error', (event) => { ... })]: uncaught
    errors.  The properties of the payload are evaluated in the order
    of the object literal. *)
Definition on_error (event : JsValue) : M unit :=
  try_catch
    (message <- lift (cbind (get event "message") ToString) ;;
     err <- lift (get event "error") ;;
     stack <- lift (get_opt err "stack") ;;
     detail <- (if ToBoolean stack then ret stack
                else lift (get event "message")) ;;
     now <- Date_now ;;
     url <- location_href ;;
     source <- lift (get event "filename") ;;
     line <- lift (get event "lineno") ;;
     column <- lift (get event "colno") ;;
     sink (js "console")
       (VObject [(js "level", str "error");
                 (js "message", VString (js "Uncaught Error: " ++ message));
                 (js "args", VArray [detail]);
                 (js "timestamp", num now);
                 (js "url", VString url);
                 (js "source", source);
                 (js "line", line);
                 (js "column", column)]))
    (fun e => originalConsole Error [str "Failed to capture error event:"; e]).

(** [window.addEventListener('unhandledrejection', (event) => { ... })]. *)
Definition on_unhandledrejection (event : JsValue) : M unit :=
  try_catch
    (message <- lift (cbind (get event "reason") ToString) ;;
     arg <- lift (cbind (get event "reason") String_) ;;
     now <- Date_now ;;
     url <- location_href ;;
     sink (js "console")
       (VObject [(js "level", str "error");
                 (js "message",
                  VString (js "Unhandled Promise Rejection: " ++ message));
                 (js "args", VArray [VString arg]);
                 (js "timestamp", num now);
                 (js "url", VString url)]))
    (fun e =>
       originalConsole Error [str "Failed to capture promise rejection:"; e]).

End Listeners.

(* ================================================================== *)
(** ** The recorder, continued: navigations of the browser's own *)

Section Navigations.

Variable sink : jsstring -> JsValue -> M unit.

(** [window.addEventListener("popstate", emitNav)] and
    [window.addEventListener("hashchange", emitNav)]: the listener is
    [emitNav] itself, which takes no notice of the event it is
    passed. *)
Definition on_popstate (event : JsValue) : M unit := emitNav sink.

Definition on_hashchange (event : JsValue) : M unit := emitNav sink.

End Navigations.

(* ================================================================== *)
(** ** The recorder, continued: test mode *)

(** [new URLSearchParams(location.search)], as the list of its
    name-value pairs in the order of the query string; [get] gives the
    first value of a name, or [null]. *)
Definition URLSearchParams : Type := list (jsstring * jsstring).

Definition URLSearchParams_get (params : URLSearchParams) (name : string)
  : JsValue :=
  match lookup (js name) params with
  | Some v => VString v
  | None => VNull
  end.

(** [sessionStorage], the key-value store of the tab, taken to accept
    what is written to it. *)
Definition Storage : Type := list (jsstring * jsstring).

Definition Storage_getItem (s : Storage) (key : string) : JsValue :=
  match lookup (js key) s with
  | Some v => VString v
  | None => VNull
  end.

Definition Storage_removeItem (s : Storage) (key : string) : Storage :=
  filter (fun kv => negb (jsstring_eqb (js key) (fst kv))) s.

Definition Storage_setItem (s : Storage) (key : string) (value : jsstring)
  : Storage :=
  (js key, value) :: Storage_removeItem s key.

(** [urlParams.get("testmode") === "1" || urlParams.get("debug") === "1"]. *)
Definition requests_test_mode (params : URLSearchParams) : bool :=
  strict_equal_str (URLSearchParams_get params "testmode") (js "1")
  || strict_equal_str (URLSearchParams_get params "debug") (js "1").

(** The activation check the script makes when it loads. *)
Definition activate_test_mode (params : URLSearchParams) (s : Storage)
  : Storage :=
  if requests_test_mode params
  then Storage_setItem s "rrweb_testmode" (js "true")
  else s.

(** [sessionStorage.getItem("rrweb_testmode") === "true"]: whether the
    script shows the test mode panel. *)
Definition test_mode (s : Storage) : bool :=
  strict_equal_str (Storage_getItem s "rrweb_testmode") (js "true").

(** [s.padStart(targetLength, fill)]. *)
Definition padStart (s : jsstring) (targetLength : nat) (fill : jsstring)
  : jsstring :=
  let missing := (targetLength - List.length s)%nat in
  match missing, fill with
  | O, _ | _, [] => s
  | _, _ => firstn missing (List.concat (repeat fill missing)) ++ s
  end.

(** The panel's timer: [updateTimer] writes the minutes and seconds
    since [startTime] into the display.
[[
    const elapsed = Math.floor((Date.now() - startTime) / 1000);
    const mins = Math.floor(elapsed / 60).toString().padStart(2, '0');
    const secs = (elapsed % 60).toString().padStart(2, '0');
    timeDisplay.textContent = `${mins}:${secs}`;
]]
    [Math.floor] of a quotient is [Z.div]; [%] takes the sign of the
    dividend, as [Z.rem] does. *)
Definition timer_text (elapsed_ms : Z) : jsstring :=
  let elapsed := elapsed_ms / 1000 in
  let mins := padStart (int_text (elapsed / 60)) 2 (js "0") in
  let secs := padStart (int_text (Z.rem elapsed 60)) 2 (js "0") in
  mins ++ js ":" ++ secs.

Definition updateTimer (startTime : Z) : M jsstring :=
  now <- Date_now ;;
  ret (timer_text (now - startTime)).

(** The tab around the page: the storage, the panel and its timer, and
    the messages the window that opened the tab has been posted, each
    with its target origin. *)
Record Tab : Type := mkTab {
  tab_page : World;
  tab_storage : Storage;
  tab_timer : bool;
  tab_panel : bool;
  tab_posted : list (JsValue * jsstring)
}.

(** The text of the announcement the exit button logs: a test tube
    (U+1F9EA, two code units) and the words. *)
Definition exit_text : jsstring :=
  [55358%N; 56810%N] ++ js " Test mode disabled".

Section Panel.

Variable sink : jsstring -> JsValue -> M unit.

(** [stopRecording], the function [window.rrweb.record] returned. *)
Variable stopRecording : M unit.

(** The stop button:
[[
    clearInterval(timerInterval);
    window.__rr.stop();
    window.opener?.postMessage(
        { type: "rrweb_events", data: JSON.stringify(session) }, "*");
    hud.remove();
]]
    Without an opener the message is not built. *)
Definition stop_button (opener : bool) (t : Tab) : completion unit * Tab :=
  match stopRecording (tab_page t) with
  | (Throw e, w) =>
      (Throw e, mkTab w (tab_storage t) false (tab_panel t) (tab_posted t))
  | (Normal _, w) =>
      if opener then
        match JSON_stringify (VArray (session w)) with
        | Throw e =>
            (Throw e, mkTab w (tab_storage t) false (tab_panel t) (tab_posted t))
        | Normal data =>
            (Normal tt,
             mkTab w (tab_storage t) false false
               (tab_posted t
                  ++ [(VObject [(js "type", str "rrweb_events");
                                (js "data", data)],
                       js "*")]))
        end
      else (Normal tt, mkTab w (tab_storage t) false false (tab_posted t))
  end.

(** The exit button:
[[
    clearInterval(timerInterval);
    sessionStorage.removeItem("rrweb_testmode");
    hud.remove();
    console.log("... Test mode disabled");
]]
    [console.log] is the wrapped method by then. *)
Definition clear_button (t : Tab) : completion unit * Tab :=
  let (r, w) := console_wrapper sink Log [VString exit_text] (tab_page t) in
  (r,
   mkTab w (Storage_removeItem (tab_storage t) "rrweb_testmode") false false
     (tab_posted t)).

End Panel.

(* ================================================================== *)
(** ** Further vocabulary *)

(* ------------------------------------------------------------------ *)
(** *** [serializeData] *)

(** The two kinds of value [serializeData] describes by their size. *)
Definition binary_data (data : JsValue) : bool :=
  match data with
  | VArrayBuffer _ | VUint8Array _ => true
  | _ => false
  end.

(** A field name the loop [entries[key] = ...] can define: assigning to
    [__proto__] on a plain object defines nothing. *)
Definition definable (key : jsstring) : Prop := key <> js "__proto__".

(** A [FormData] with a repeated name, a file and an index name. *)
Definition sample_form : list (jsstring * FormEntry) :=
  [(js "name", FieldString (js "Ann")); (js "photo", FieldFile);
   (js "name", FieldString (js "Bob")); (js "2", FieldString (js "x"))].

(* ------------------------------------------------------------------ *)
(** *** The console *)

(** What the capture leaves in [args]: strings, and [undefined] where
    [JSON.stringify] had nothing to print. *)
Definition text_or_undefined (v : JsValue) : bool :=
  match v with
  | VString _ | VUndefined => true
  | _ => false
  end.

(** The JSON conversion of the elements of an array, as [to_json] runs
    it. *)
Definition each_json : list JsValue -> completion (list Json) :=
  fix each (l : list JsValue) : completion (list Json) :=
    match l with
    | [] => Normal []
    | x :: r =>
        cbind (to_json x) (fun o =>
        cbind (each r) (fun js => Normal (or_null o :: js)))
    end.

(** A buffer [download] can print. *)
Definition exportable (events : list JsValue) : Prop :=
  exists text, export_text events = Normal (VString text).

(** The payload of a console event. *)
Definition console_payload (level : Level) (message : jsstring)
  (rendered : list JsValue) (now : Z) (url : jsstring) : JsValue :=
  VObject [(js "level", VString (level_name level));
           (js "message", VString message);
           (js "args", VArray rendered);
           (js "timestamp", num now);
           (js "url", VString url)].

(** The values of the console's own literals: [null], the booleans and
    the numbers. *)
Definition scalar (v : JsValue) : bool :=
  match v with
  | VNull | VBool _ | VNumber _ => true
  | _ => false
  end.

(** The JSON text of such a value. *)
Definition scalar_text (v : JsValue) : jsstring :=
  match to_json v with
  | Normal (Some j) => print_json [] [] j
  | _ => []
  end.

(** An [Error] argument: its name, message and stack, and the JSON
    document of its enumerable own properties (of what its [toJSON]
    returns, if it has one). *)
Record ErrorArg : Type := mkErrorArg {
  err_name : jsstring;
  err_message : jsstring;
  err_stack : jsstring;
  err_json : Json
}.

Definition error_of (e : ErrorArg) : JsValue :=
  VError (err_name e) (err_message e) (err_stack e)
    (Normal (Some (err_json e))).



(** [new Error("boom")], and the same error after [e.code = "E_FAIL"]. *)
Definition plain_error : ErrorArg :=
  mkErrorArg (js "Error") (js "boom") (js "Error: boom at app.js:3:9")
    (JObj []).

Definition coded_error : ErrorArg :=
  mkErrorArg (js "Error") (js "boom") (js "Error: boom at app.js:3:9")
    (JObj [(js "code", JStr (js "E_FAIL"))]).

(* ------------------------------------------------------------------ *)
(** *** The window listeners *)

(** The payload of the event an uncaught error leaves. *)
Definition uncaught_payload (message : jsstring) (detail : JsValue) (now : Z)
  (url : jsstring) (source line column : JsValue) : JsValue :=
  VObject [(js "level", str "error");
           (js "message", VString (js "Uncaught Error: " ++ message));
           (js "args", VArray [detail]);
           (js "timestamp", num now);
           (js "url", VString url);
           (js "source", source);
           (js "line", line);
           (js "column", column)].

(** The page after one more call to the original console. *)
Definition with_console_call (c : Level * list JsValue) (w : World) : World :=
  mkWorld (clock w) (reads w) (tokens w) (draws w) (session w)
    (console_calls w ++ [c]) (href w) (downloads w).

(** An [ErrorEvent] for [throw new RangeError("too deep")] in
    [app.js], and one for an error of a script from another origin. *)
Definition thrown_event : list (jsstring * JsValue) :=
  [(js "message", str "Uncaught RangeError: too deep");
   (js "filename", str "https://app.example/app.js");
   (js "lineno", num 12); (js "colno", num 7);
   (js "error",
    VError (js "RangeError") (js "too deep")
      (js "RangeError: too deep at app.js:12:7") (Normal (Some (JObj []))))].

Definition foreign_event : list (jsstring * JsValue) :=
  [(js "message", str "Script error."); (js "filename", str "");
   (js "lineno", num 0); (js "colno", num 0); (js "error", VNull)].

(* ------------------------------------------------------------------ *)
(** *** fetch *)

(** The page after [k] more ids have been drawn. *)
Definition after_draws (k : nat) (w : World) : World :=
  mkWorld (clock w) (reads w) (tokens w) (k + draws w) (session w)
    (console_calls w) (href w) (downloads w).

(** The content type of a response, as the wrapper reads it. *)
Definition content_type (res : Response) : jsstring :=
  header_or (headers res) "content-type" "".

(** The content types whose body the wrapper does not read. *)
Definition described_only (res : Response) : bool :=
  negb (includes (content_type res) (js "application/json"))
  && negb (includes (content_type res) (js "text/"))
  && (includes (content_type res) (js "image/")
      || includes (content_type res) (js "video/")
      || includes (content_type res) (js "audio/")).

(** The same response with another outcome of reading its body. *)
Definition with_body (b : completion jsstring) (res : Response) : Response :=
  mkResponse (status res) (statusText res) (ok res) (headers res) b
    (bodyUsed res).

(** A [Request] object for a POST to [/api/items]. *)
Definition post_request : JsValue :=
  VHost (Normal (Some (JObj []))) (Normal (js "[object Request]"))
    [(js "url", str "https://app.example/api/items"); (js "method", str "POST")].

(** A JSON answer whose body cannot be read: the connection drops
    after the headers. *)
Definition dropped_response : Response :=
  mkResponse 200 (js "OK") true [(js "content-type", js "application/json")]
    (Throw (TypeError "network error")) false.

(** An image. *)
Definition png_response : Response :=
  mkResponse 200 (js "OK") true
    [(js "content-length", js "5120"); (js "content-type", js "image/png")]
    (Normal (js "PNG...")) false.

(** The [body] of the [init] argument, the default [{}] standing in
    for a missing one. *)
Definition init_body (init : JsValue) : JsValue :=
  match init with
  | VUndefined => VUndefined
  | _ => match get init "body" with
         | Normal b => b
         | Throw _ => VUndefined
         end
  end.

(** The text the wrapper records when reading the body failed with a
    value whose message prints as [s]. *)
Definition read_failure_text (s : jsstring) : jsstring :=
  js "[Error reading response: " ++ s ++ js "]".

(** The text the wrapper records in place of a body it does not read. *)
Definition description_text (res : Response) : jsstring :=
  js "[" ++ content_type res ++ js " - "
    ++ header_or (headers res) "content-length" "unknown" ++ js " bytes]".

(** The response type recorded for a body that was read as text. *)
Definition text_type (served_as_json : bool) : jsstring :=
  if served_as_json then js "json" else js "text".

(* ------------------------------------------------------------------ *)
(** *** XMLHttpRequest *)

(** A run of [xhr.setRequestHeader(header, value)] calls, each with
    what the browser's own method does. *)
Definition set_headers
  (calls : list ((jsstring * JsValue) * completion JsValue))
  (x : XhrInstance) : XhrInstance :=
  fold_left
    (fun x' c => snd (xhr_setRequestHeader (fst (fst c)) (snd (fst c)) (snd c) x'))
    calls x.

(** The listeners a request carries after [k] calls of [send]. *)
Definition listeners_after (k : nat) : list (Signal * Handler) :=
  List.concat (repeat send_listeners k).

(** A request whose [responseText] cannot be read: its response type
    is neither [""] nor ["text"]. *)
Definition text_unreadable (v : XhrView) : bool :=
  match xhr_payload v with
  | AsDefault _ | AsText _ => false
  | _ => true
  end.

(** A response served as JSON. *)
Definition json_typed (v : XhrView) : bool :=
  match xhr_contentType v with
  | Some ct => includes ct (js "application/json")
  | None => false
  end.

(** The size of a [blob] or [arraybuffer] response, where the response
    type is one of the two; [None] inside where the browser has no
    response to give. *)
Definition sized (v : XhrView) : option (option N) :=
  match xhr_payload v with
  | AsBlob size | AsArrayBuffer size => Some size
  | _ => None
  end.

(** An [arraybuffer] response of no bytes. *)
Definition empty_buffer_view : XhrView :=
  mkXhrView (AsArrayBuffer (Some 0%N)) (Some (js "application/octet-stream"))
    200 (js "OK") (js "content-type: application/octet-stream").

(** A [json] response. *)
Definition json_view : XhrView :=
  mkXhrView (AsJson (VObject [(js "a", num 1)])) (Some (js "application/json"))
    200 (js "OK") (js "content-type: application/json").

(** The size the description of a binary response prints: a size of
    zero is falsy and prints as a missing one. *)
Definition size_text (size : option N) : jsstring :=
  match size with
  | Some n => if (n =? 0)%N then js "unknown" else int_text (Z.of_N n)
  | None => js "unknown"
  end.

(** The text of a request whose [responseText] can be read. *)
Definition readable_text (v : XhrView) : option jsstring :=
  match xhr_payload v with
  | AsDefault t | AsText t => Some t
  | _ => None
  end.

(* ------------------------------------------------------------------ *)
(** *** Session controls *)

(** An event as the substrate and the emitters push it: an object, and
    one of type 5 has an object for its [data]. *)
Definition recorded_shape (event : JsValue) : bool :=
  match event with
  | VObject props =>
      if strict_equal_num (own props (js "type")) 5
      then match own props (js "data") with
           | VObject _ => true
           | _ => false
           end
      else true
  | _ => false
  end.

(** A custom event tagged ["network"]. *)
Definition network_tagged (event : JsValue) : bool :=
  strict_equal_num (field event "type") 5
  && strict_equal_str (tag_of event) (js "network").

(** [fetch("/api", { headers: { n: 1n } })]: the browser sends the
    header as ["1"], the recorder keeps the object. *)
Definition bigint_headers_call : completion FetchCall * World :=
  fetch_begin addCustomEvent (str "/api")
    (VObject [(js "headers", VObject [(js "n", VBigInt 1)])]) page.

(* ------------------------------------------------------------------ *)
(** *** Navigations *)

(** The two events of the window the recorder listens to. *)
Inductive HistoryEvent : Type :=
| Popstate
| Hashchange.

(** The ways the location of a single-page application changes: a
    call of one of the two wrapped history methods, or a move of the
    browser's own (back, forward, a link to a fragment), after which
    the browser, the location changed, fires the events of the move in
    their order: [popstate] for a step in the history, [popstate] and
    then [hashchange] when the fragment changes. *)
Inductive Navigation : Type :=
| ByPushState (native : NativeHistory) (args : list JsValue)
| ByReplaceState (native : NativeHistory) (args : list JsValue)
| ByBrowser (target : jsstring) (fired : list HistoryEvent).

(** The event object the browser passes to a listener. *)
Definition navigation_event (kind : string) : JsValue :=
  VHost (Normal (Some (JObj [(js "isTrusted", JBool true)])))
    (Normal (js "[object Event]"))
    [(js "type", str kind); (js "isTrusted", VBool true)].

(** The browser fires an event: the listener registered for it runs. *)
Definition fire (sink : jsstring -> JsValue -> M unit) (e : HistoryEvent)
  : M unit :=
  match e with
  | Popstate => on_popstate sink (navigation_event "popstate")
  | Hashchange => on_hashchange sink (navigation_event "hashchange")
  end.

Fixpoint fire_all (sink : jsstring -> JsValue -> M unit)
  (es : list HistoryEvent) : M unit :=
  match es with
  | [] => ret tt
  | e :: rest => fire sink e ;;; fire_all sink rest
  end.

(** One navigation, and a run of them, on a page whose events go to
    [sink]. *)
Definition navigate_once (sink : jsstring -> JsValue -> M unit)
  (n : Navigation) : M unit :=
  match n with
  | ByPushState native args => pushState sink native args ;;; ret tt
  | ByReplaceState native args => replaceState sink native args ;;; ret tt
  | ByBrowser target fired => set_href target ;;; fire_all sink fired
  end.

Fixpoint navigate (sink : jsstring -> JsValue -> M unit)
  (ns : list Navigation) : M unit :=
  match ns with
  | [] => ret tt
  | n :: rest => navigate_once sink n ;;; navigate sink rest
  end.







(** The location [emitNav] wrote into a nav event. *)
Definition href_of (event : JsValue) : JsValue :=
  field (payload_of event) "href".

(** A visit: two pushes, a step back, a link to a fragment. *)
Definition visit : list Navigation :=
  [ByPushState go_to_url [VNull; str ""; str "https://app.example/a"];
   ByPushState go_to_url [VNull; str ""; str "https://app.example/b"];
   ByBrowser (js "https://app.example/a") [Popstate];
   ByBrowser (js "https://app.example/a#top") [Popstate; Hashchange]].

(* ------------------------------------------------------------------ *)
(** *** Test mode *)

(** The storage after a run of page loads in the tab, each with its
    query string. *)
Definition after_loads (loads : list URLSearchParams) (s : Storage) : Storage :=
  fold_left (fun s' params => activate_test_mode params s') loads s.

(** Reading a display back: the digits before and after the colon, as
    seconds. *)
Fixpoint split_colon (s : jsstring) : option (jsstring * jsstring) :=
  match s with
  | [] => None
  | u :: r =>
      if (u =? 58)%N then Some ([], r)
      else match split_colon r with
           | Some (a, b) => Some (u :: a, b)
           | None => None
           end
  end.

Definition read_timer (s : jsstring) : option Z :=
  match split_colon s with
  | Some (a, b) =>
      match digits_val 0 a, digits_val 0 b with
      | Some m, Some sec => Some (Z.of_N (60 * m + sec))
      | _, _ => None
      end
  | None => None
  end.

(** A stop function that stops and returns. *)
Definition stops : M unit := ret tt.

(** A tab in test mode on the page of the [fetch] example. *)
Definition test_tab : Tab :=
  mkTab (snd post_settled) [(js "rrweb_testmode", js "true")] true true [].
(* ================================================================== *)
(** * Properties *)

(* ------------------------------------------------------------------ *)
(** ** Strings and [slice] *)

Lemma jsstring_eqb_refl (s : jsstring) : jsstring_eqb s s = true.
Proof.
  induction s as [|u s IH]; simpl; [reflexivity|].
  rewrite N.eqb_refl, IH. reflexivity.
Qed.

Lemma jsstring_eqb_eq (a b : jsstring) : jsstring_eqb a b = true <-> a = b.
Proof.
  split; [|intros ->; apply jsstring_eqb_refl].
  revert b. induction a as [|x a IH]; intros [|y b]; simpl; try discriminate;
    [reflexivity|].
  rewrite andb_true_iff, N.eqb_eq. intros [-> H]. f_equal. apply IH, H.
Qed.

Lemma slice_from_start (s : jsstring) (n : Z) :
  0 <= n ->
  slice s 0 n = firstn (Z.to_nat (Z.min n (Z.of_nat (List.length s)))) s.
Proof.
  intros Hn. unfold slice, slice_index.
  assert (Hlen : 0 <= Z.of_nat (List.length s)) by lia.
  destruct (0 <? 0) eqn:H0; [apply Z.ltb_lt in H0; lia|].
  destruct (n <? 0) eqn:H1; [apply Z.ltb_lt in H1; lia|].
  rewrite (Z.min_l 0) by lia. simpl skipn.
  rewrite Z.sub_0_r, Z.max_l by lia. reflexivity.
Qed.

Lemma slice_length (s : jsstring) (n : Z) :
  0 <= n ->
  Z.of_nat (List.length (slice s 0 n)) = Z.min (Z.of_nat (List.length s)) n.
Proof.
  intros Hn. rewrite slice_from_start by assumption.
  rewrite length_firstn. lia.
Qed.

Lemma slice_is_prefix (s : jsstring) (n : Z) :
  0 <= n -> exists rest, s = slice s 0 n ++ rest.
Proof.
  intros Hn. rewrite slice_from_start by assumption.
  eexists. symmetry. apply firstn_skipn.
Qed.

(** A negative bound counts from the end of the string. *)
Lemma slice_negative (s : jsstring) (n : Z) :
  n < 0 ->
  slice s 0 n = firstn (Z.to_nat (Z.of_nat (List.length s) + n)) s.
Proof.
  intros Hn. unfold slice, slice_index.
  destruct (0 <? 0) eqn:H0; [apply Z.ltb_lt in H0; lia|].
  destruct (n <? 0) eqn:H1; [|apply Z.ltb_ge in H1; lia].
  rewrite (Z.min_l 0) by lia. simpl skipn.
  rewrite Z.sub_0_r. f_equal. lia.
Qed.

Lemma slice_nonempty (t : jsstring) (n : Z) :
  1 <= n -> t <> [] -> slice t 0 n <> [].
Proof.
  intros Hn Ht. rewrite slice_from_start by lia.
  destruct t as [|u t']; [congruence|].
  simpl List.length.
  destruct (Z.to_nat (Z.min n (Z.of_nat (S (List.length t'))))) eqn:E; [lia|].
  simpl. discriminate.
Qed.

(* ------------------------------------------------------------------ *)
(** ** [serializeData] *)

Lemma serializeData_generic (data : JsValue) (n : Z) :
  ToBoolean data = true -> has_own_branch data = false ->
  serializeData data n = json_branch data n.
Proof.
  intros Ht Hk. unfold serializeData, json_branch. rewrite Ht. simpl negb.
  destruct data; simpl in Hk; try discriminate; reflexivity.
Qed.

Lemma JSON_stringify_throws (data e : JsValue) :
  to_json data = Throw e -> JSON_stringify data = Throw e.
Proof.
  intros H. unfold JSON_stringify, JSON_stringify_gap. rewrite H. reflexivity.
Qed.

Lemma to_json_throw_generic (data e : JsValue) :
  to_json data = Throw e -> has_own_branch data = false.
Proof. destruct data; simpl; intros H; try discriminate; reflexivity. Qed.

(** C4.  For every string [s] and every cap [n] (a length, so not
    negative), [serializeData(s, n)] returns without raising a string of
    [min(len(s), n)] code units that is a prefix of [s]. *)
Theorem serializeData_string_prefix (s : jsstring) (n : Z) :
  0 <= n ->
  exists r,
    serializeData (VString s) n = Normal r /\
    Z.of_nat (List.length r) = Z.min (Z.of_nat (List.length s)) n /\
    exists rest, s = r ++ rest.
Proof.
  intros Hn. destruct s as [|u s'].
  - exists []. simpl. repeat split.
    + rewrite Z.min_l by lia. reflexivity.
    + exists []. reflexivity.
  - exists (slice (u :: s') 0 n). split; [reflexivity|]. split.
    + apply slice_length; assumption.
    + apply slice_is_prefix; assumption.
Qed.

Lemma serializeData_string_prefix_witness :
  0 <= 3 /\
  exists r,
    serializeData (str "session") 3 = Normal r /\
    Z.of_nat (List.length r) = Z.min (Z.of_nat (List.length (js "session"))) 3 /\
    exists rest, js "session" = r ++ rest.
Proof.
  split; [lia | apply (serializeData_string_prefix (js "session") 3); lia].
Defined.

(** With a negative [maxSize] the slice drops code units from the end
    instead. *)
Example serializeData_negative_cap :
  serializeData (str "abc") (-1) = Normal (js "ab").
Proof. reflexivity. Qed.

(** C3, as the code has it.  Whenever the generic string coercion
    [String(data)] returns, [serializeData] returns a string and does
    not raise, whatever the cap.  For a truthy value whose JSON encoding
    raises, that string is [String(data).slice(0, cap)]: it is not
    empty when the coercion is not empty and the cap is at least 1. *)
Theorem serializeData_fallback (data : JsValue) (n : Z) (t : jsstring) :
  String_ data = Normal t ->
  (exists r, serializeData data n = Normal r) /\
  (forall e,
      ToBoolean data = true -> to_json data = Throw e ->
      serializeData data n = Normal (slice t 0 n) /\
      (1 <= n -> t <> [] -> slice t 0 n <> [])).
Proof.
  intros Hs. split.
  - unfold serializeData. destruct (negb (ToBoolean data)); [eauto|].
    rewrite Hs. simpl.
    match goal with
    | |- exists r, ctry ?b _ = _ => destruct b as [r|e]; simpl; eauto
    end.
  - intros e Ht He. split; [|apply slice_nonempty].
    rewrite serializeData_generic
      by (assumption || eapply to_json_throw_generic; eassumption).
    unfold json_branch. rewrite (JSON_stringify_throws _ _ He). simpl.
    rewrite Hs. reflexivity.
Qed.

Lemma serializeData_fallback_witness :
  String_ cyclic_object = Normal (js "[object Object]") /\
  serializeData cyclic_object 4096 = Normal (js "[object Object]").
Proof.
  split; [reflexivity|].
  destruct (serializeData_fallback cyclic_object 4096 (js "[object Object]")
              eq_refl) as [_ H].
  destruct (H (TypeError "Converting circular structure to JSON")
              eq_refl eq_refl) as [H1 _].
  exact H1.
Defined.

(** C3 as stated fails: the coercion of a self-referential object is
    cut to nothing by a cap of 0, the coercion of a self-referential
    array is empty under the default cap, and so the claimed non-empty
    result does not hold for every value whose JSON encoding raises. *)
Lemma serializeData_cyclic_empty :
  (exists e, to_json cyclic_object = Throw e) /\
  serializeData cyclic_object 0 = Normal [] /\
  (exists e, to_json cyclic_array = Throw e) /\
  serializeData_default cyclic_array = Normal [] /\
  ~ (forall data n e, to_json data = Throw e ->
       exists r, serializeData data n = Normal r /\ r <> []).
Proof.
  split; [eexists; reflexivity|].
  split; [reflexivity|].
  split; [eexists; reflexivity|].
  split; [reflexivity|].
  intros H.
  destruct (H cyclic_object 0 _ eq_refl) as [r [Hr Hne]].
  simpl in Hr. injection Hr as <-. apply Hne. reflexivity.
Qed.

(** Where the coercion itself throws, so does [serializeData]. *)
Example serializeData_bare_cyclic_raises :
  serializeData_default bare_cyclic_object
  = Throw (TypeError "Cannot convert object to primitive value").
Proof. reflexivity. Qed.

(** C9.  Every falsy value is serialized as the empty string under
    every cap: [null], [undefined], [""], [0], [false] and [NaN] are
    falsy, so [0] and [false] give [""] where their JSON texts are ["0"]
    and ["false"].  Every truthy value that is not a string, a
    [FormData], an [ArrayBuffer] or a [Uint8Array] takes the JSON
    branch. *)
Theorem serializeData_falsy_empty :
  (forall data n, ToBoolean data = false -> serializeData data n = Normal []) /\
  (ToBoolean VNull = false /\ ToBoolean VUndefined = false /\
   ToBoolean (VString []) = false /\ ToBoolean (num 0) = false /\
   ToBoolean (VBool false) = false /\ ToBoolean (VNumber NumNaN) = false) /\
  (forall n,
      serializeData (num 0) n = Normal [] /\
      serializeData (VBool false) n = Normal [] /\
      JSON_stringify (num 0) = Normal (str "0") /\
      JSON_stringify (VBool false) = Normal (str "false")) /\
  (forall data n,
      ToBoolean data = true -> has_own_branch data = false ->
      serializeData data n = json_branch data n).
Proof.
  split; [|split; [|split]].
  - intros data n H. unfold serializeData. rewrite H. reflexivity.
  - repeat split; reflexivity.
  - intros n. repeat split; reflexivity.
  - apply serializeData_generic.
Qed.

Lemma serializeData_falsy_empty_witness :
  serializeData (VBigInt 0) 7 = Normal [] /\
  serializeData (VBool true) 2 = Normal (js "tr").
Proof.
  destruct serializeData_falsy_empty as [Hfalsy [_ [_ Htruthy]]].
  split.
  - apply (Hfalsy (VBigInt 0) 7). reflexivity.
  - rewrite (Htruthy (VBool true) 2); reflexivity.
Defined.

(* ------------------------------------------------------------------ *)
(** ** The monad *)

Lemma keeps_console_lift {A} (c : completion A) : keeps_console (lift c).
Proof. intros w. reflexivity. Qed.

Lemma keeps_console_Date_now : keeps_console Date_now.
Proof. intros w. reflexivity. Qed.

Lemma keeps_console_location_href : keeps_console location_href.
Proof. intros w. reflexivity. Qed.

Lemma keeps_console_bind {A B} (c : M A) (k : A -> M B) :
  keeps_console c -> (forall a, keeps_console (k a)) ->
  keeps_console (bind c k).
Proof.
  intros Hc Hk w. unfold bind. specialize (Hc w).
  destruct (c w) as [[a|e] w']; simpl in *.
  - rewrite Hk. assumption.
  - assumption.
Qed.

Lemma keeps_console_addCustomEvent (tag : jsstring) (payload : JsValue) :
  keeps_console (addCustomEvent tag payload).
Proof. intros w. reflexivity. Qed.

(* ------------------------------------------------------------------ *)
(** ** Console capture *)

Lemma keeps_console_capture (sink : jsstring -> JsValue -> M unit)
  (level : Level) (args : list JsValue) :
  (forall tag payload, keeps_console (sink tag payload)) ->
  keeps_console (capture_console sink level args).
Proof.
  intros Hs. unfold capture_console.
  repeat (apply keeps_console_bind; [|intros ?]);
    auto using keeps_console_lift, keeps_console_Date_now,
      keeps_console_location_href.
Qed.

(** C5.  A call to a wrapped console method first hands the call, with
    its very arguments, to the original method, once, before the
    capture reads the clock or touches the buffer.  The capture then
    runs: if it returns, nothing more reaches the console; if building
    the message, serializing an argument or the sink throws [e], the
    original error logger receives the failure report with [e].  Either
    way the wrapper returns to its caller without throwing.  (The sink
    is any function that does not itself write to the console.) *)
Theorem console_wrapper_transparent
  (sink : jsstring -> JsValue -> M unit) (level : Level)
  (args : list JsValue) (w : World) :
  (forall tag payload, keeps_console (sink tag payload)) ->
  let w1 := snd (originalConsole level args w) in
  console_calls w1 = console_calls w ++ [(level, args)] /\
  session w1 = session w /\ reads w1 = reads w /\
  match capture_console sink level args w1 with
  | (Normal _, w2) =>
      console_wrapper sink level args w = (Normal tt, w2) /\
      console_calls w2 = console_calls w ++ [(level, args)]
  | (Throw e, w2) =>
      exists w3,
        console_wrapper sink level args w = (Normal tt, w3) /\
        console_calls w3
        = console_calls w ++ [(level, args); capture_report e] /\
        session w3 = session w2
  end.
Proof.
  intros Hs w1.
  pose proof (keeps_console_capture sink level args Hs w1) as Hk.
  split; [reflexivity|]. split; [reflexivity|]. split; [reflexivity|].
  assert (Hrun : console_wrapper sink level args w
                 = try_catch (capture_console sink level args)
                     (fun e => originalConsole Error
                                 [str "Failed to capture console log:"; e]) w1)
    by reflexivity.
  rewrite Hrun. unfold try_catch.
  destruct (capture_console sink level args w1) as [[[]|e] w2]; simpl in Hk.
  - split; [reflexivity|]. exact Hk.
  - eexists. split; [reflexivity|]. simpl. rewrite Hk.
    rewrite <- app_assoc. split; reflexivity.
Qed.

Lemma console_wrapper_transparent_witness :
  console_wrapper addCustomEvent Warn [str "slow"; num 7] page
  = (Normal tt,
     snd (capture_console addCustomEvent Warn [str "slow"; num 7]
            (snd (originalConsole Warn [str "slow"; num 7] page)))) /\
  console_calls
    (snd (console_wrapper addCustomEvent Warn [str "slow"; num 7] page))
  = [(Warn, [str "slow"; num 7])].
Proof.
  pose proof (console_wrapper_transparent addCustomEvent Warn
                [str "slow"; num 7] page keeps_console_addCustomEvent) as H.
  cbv zeta in H. destruct H as [_ [_ [_ H]]].
  destruct (capture_console addCustomEvent Warn [str "slow"; num 7]
              (snd (originalConsole Warn [str "slow"; num 7] page)))
    as [[u|e] w2] eqn:E.
  - destruct H as [H1 H2]. split; [exact H1|]. rewrite H1. exact H2.
  - apply (f_equal fst) in E. vm_compute in E. discriminate E.
Defined.

(** The capture of [console.log("x", undefined, 1n)]: the message joins
    the renderings, [undefined] as nothing and the BigInt by coercion;
    [args] keeps an [undefined] entry. *)
Example console_capture_renders :
  session (snd (console_wrapper addCustomEvent Log
                  [str "x"; VUndefined; VBigInt 1] page))
  = [VObject
       [(js "type", num 5);
        (js "data",
         VObject [(js "tag", str "console");
                  (js "payload",
                   VObject [(js "level", str "log");
                            (js "message", str "x  1");
                            (js "args", VArray [str "x"; VUndefined; str "1"]);
                            (js "timestamp", num 1700000000000);
                            (js "url", str "https://app.example/")])]);
        (js "timestamp", num 1700000000003)]].
Proof. vm_compute. reflexivity. Qed.

(** A value that can be neither encoded nor coerced makes the capture
    throw; the call has reached the console, the failure is reported
    there, and nothing is recorded. *)
Example console_capture_failure :
  console_wrapper addCustomEvent Info [bare_cyclic_object] page
  = (Normal tt,
     mkWorld (clock page) 0 (tokens page) 0 []
       [(Info, [bare_cyclic_object]);
        capture_report (TypeError "Cannot convert object to primitive value")]
       (href page) []).
Proof. reflexivity. Qed.

(* ------------------------------------------------------------------ *)
(** ** Recorded events *)

Lemma addCustomEvent_run (tag : jsstring) (payload : JsValue) (w : World) :
  addCustomEvent tag payload w
  = (Normal tt,
     with_event (custom_event tag payload (clock w (reads w)))
       (after_reads 1 w)).
Proof. reflexivity. Qed.

(** An event pushed with a network payload that starts with the id
    and the phase is an event of that phase for that id. *)
Lemma is_phase_custom (phase : string) (id : jsstring) (rest : list (jsstring * JsValue)) (ts : Z) :
  is_phase phase id
    (custom_event (js "network")
       (VObject ((js "id", VString id) :: (js "phase", str phase) :: rest)) ts)
  = true.
Proof.
  unfold is_phase, tag_of, id_of, phase_of, payload_of, custom_event, field,
    own. simpl. unfold strict_equal_str, str.
  rewrite !jsstring_eqb_refl. reflexivity.
Qed.

Lemma count_app {A} (p : A -> bool) (l1 l2 : list A) :
  count p (l1 ++ l2) = (count p l1 + count p l2)%nat.
Proof. unfold count. rewrite filter_app, length_app. reflexivity. Qed.

(* ------------------------------------------------------------------ *)
(** ** XMLHttpRequest *)

(** What [handleResponse] reads off the request is always a string. *)
Lemma xhr_classify_total (v : XhrView) :
  exists s ty, ctry (xhr_classify v) xhr_read_failed = Normal (VString s, ty).
Proof.
  destruct v as [p ct st stt hs].
  unfold xhr_classify, xhr_responseText, xhr_response. cbn.
  destruct (match ct with
            | Some c => includes c _
            | None => false
            end);
    destruct p as [t|t|val|[n|]|[n|]|[|]]; cbn;
    try destruct t; cbn; try (do 2 eexists; reflexivity);
    repeat first
      [ progress cbn
      | progress unfold or_else, ToBoolean
      | match goal with
        | |- context [Z.of_N ?m =? 0] => destruct (Z.of_N m =? 0)
        end ];
    do 2 eexists; reflexivity.
Qed.

Lemma serializeData_string_total (s : jsstring) (n : Z) :
  exists r, serializeData (VString s) n = Normal r.
Proof. destruct s; eexists; reflexivity. Qed.

(** Each listener hands one payload to the sink, whatever the sink. *)
Lemma handleResponse_calls_sink (sink : jsstring -> JsValue -> M unit)
  (x : XhrInstance) (v : XhrView) (w : World) :
  exists rb ty,
    handleResponse sink x v w
    = sink (js "network")
        (xhr_end_payload x v rb ty (clock w (reads w)) (clock w (S (reads w))))
        (after_reads 2 w).
Proof.
  destruct (xhr_classify_total v) as [s [ty Hc]].
  destruct (serializeData_string_total s 4096) as [rb Hs].
  exists rb, ty. unfold handleResponse, bind, lift.
  rewrite Hc. cbn [fst]. unfold serializeData_default. rewrite Hs.
  reflexivity.
Qed.

Lemma handleError_calls_sink (sink : jsstring -> JsValue -> M unit)
  (x : XhrInstance) (w : World) :
  handleError sink x w
  = sink (js "network")
      (xhr_error_payload x (clock w (reads w)) (clock w (S (reads w))))
      (after_reads 2 w).
Proof. reflexivity. Qed.

Lemma handleResponse_run (x : XhrInstance) (v : XhrView) (w : World) :
  exists rb ty,
    handleResponse addCustomEvent x v w
    = (Normal tt,
       with_event
         (custom_event (js "network")
            (xhr_end_payload x v rb ty (clock w (reads w))
               (clock w (S (reads w))))
            (clock w (S (S (reads w)))))
         (after_reads 3 w)).
Proof.
  destruct (xhr_classify_total v) as [s [ty Hc]].
  destruct (serializeData_string_total s 4096) as [rb Hs].
  exists rb, ty. unfold handleResponse, bind, lift.
  rewrite Hc. simpl fst. unfold serializeData_default. rewrite Hs.
  reflexivity.
Qed.

Lemma handleError_run (x : XhrInstance) (w : World) :
  handleError addCustomEvent x w
  = (Normal tt,
     with_event
       (custom_event (js "network")
          (xhr_error_payload x (clock w (reads w)) (clock w (S (reads w))))
          (clock w (S (S (reads w)))))
       (after_reads 3 w)).
Proof. reflexivity. Qed.

(** One signal on a request sent once: its one listener runs, reads the
    clock three times and records one terminal event. *)
Lemma dispatch_run (sig : Signal) (v : XhrView) (x : XhrInstance) (w : World) :
  sent_once x ->
  exists ev,
    dispatch addCustomEvent sig v x w
    = (Normal [], with_event ev (after_reads 3 w)) /\
    phase_of ev = signal_phase sig /\
    is_terminal (xhr_id x) ev = true.
Proof.
  intros Hx. unfold dispatch. rewrite Hx.
  destruct (handleResponse_run x v w) as [rb [ty Hr]].
  pose proof (handleError_run x w) as He.
  destruct sig; unfold send_listeners, run_listeners, run_handler;
    cbn [Signal_eqb]; unfold bind, try_catch, ret;
    rewrite ?Hr, ?He; eexists;
    (split; [reflexivity|]); (split; [reflexivity|]);
    unfold is_terminal, xhr_end_payload, xhr_error_payload;
    rewrite is_phase_custom; try reflexivity; apply orb_true_r.
Qed.

(** A run of signals on a request sent once: one terminal event per
    signal, in the order of the signals. *)
Lemma dispatch_all_run (sigs : list Signal) (v : XhrView) (x : XhrInstance) :
  sent_once x ->
  forall w, exists evs w2,
    dispatch_all addCustomEvent sigs v x w = (Normal [], w2) /\
    session w2 = session w ++ evs /\
    clock w2 = clock w /\
    map phase_of evs = map signal_phase sigs /\
    count (is_terminal (xhr_id x)) evs = List.length sigs.
Proof.
  intros Hx. induction sigs as [|sig sigs IH]; intros w.
  - exists [], w. simpl. rewrite List.app_nil_r. repeat split; reflexivity.
  - destruct (dispatch_run sig v x w Hx) as [ev [Hd [Hp Ht]]].
    destruct (IH (with_event ev (after_reads 3 w))) as [evs [w2 [Hr [Hs [Hc [Hm Hn]]]]]].
    exists (ev :: evs), w2. simpl dispatch_all. unfold bind at 1.
    rewrite Hd. unfold bind at 1. rewrite Hr. simpl.
    split; [reflexivity|]. split; [|split; [|split]].
    + rewrite Hs. simpl. rewrite <- app_assoc. reflexivity.
    + rewrite Hc. reflexivity.
    + rewrite Hp, Hm. reflexivity.
    + change (ev :: evs) with ([ev] ++ evs). rewrite count_app, Hn.
      unfold count. simpl. rewrite Ht. reflexivity.
Qed.

(** [send] on a request: the start event and the listeners. *)
Lemma xhr_send_run (x : XhrInstance) (body : JsValue)
  (native : completion JsValue) (requestBody : jsstring) (w : World) :
  serializeData_default body = Normal requestBody ->
  exists start,
  xhr_send addCustomEvent body native x w
  = (Normal (native,
             mkXhrInstance (xhr_id x) (xhr_url x) (xhr_method x)
               (clock w (reads w)) (requestHeaders x) requestBody
               (listeners x ++ send_listeners)),
     with_event start (after_reads 2 w)) /\
  is_start (xhr_id x) start = true.
Proof.
  intros Hb. unfold xhr_send. unfold bind at 1. cbn [Date_now].
  rewrite Hb. unfold try_catch, bind.
  rewrite addCustomEvent_run.
  eexists. split; [reflexivity|]. apply is_phase_custom.
Qed.

(** C1, as the code has it.  On a new request, [send] records one
    start event and adds its listeners; from then on every [load],
    [loadend], [error], [abort] or [timeout] signal the browser fires
    records one terminal event with the request's id, an [end] for
    [load] and [loadend], an [error] for the other three.  The terminal
    events of a request are as many as its signals. *)
Theorem xhr_terminal_per_signal (x : XhrInstance) (body : JsValue)
  (native : completion JsValue) (requestBody : jsstring) (w : World)
  (sigs : list Signal) (v : XhrView) (w1 : World) :
  listeners x = [] ->
  serializeData_default body = Normal requestBody ->
  exists x' w' start,
    xhr_send addCustomEvent body native x w = (Normal (native, x'), w') /\
    xhr_id x' = xhr_id x /\
    session w' = session w ++ [start] /\
    is_start (xhr_id x) start = true /\
    exists evs w2,
      dispatch_all addCustomEvent sigs v x' w1 = (Normal [], w2) /\
      session w2 = session w1 ++ evs /\
      map phase_of evs = map signal_phase sigs /\
      count (is_terminal (xhr_id x)) evs = List.length sigs.
Proof.
  intros Hl Hb.
  destruct (xhr_send_run x body native requestBody w Hb) as [start [Hsend Hst]].
  do 2 eexists. exists start.
  split; [exact Hsend|]. split; [reflexivity|].
  split; [reflexivity|]. split; [exact Hst|].
  match goal with
  | |- context [dispatch_all _ _ _ ?x'] =>
      destruct (dispatch_all_run sigs v x') with (w := w1)
        as [evs [w2 [Hr [Hs [_ [Hm Hn]]]]]]
  end.
  - unfold sent_once. simpl. rewrite Hl. reflexivity.
  - exists evs, w2. simpl xhr_id in Hn. auto.
Qed.

Lemma xhr_terminal_per_signal_witness :
  let x := mkXhrInstance (js "k7x0") (str "/api") (str "GET") 0 [] [] [] in
  exists x' w' start,
    xhr_send addCustomEvent VUndefined (Normal VUndefined) x page
    = (Normal (Normal VUndefined, x'), w') /\
    xhr_id x' = xhr_id x /\
    session w' = session page ++ [start] /\
    is_start (xhr_id x) start = true /\
    exists evs w2,
      dispatch_all addCustomEvent [Load; Loadend] failed_view x' page
      = (Normal [], w2) /\
      session w2 = session page ++ evs /\
      map phase_of evs = map signal_phase [Load; Loadend] /\
      count (is_terminal (xhr_id x)) evs = List.length [Load; Loadend].
Proof.
  intros x.
  apply (xhr_terminal_per_signal x VUndefined (Normal VUndefined) [] page
           [Load; Loadend] failed_view page); reflexivity.
Defined.

(** C1 as stated fails: a request that errors out gets its [error]
    event from the [error] signal and then an [end] event from
    [loadend], two terminal events for one id. *)
Lemma xhr_error_then_loadend_two_terminals :
  fst errored_request = Normal [] /\
  map phase_of (session (snd errored_request))
  = [str "start"; str "error"; str "end"] /\
  map id_of (session (snd errored_request))
  = [str "k7x0"; str "k7x0"; str "k7x0"] /\
  count (is_phase "error" (js "k7x0")) (session (snd errored_request)) = 1%nat /\
  count (is_terminal (js "k7x0")) (session (snd errored_request)) = 2%nat.
Proof. vm_compute. repeat split; reflexivity. Qed.

(** The start event of that request carries the header set before
    [send]. *)
Example errored_request_start :
  map (fun e => field (payload_of e) "headers")
    (firstn 1 (session (snd errored_request)))
  = [VObject [(js "Accept", str "text/plain")]].
Proof. vm_compute. reflexivity. Qed.

(* ------------------------------------------------------------------ *)
(** ** fetch *)

Lemma get_total (v : JsValue) (name : string) :
  v <> VNull -> v <> VUndefined -> exists r, get v name = Normal r.
Proof. intros H1 H2. destruct v; simpl; eauto; congruence. Qed.

(** The wrapper up to its [await]: when it gets there, it has read the
    clock once for [started], drawn the id, and recorded one start
    event carrying both. *)
Lemma fetch_begin_inv (resource init : JsValue) (w w0 : World) (call : FetchCall) :
  fetch_begin addCustomEvent resource init w = (Normal call, w0) ->
  call = mkFetchCall (tokens w (draws w)) (clock w (reads w)) /\
  clock w0 = clock w /\ reads w0 = (2 + reads w)%nat /\
  exists url method hs requestBody,
    session w0
    = session w
      ++ [custom_event (js "network")
            (fetch_start_payload call url method hs requestBody)
            (clock w (S (reads w)))].
Proof.
  unfold fetch_begin.
  set (init' := match init with VUndefined => VObject [] | _ => init end).
  unfold bind, lift, ret. cbn [Date_now random_id].
  destruct (get init' "body") as [b|e]; [|discriminate].
  destruct (ToBoolean b);
    [destruct (serializeData_default b) as [rb|e]; [|discriminate]|].
  all: destruct (String_ resource) as [url|e]; [|discriminate].
  all: destruct (get init' "method") as [method|e]; [|discriminate].
  all: destruct (get init' "headers") as [hs|e]; [|discriminate].
  all: rewrite addCustomEvent_run; intros H; injection H as <- <-.
  all: split; [reflexivity|]; split; [reflexivity|]; split; [reflexivity|].
  all: do 4 eexists; reflexivity.
Qed.

Lemma fetch_failed_run (call : FetchCall) (err message stack : JsValue) (w : World) :
  get err "message" = Normal message ->
  get err "stack" = Normal stack ->
  fetch_failed addCustomEvent call err w
  = (Throw err,
     with_event
       (custom_event (js "network")
          (fetch_error_payload call message stack (clock w (reads w))
             (clock w (S (reads w))))
          (clock w (S (S (reads w)))))
       (after_reads 3 w)).
Proof.
  intros Hm Hs. unfold fetch_failed, bind, lift. rewrite Hm, Hs. reflexivity.
Qed.

(** The inner [try] of a resolved call gives a text and a type unless
    the body read fails with a value the inner [catch] cannot
    describe. *)
Lemma classify_total (res : Response) :
  (forall e, body res = Throw e -> exists m, read_failed e = Normal m) ->
  exists text ty, ctry (classify res res) read_failed = Normal (text, ty).
Proof.
  intros Hb. unfold classify, Response_text. simpl fst.
  destruct (body res) as [t|e] eqn:E.
  - repeat match goal with
           | |- context [if ?c then _ else _] => destruct c
           end; simpl; eauto.
  - destruct (Hb e eq_refl) as [[text ty] Hm].
    repeat match goal with
           | |- context [if ?c then _ else _] => destruct c
           end; simpl; eauto.
Qed.

Lemma fetch_resolved_calls_sink (sink : jsstring -> JsValue -> M unit)
  (call : FetchCall) (res : Response) (w : World) :
  ordinary (Resolved res) ->
  exists rb ty,
    fetch_resolved sink call res w
    = try_catch
        (sink (js "network")
           (fetch_end_payload call res rb ty (clock w (reads w))
              (clock w (S (reads w)))) ;;;
         ret res)
        (fetch_failed sink call) (after_reads 2 w).
Proof.
  intros [Hu Hb].
  destruct (classify_total res Hb) as [text [ty Hc]].
  destruct (serializeData_string_total text 4096) as [rb Hs].
  exists rb, ty. unfold fetch_resolved, try_catch, bind, lift, Response_clone.
  rewrite Hu, Hc. cbn [fst snd]. unfold serializeData_default. rewrite Hs.
  reflexivity.
Qed.

Lemma fetch_resolved_run (call : FetchCall) (res : Response) (w : World) :
  bodyUsed res = false ->
  (forall e, body res = Throw e -> exists m, read_failed e = Normal m) ->
  exists rb ty,
    fetch_resolved addCustomEvent call res w
    = (Normal res,
       with_event
         (custom_event (js "network")
            (fetch_end_payload call res rb ty (clock w (reads w))
               (clock w (S (reads w))))
            (clock w (S (S (reads w)))))
         (after_reads 3 w)).
Proof.
  intros Hu Hb.
  destruct (classify_total res Hb) as [text [ty Hc]].
  destruct (serializeData_string_total text 4096) as [rb Hs].
  exists rb, ty. unfold fetch_resolved, try_catch, bind, lift, Response_clone.
  rewrite Hu, Hc. simpl fst. unfold serializeData_default. rewrite Hs.
  reflexivity.
Qed.

(** C2, as the code has it.  A [fetch] call that reaches the native
    [fetch] has recorded one start event.  When the native promise
    then settles in a way the wrapper can describe, the wrapper records
    one terminal event with the id of the start event, [end] on
    resolution and [error] on rejection, and settles as the native
    promise did.  The start timestamp is the first clock read of the
    call.  The recorded duration is the clock read the wrapper makes
    next after the settlement, less the start timestamp; the terminal
    timestamp is the read after that one; so the duration is the
    difference of the two timestamps exactly when those two reads
    return the same value.  If the clock does not run backwards, the
    terminal timestamp is not before the start timestamp, and the
    duration lies between 0 and the difference of the two
    timestamps. *)
Theorem fetch_one_start_one_terminal (resource init : JsValue)
  (w w0 w1 : World) (call : FetchCall) (s : Settlement) :
  fetch_begin addCustomEvent resource init w = (Normal call, w0) ->
  ordinary s ->
  exists start terminal w2 t0 d t,
    session w0 = session w ++ [start] /\
    is_start (call_id call) start = true /\
    fetch_settle addCustomEvent call s w1 = (settled_value s, w2) /\
    session w2 = session w1 ++ [terminal] /\
    is_phase (terminal_phase s) (call_id call) terminal = true /\
    field (payload_of start) "timestamp" = num t0 /\
    field (payload_of terminal) "duration" = num d /\
    field (payload_of terminal) "timestamp" = num t /\
    t0 = clock w (reads w) /\
    d = clock w1 (reads w1) - t0 /\
    t = clock w1 (S (reads w1)) /\
    (d = t - t0 <-> clock w1 (reads w1) = clock w1 (S (reads w1))) /\
    (clock w1 = clock w -> (reads w0 <= reads w1)%nat -> monotone (clock w) ->
     t0 <= t /\ 0 <= d <= t - t0).
Proof.
  intros Hbegin Hs.
  destruct (fetch_begin_inv _ _ _ _ _ Hbegin)
    as [Hcall [_ [Hr0 [url [method [hs [rb0 Hstart]]]]]]].
  assert (Htime :
    clock w1 = clock w -> (reads w0 <= reads w1)%nat -> monotone (clock w) ->
    call_started call <= clock w1 (S (reads w1)) /\
    0 <= clock w1 (reads w1) - call_started call
      <= clock w1 (S (reads w1)) - call_started call).
  { intros Hclock Hreads Hmono. rewrite Hr0 in Hreads.
    assert (Ht1 : call_started call <= clock w1 (reads w1)).
    { rewrite Hcall, Hclock. cbn [call_started]. apply Hmono. lia. }
    assert (Ht2 : clock w1 (reads w1) <= clock w1 (S (reads w1))).
    { rewrite Hclock. apply Hmono. lia. }
    lia. }
  destruct s as [res|err]; simpl in Hs.
  - destruct Hs as [Hu Hb].
    destruct (fetch_resolved_run call res w1 Hu Hb) as [rb [ty Hrun]].
    do 3 eexists.
    exists (call_started call), (clock w1 (reads w1) - call_started call),
      (clock w1 (S (reads w1))).
    split; [exact Hstart|]. split; [apply is_phase_custom|].
    split; [exact Hrun|]. split; [reflexivity|].
    split; [apply is_phase_custom|].
    repeat (split; [reflexivity|]).
    split; [rewrite Hcall; reflexivity|].
    split; [reflexivity|]. split; [reflexivity|]. split; [lia|].
    exact Htime.
  - destruct Hs as [Hn Hu].
    destruct (get_total err "message" Hn Hu) as [message Hm].
    destruct (get_total err "stack" Hn Hu) as [stack Hst].
    do 3 eexists.
    exists (call_started call), (clock w1 (reads w1) - call_started call),
      (clock w1 (S (reads w1))).
    split; [exact Hstart|]. split; [apply is_phase_custom|].
    split; [exact (fetch_failed_run call err message stack w1 Hm Hst)|].
    split; [reflexivity|].
    split; [apply is_phase_custom|].
    repeat (split; [reflexivity|]).
    split; [rewrite Hcall; reflexivity|].
    split; [reflexivity|]. split; [reflexivity|]. split; [lia|].
    exact Htime.
Qed.

Lemma monotone_tick_clock : monotone tick_clock.
Proof.
  intros i j Hij.
  destruct i as [|[|[|i]]]; destruct j as [|[|[|j]]]; simpl; lia.
Qed.

Lemma fetch_one_start_one_terminal_witness :
  exists start terminal w2 t0 d t,
    session (snd post_call) = [start] /\
    is_start (js "k7x0") start = true /\
    post_settled = (Normal json_response, w2) /\
    session w2 = [start; terminal] /\
    is_phase "end" (js "k7x0") terminal = true /\
    field (payload_of start) "timestamp" = num t0 /\
    field (payload_of terminal) "duration" = num d /\
    field (payload_of terminal) "timestamp" = num t /\
    t0 = clock tick_page (reads tick_page) /\
    d = clock (snd post_call) (reads (snd post_call)) - t0 /\
    t = clock (snd post_call) (S (reads (snd post_call))) /\
    (d = t - t0 <->
     clock (snd post_call) (reads (snd post_call))
     = clock (snd post_call) (S (reads (snd post_call)))) /\
    t0 <= t /\ 0 <= d <= t - t0.
Proof.
  destruct (fetch_one_start_one_terminal (str "/api/items")
              (VObject [(js "method", str "POST"); (js "body", str "a=1")])
              tick_page (snd post_call) (snd post_call)
              (mkFetchCall (js "k7x0") 1700000000000)
              (Resolved json_response))
    as [start [terminal [w2 [t0 [d [t [H1 [H2 [H3 [H4 [H5 [H6 [H7 [H8
         [H10 [H11 [H12 [H13 H9]]]]]]]]]]]]]]]]]].
  - reflexivity.
  - split; [reflexivity|]. intros e He. discriminate He.
  - exists start, terminal, w2, t0, d, t.
    split; [exact H1|]. split; [exact H2|]. split; [exact H3|].
    split; [rewrite H4, H1; reflexivity|].
    split; [exact H5|]. split; [exact H6|]. split; [exact H7|].
    split; [exact H8|]. split; [exact H10|]. split; [exact H11|].
    split; [exact H12|]. split; [exact H13|].
    apply H9; [reflexivity | cbn; lia | exact monotone_tick_clock].
Defined.

(** C2 as stated fails: the clock, which never runs backwards here,
    turns between the read for [duration] and the read for
    [timestamp], and the recorded duration, 120, is not the difference
    of the two timestamps, 121. *)
Lemma fetch_duration_not_timestamp_difference :
  monotone tick_clock /\
  fst post_settled = Normal json_response /\
  map phase_of (session (snd post_settled)) = [str "start"; str "end"] /\
  map (fun e => field (payload_of e) "timestamp") (session (snd post_settled))
  = [num 1700000000000; num 1700000000121] /\
  map (fun e => field (payload_of e) "duration") (session (snd post_settled))
  = [VUndefined; num 120] /\
  120 <> 1700000000121 - 1700000000000.
Proof.
  split; [exact monotone_tick_clock|].
  vm_compute. repeat split; try reflexivity. discriminate.
Qed.

(** The events of that call, as recorded. *)
Example post_call_events :
  map payload_of (session (snd post_settled))
  = [VObject [(js "id", str "k7x0"); (js "phase", str "start");
              (js "api", str "fetch"); (js "url", str "/api/items");
              (js "method", str "POST"); (js "headers", VObject []);
              (js "requestBody", str "a=1");
              (js "timestamp", num 1700000000000)];
     VObject [(js "id", str "k7x0"); (js "phase", str "end");
              (js "status", num 200); (js "statusText", str "OK");
              (js "ok", VBool true);
              (js "headers",
               VObject [(js "content-length", str "5");
                        (js "content-type", str "application/json")]);
              (js "responseBody", str "[1,2]");
              (js "responseType", str "json");
              (js "duration", num 120);
              (js "timestamp", num 1700000000121)]].
Proof. vm_compute. reflexivity. Qed.

(** C6: where the wrapper is not transparent.  Called with [null] for
    [init], which the native [fetch] accepts, it throws on [init.body]
    before it reaches the sink or the native [fetch]: its promise
    rejects with a [TypeError] of its own and nothing is recorded.  And
    when the native promise rejects with [null], the [catch] block
    throws on [err.message]: the sink is not reached, no error event is
    recorded, and the caller gets that [TypeError] in place of the
    original rejection value.  Both hold for every sink. *)
Theorem fetch_not_transparent_on_null
  (sink : jsstring -> JsValue -> M unit) (resource : JsValue)
  (call : FetchCall) (w : World) :
  fst (fetch_begin sink resource VNull w)
  = Throw (TypeError "Cannot read properties of undefined or null") /\
  session (snd (fetch_begin sink resource VNull w)) = session w /\
  fetch_settle sink call (Rejected VNull) w
  = (Throw (TypeError "Cannot read properties of undefined or null"), w) /\
  settled_value (Rejected VNull) = Throw VNull.
Proof. repeat split; reflexivity. Qed.

(** The same on a page: [fetch("/api/items", null)] records nothing. *)
Example fetch_null_init :
  fetch_begin addCustomEvent (str "/api/items") VNull page
  = (Throw (TypeError "Cannot read properties of undefined or null"),
     after_reads 1
       (mkWorld (clock page) 0 (tokens page) 1 [] [] (href page) [])).
Proof. reflexivity. Qed.

(** C10.  Whatever the sink, [handleResponse] hands it one end
    payload whose [ok] field is [true] exactly for the statuses 200 to
    399, and the fetch wrapper hands it one end payload whose [ok]
    field is the [ok] flag of the native response.  With the native
    flag set for 200 to 299 only, the two paths disagree on every 3xx
    status: [true] for the XHR, [false] for fetch. *)
Theorem xhr_ok_covers_redirects (sink : jsstring -> JsValue -> M unit) :
  (forall x v w,
      exists payload b,
        handleResponse sink x v w
        = sink (js "network") payload (after_reads 2 w) /\
        field payload "phase" = str "end" /\
        field payload "ok" = VBool b /\
        (b = true <-> 200 <= xhr_status v < 400)) /\
  (forall call res w,
      ordinary (Resolved res) ->
      exists payload,
        fetch_resolved sink call res w
        = try_catch (sink (js "network") payload ;;; ret res)
            (fetch_failed sink call) (after_reads 2 w) /\
        field payload "phase" = str "end" /\
        field payload "ok" = VBool (ok res) /\
        (native_ok res -> 300 <= status res < 400 ->
         forall x v w0, xhr_status v = status res ->
           exists xpayload,
             handleResponse sink x v w0
             = sink (js "network") xpayload (after_reads 2 w0) /\
             field xpayload "ok" = VBool true /\
             field payload "ok" = VBool false)).
Proof.
  assert (Hx : forall x v w,
      exists payload b,
        handleResponse sink x v w
        = sink (js "network") payload (after_reads 2 w) /\
        field payload "phase" = str "end" /\
        field payload "ok" = VBool b /\
        (b = true <-> 200 <= xhr_status v < 400)).
  { intros x v w. destruct (handleResponse_calls_sink sink x v w) as [rb [ty Hr]].
    do 2 eexists. split; [exact Hr|]. split; [reflexivity|].
    split; [reflexivity|].
    rewrite andb_true_iff, Z.leb_le, Z.ltb_lt. reflexivity. }
  split; [exact Hx|].
  intros call res w Hord.
  destruct (fetch_resolved_calls_sink sink call res w Hord) as [rb [ty Hr]].
  eexists. split; [exact Hr|]. split; [reflexivity|]. split; [reflexivity|].
  intros Hn Hs x v w0 Hst.
  destruct (Hx x v w0) as [xpayload [b [H1 [_ [H3 H4]]]]].
  exists xpayload. split; [exact H1|]. split.
  - rewrite H3. f_equal. apply H4. lia.
  - transitivity (VBool (ok res)); [reflexivity|].
    f_equal. rewrite Hn. apply andb_false_iff. right.
    apply Z.leb_gt. lia.
Qed.

Lemma xhr_ok_covers_redirects_witness :
  exists payload xpayload,
    fetch_resolved addCustomEvent (mkFetchCall (js "k7x0") 1700000000000)
      not_modified page
    = try_catch (addCustomEvent (js "network") payload ;;; ret not_modified)
        (fetch_failed addCustomEvent (mkFetchCall (js "k7x0") 1700000000000))
        (after_reads 2 page) /\
    handleResponse addCustomEvent
      (mkXhrInstance (js "k7x1") (str "/api") (str "GET") 1700000000000 []
         [] send_listeners)
      not_modified_view page
    = addCustomEvent (js "network") xpayload (after_reads 2 page) /\
    field xpayload "ok" = VBool true /\
    field payload "ok" = VBool false.
Proof.
  destruct (xhr_ok_covers_redirects addCustomEvent) as [_ H].
  destruct (H (mkFetchCall (js "k7x0") 1700000000000) not_modified page)
    as [payload [H1 [_ [_ H4]]]].
  { split; [reflexivity|]. intros e He. discriminate He. }
  destruct (H4 eq_refl ltac:(cbn [status not_modified]; lia)
              (mkXhrInstance (js "k7x1") (str "/api") (str "GET")
                 1700000000000 [] [] send_listeners)
              not_modified_view page eq_refl)
    as [xpayload [H5 [H6 H7]]].
  exists payload, xpayload. repeat split; assumption.
Defined.

(** The two end events for a 304, as the standalone recorder stores
    them. *)
Example not_modified_events :
  map (fun e => field (payload_of e) "ok")
    (session (snd (fetch_resolved addCustomEvent
                     (mkFetchCall (js "k7x0") 1700000000000)
                     not_modified page)))
  = [VBool false] /\
  map (fun e => field (payload_of e) "ok")
    (session (snd (handleResponse addCustomEvent
                     (mkXhrInstance (js "k7x1") (str "/api") (str "GET")
                        1700000000000 [] [] send_listeners)
                     not_modified_view page)))
  = [VBool true].
Proof. split; vm_compute; reflexivity. Qed.

(* ------------------------------------------------------------------ *)
(** ** History *)

Lemma history_wrapper_calls_sink (sink : jsstring -> JsValue -> M unit)
  (native : NativeHistory) (args : list JsValue) (w : World) (r : JsValue)
  (h : jsstring) :
  native args (href w) = (Normal r, h) ->
  (r0 <- call_native native args ;; emitNav sink ;;; ret r0) w
  = (sink (js "nav")
       (VObject [(js "href", VString h); (js "t", num (clock w (reads w)))]) ;;;
     ret r)
      (after_reads 1 (snd (set_href h w))).
Proof.
  intros Hn. unfold bind at 1. unfold call_native. rewrite Hn. reflexivity.
Qed.

(** C7, as the code has it.  A call to [pushState] or [replaceState]
    first runs the original mutator; when that returns, the wrapper
    hands the sink one nav payload and then returns the mutator's
    value.  The payload has the two fields [href] and [t]: the location
    the mutator left, and the time of capture.  In the standalone
    recorder this is one more event in the buffer. *)
Theorem history_nav_event (sink : jsstring -> JsValue -> M unit)
  (native : NativeHistory) (args : list JsValue)
  (w : World) (r : JsValue) (h : jsstring) :
  native args (href w) = (Normal r, h) ->
  let payload :=
    VObject [(js "href", VString h); (js "t", num (clock w (reads w)))] in
  pushState sink native args w
  = (sink (js "nav") payload ;;; ret r) (after_reads 1 (snd (set_href h w))) /\
  replaceState sink native args w
  = (sink (js "nav") payload ;;; ret r) (after_reads 1 (snd (set_href h w))) /\
  keys_of payload = [js "href"; js "t"] /\
  exists w' ev,
    pushState addCustomEvent native args w = (Normal r, w') /\
    replaceState addCustomEvent native args w = (Normal r, w') /\
    href w' = h /\
    session w' = session w ++ [ev] /\
    tag_of ev = str "nav" /\
    payload_of ev = payload.
Proof.
  intros Hn payload.
  split; [exact (history_wrapper_calls_sink sink native args w r h Hn)|].
  split; [exact (history_wrapper_calls_sink sink native args w r h Hn)|].
  split; [reflexivity|].
  pose proof (history_wrapper_calls_sink addCustomEvent native args w r h Hn)
    as H.
  do 2 eexists.
  split; [exact H|]. split; [exact H|].
  repeat split; reflexivity.
Qed.

Lemma history_nav_event_witness :
  exists w' ev,
    pushState addCustomEvent go_to_url
      [VNull; str ""; str "https://app.example/cart"] page
    = (Normal VUndefined, w') /\
    session w' = [ev] /\
    payload_of ev
    = VObject [(js "href", str "https://app.example/cart");
               (js "t", num 1700000000000)].
Proof.
  destruct (history_nav_event addCustomEvent go_to_url
              [VNull; str ""; str "https://app.example/cart"] page
              VUndefined (js "https://app.example/cart") eq_refl)
    as [_ [_ [_ [w' [ev [H1 [_ [_ [H4 [_ H6]]]]]]]]]].
  exists w', ev. repeat split; assumption.
Defined.

(** C7 as stated fails: the payload of the nav event has no
    [timestamp] field; its second field is [t]. *)
Lemma nav_payload_has_no_timestamp :
  let run := pushState addCustomEvent go_to_url
               [VNull; str ""; str "https://app.example/cart"] page in
  fst run = Normal VUndefined /\
  map (fun ev => keys_of (payload_of ev)) (session (snd run))
  = [[js "href"; js "t"]] /\
  map (fun ev => field (payload_of ev) "timestamp") (session (snd run))
  = [VUndefined] /\
  [js "href"; js "t"] <> [js "href"; js "timestamp"].
Proof. vm_compute. repeat split; try reflexivity. discriminate. Qed.

(** When the original mutator throws, so does the wrapper, and no nav
    event is recorded. *)
Example pushState_refused :
  pushState addCustomEvent refuse_url [VNull; str ""; str "https://other.example/"] page
  = (Throw (VError (js "SecurityError") (js "The operation is insecure")
              (js "") (Normal (Some (JObj [])))),
     page).
Proof. reflexivity. Qed.
(* ------------------------------------------------------------------ *)
(** ** Reading back what [JSON.stringify] prints *)

(** *** Strings *)

Lemma unhex_hex_digit (n : N) : (n < 16)%N -> unhex (hex_digit n) = Some n.
Proof.
  intros Hn. unfold hex_digit, unhex.
  destruct (n <? 10)%N eqn:E.
  - apply N.ltb_lt in E.
    replace ((48 <=? 48 + n) && (48 + n <=? 57))%N with true.
    + f_equal. lia.
    + symmetry. apply andb_true_iff. split; apply N.leb_le; lia.
  - apply N.ltb_ge in E.
    replace ((48 <=? 87 + n) && (87 + n <=? 57))%N with false.
    + replace ((97 <=? 87 + n) && (87 + n <=? 102))%N with true.
      * f_equal. lia.
      * symmetry. apply andb_true_iff. split; apply N.leb_le; lia.
    + symmetry. apply andb_false_iff. right. apply N.leb_gt. lia.
Qed.

Lemma hex4_unicode_escape (u : N) (tail : jsstring) :
  (u < 65536)%N ->
  read_string (unicode_escape u ++ tail) = cons_read u (read_string tail).
Proof.
  intros Hu. unfold unicode_escape.
  cbn [app read_string].
  change (92 =? 34)%N with false. change (92 =? 92)%N with true.
  change (117 =? 117)%N with true. cbv iota.
  unfold hex4.
  rewrite !N.shiftr_div_pow2.
  change (2 ^ 12)%N with 4096%N. change (2 ^ 8)%N with 256%N.
  change (2 ^ 4)%N with 16%N.
  rewrite !unhex_hex_digit by (apply N.mod_lt; discriminate).
  replace (4096 * (u / 4096 mod 16) + 256 * (u / 256 mod 16)
           + 16 * (u / 16 mod 16) + u mod 16)%N with u; [reflexivity|].
  replace (u / 4096)%N with (u / 16 / 16 / 16)%N
    by (rewrite !N.Div0.div_div; reflexivity).
  replace (u / 256)%N with (u / 16 / 16)%N
    by (rewrite !N.Div0.div_div; reflexivity).
  zify. Z.to_euclidean_division_equations. lia.
Qed.

(** One escaped unit reads back as the unit. *)
Lemma read_escape_unit (u : N) (tail : jsstring) :
  read_string (escape_unit u ++ tail) = cons_read u (read_string tail).
Proof.
  unfold escape_unit.
  destruct (u =? 8)%N eqn:E8; [apply N.eqb_eq in E8; subst; reflexivity|].
  destruct (u =? 9)%N eqn:E9; [apply N.eqb_eq in E9; subst; reflexivity|].
  destruct (u =? 10)%N eqn:E10; [apply N.eqb_eq in E10; subst; reflexivity|].
  destruct (u =? 12)%N eqn:E12; [apply N.eqb_eq in E12; subst; reflexivity|].
  destruct (u =? 13)%N eqn:E13; [apply N.eqb_eq in E13; subst; reflexivity|].
  destruct (u =? 34)%N eqn:E34; [apply N.eqb_eq in E34; subst; reflexivity|].
  destruct (u =? 92)%N eqn:E92; [apply N.eqb_eq in E92; subst; reflexivity|].
  destruct (u <? 32)%N eqn:E32.
  { apply hex4_unicode_escape. apply N.ltb_lt in E32. lia. }
  destruct (is_high_surrogate u || is_low_surrogate u) eqn:Es.
  { apply hex4_unicode_escape.
    unfold is_high_surrogate, is_low_surrogate in Es.
    apply orb_true_iff in Es.
    destruct Es as [Es|Es]; apply andb_true_iff in Es; destruct Es as [_ Es];
      apply N.leb_le in Es; lia. }
  cbn [app read_string]. rewrite E34, E92, E32. reflexivity.
Qed.

(** A unit that is printed as it is reads back as it is. *)
Lemma read_plain_unit (u : N) (tail : jsstring) :
  (55296 <= u)%N ->
  read_string (u :: tail) = cons_read u (read_string tail).
Proof.
  intros Hu. cbn [read_string].
  replace (u =? 34)%N with false by (symmetry; apply N.eqb_neq; lia).
  replace (u =? 92)%N with false by (symmetry; apply N.eqb_neq; lia).
  replace (u <? 32)%N with false by (symmetry; apply N.ltb_ge; lia).
  reflexivity.
Qed.

Lemma quote_units_step (u : N) (rest : jsstring) :
  quote_units (u :: rest)
  = match rest with
    | v :: rest' =>
        if is_high_surrogate u && is_low_surrogate v
        then u :: v :: quote_units rest'
        else escape_unit u ++ quote_units rest
    | [] => escape_unit u
    end.
Proof. destruct rest; reflexivity. Qed.

Lemma read_string_quote_units (n : nat) :
  forall s rest, (List.length s <= n)%nat ->
    read_string (quote_units s ++ 34%N :: rest) = Some (s, rest).
Proof.
  induction n as [|n IH]; intros s rest Hn.
  - destruct s; [reflexivity | simpl in Hn; lia].
  - destruct s as [|u s]; [reflexivity|].
    rewrite quote_units_step. destruct s as [|v s'].
    + rewrite read_escape_unit. reflexivity.
    + destruct (is_high_surrogate u && is_low_surrogate v) eqn:E.
      * apply andb_true_iff in E. destruct E as [Eu Ev].
        unfold is_high_surrogate in Eu. unfold is_low_surrogate in Ev.
        apply andb_true_iff in Eu. apply andb_true_iff in Ev.
        destruct Eu as [Eu _]. destruct Ev as [Ev _].
        apply N.leb_le in Eu. apply N.leb_le in Ev.
        cbn [app]. rewrite read_plain_unit by lia.
        rewrite read_plain_unit by lia.
        rewrite IH by (simpl in Hn; lia). reflexivity.
      * rewrite <- app_assoc, read_escape_unit.
        rewrite IH by (simpl in Hn |- *; lia). reflexivity.
Qed.

Lemma read_string_quote (s rest : jsstring) :
  read_string (quote_units s ++ 34%N :: rest) = Some (s, rest).
Proof. apply (read_string_quote_units (List.length s)). apply Nat.le_refl. Qed.

(** *** Numbers *)

Lemma read_digits_units (d : Decimal.uint) (rest : jsstring) :
  delimited rest -> read_digits (uint_units d ++ rest) = (d, rest).
Proof.
  intros Hr. induction d; cbn [uint_units app read_digits];
    try (change (is_digit _) with true; cbv iota; rewrite IHd; reflexivity).
  destruct rest as [|u r]; [reflexivity|].
  destruct Hr as [Hd _]. cbn [read_digits]. rewrite Hd. reflexivity.
Qed.

Lemma delimited_ends (rest : jsstring) : delimited rest -> ends_number rest = true.
Proof. destruct rest; [reflexivity | intros [_ H]; exact H]. Qed.

Lemma read_unsigned_units (d : Decimal.uint) (rest : jsstring) :
  d <> Decimal.Nil -> (forall d', d = Decimal.D0 d' -> d' = Decimal.Nil) ->
  delimited rest ->
  read_unsigned (uint_units d ++ rest) = Some (d, rest).
Proof.
  intros Hn H0 Hr. unfold read_unsigned. rewrite read_digits_units by assumption.
  rewrite (delimited_ends rest Hr).
  destruct d; try reflexivity; [congruence|].
  rewrite (H0 d eq_refl). reflexivity.
Qed.

Lemma to_uint_no_leading_zero (p : positive) (d' : Decimal.uint) :
  Pos.to_uint p <> Decimal.D0 d'.
Proof.
  intros H.
  pose proof (DecimalPos.Unsigned.to_of (Pos.to_uint p)) as Hn.
  rewrite DecimalPos.Unsigned.of_to in Hn. simpl N.to_uint in Hn.
  pose proof (DecimalPos.Unsigned.to_uint_nonzero p) as Hz.
  unfold Decimal.unorm in Hn.
  destruct (Decimal.nzhead (Pos.to_uint p)) eqn:E;
    try (rewrite H in Hn; rewrite <- Hn in E;
         exact (DecimalFacts.nzhead_nonzero _ _ E)).
  apply Hz. exact Hn.
Qed.

Lemma uint_units_head (d : Decimal.uint) :
  d <> Decimal.Nil ->
  exists u t, uint_units d = u :: t /\ is_digit u = true.
Proof. destruct d; intros H; try congruence; do 2 eexists; split; reflexivity. Qed.

Lemma read_number_units (d : Decimal.uint) (rest : jsstring) :
  d <> Decimal.Nil -> (forall d', d = Decimal.D0 d' -> d' = Decimal.Nil) ->
  delimited rest ->
  read_number (uint_units d ++ rest) = Some (Z.of_int (Decimal.Pos d), rest).
Proof.
  intros Hn H0 Hr.
  destruct (uint_units_head d Hn) as [u [t [Hu Hd]]].
  assert (Hs : uint_units d ++ rest = u :: (t ++ rest))
    by (rewrite Hu; reflexivity).
  unfold read_number. rewrite Hs.
  replace (u =? 45)%N with false.
  2:{ symmetry. apply N.eqb_neq. intros ->. discriminate Hd. }
  rewrite <- Hs. rewrite read_unsigned_units by assumption. reflexivity.
Qed.

Lemma read_number_int_text (z : Z) (rest : jsstring) :
  delimited rest -> read_number (int_text z ++ rest) = Some (z, rest).
Proof.
  intros Hr. rewrite <- (DecimalZ.of_to z) at 2.
  unfold int_text. destruct z as [|p|p]; cbn [Z.to_int].
  - apply read_number_units; [discriminate| |assumption].
    intros d' H. injection H as <-. reflexivity.
  - apply read_number_units;
      [apply DecimalPos.Unsigned.to_uint_nonnil| |assumption].
    intros d' H. destruct (to_uint_no_leading_zero p d' H).
  - pose proof (DecimalPos.Unsigned.to_uint_nonnil p) as Hn.
    pose proof (DecimalPos.Unsigned.to_uint_nonzero p) as Hz.
    unfold read_number. cbn [app]. change (45 =? 45)%N with true. cbv iota.
    rewrite read_unsigned_units; [|assumption| |assumption].
    + destruct (Pos.to_uint p) as [|d| | | | | | | | |] eqn:E;
        try reflexivity.
      destruct (to_uint_no_leading_zero p _ E).
    + intros d' H. destruct (to_uint_no_leading_zero p d' H).
Qed.

(** *** Values *)

Lemma parse_value_S (fuel : nat) (s : jsstring) :
  parse_value (S fuel) s
  = match skip_ws s with
    | [] => None
    | u :: r =>
        if (u =? 110)%N then with_value JNull (literal "null" (u :: r))
        else if (u =? 116)%N then
          with_value (JBool true) (literal "true" (u :: r))
        else if (u =? 102)%N then
          with_value (JBool false) (literal "false" (u :: r))
        else if (u =? 34)%N then
          match read_string r with
          | Some (t, rest) => Some (JStr t, rest)
          | None => None
          end
        else if (u =? 91)%N then
          match skip_ws r with
          | [] => None
          | c :: r' =>
              if (c =? 93)%N then Some (JArr [], r')
              else
                match parse_items fuel r with
                | Some (items, rest) => Some (JArr items, rest)
                | None => None
                end
          end
        else if (u =? 123)%N then
          match skip_ws r with
          | [] => None
          | c :: r' =>
              if (c =? 125)%N then Some (JObj [], r')
              else
                match parse_members fuel r with
                | Some (members, rest) => Some (JObj members, rest)
                | None => None
                end
          end
        else
          match read_number (u :: r) with
          | Some (z, rest) => Some (JNum z, rest)
          | None => None
          end
    end.
Proof. reflexivity. Qed.

Lemma parse_items_S (fuel : nat) (s : jsstring) :
  parse_items (S fuel) s
  = match parse_value fuel s with
    | None => None
    | Some (j, rest) =>
        match skip_ws rest with
        | [] => None
        | c :: r =>
            if (c =? 44)%N then
              match parse_items fuel r with
              | Some (items, rest') => Some (j :: items, rest')
              | None => None
              end
            else if (c =? 93)%N then Some ([j], r)
            else None
        end
    end.
Proof. reflexivity. Qed.

Lemma parse_members_S (fuel : nat) (s : jsstring) :
  parse_members (S fuel) s
  = match skip_ws s with
    | [] => None
    | q :: r =>
        if (q =? 34)%N then
          match read_string r with
          | None => None
          | Some (k, rest) =>
              match skip_ws rest with
              | [] => None
              | c :: r1 =>
                  if (c =? 58)%N then
                    match parse_value fuel r1 with
                    | None => None
                    | Some (j, rest1) =>
                        match skip_ws rest1 with
                        | [] => None
                        | d :: r2 =>
                            if (d =? 44)%N then
                              match parse_members fuel r2 with
                              | Some (ms, rest2) => Some ((k, j) :: ms, rest2)
                              | None => None
                              end
                            else if (d =? 125)%N then Some ([(k, j)], r2)
                            else None
                        end
                    end
                  else None
              end
          end
        else None
    end.
Proof. reflexivity. Qed.

Lemma skip_ws_app (ws s : jsstring) :
  whitespace ws -> skip_ws (ws ++ s) = skip_ws s.
Proof.
  intros H. induction H as [|u ws Hu _ IH]; [reflexivity|].
  cbn [app skip_ws]. rewrite Hu. exact IH.
Qed.

Lemma skip_ws_head (c : N) (s : jsstring) :
  is_ws c = false -> skip_ws (c :: s) = c :: s.
Proof. intros H. cbn [skip_ws]. rewrite H. reflexivity. Qed.

Lemma parse_value_skip (fuel : nat) (ws s : jsstring) :
  whitespace ws -> parse_value fuel (ws ++ s) = parse_value fuel s.
Proof.
  intros H. destruct fuel; [reflexivity|].
  rewrite !parse_value_S, skip_ws_app by assumption. reflexivity.
Qed.

Lemma whitespace_app (a b : jsstring) :
  whitespace a -> whitespace b -> whitespace (a ++ b).
Proof. intros Ha Hb. apply Forall_app. split; assumption. Qed.

Lemma is_ws_cases (u : N) :
  is_ws u = true -> u = 32%N \/ u = 9%N \/ u = 10%N \/ u = 13%N.
Proof.
  unfold is_ws. rewrite !orb_true_iff, !N.eqb_eq. tauto.
Qed.

Lemma delimited_ws (u : N) (t : jsstring) : is_ws u = true -> delimited (u :: t).
Proof.
  intros H. destruct (is_ws_cases u H) as [ -> | [ -> | [ -> | -> ] ] ];
    split; reflexivity.
Qed.

Lemma delimited_after_ws (post : jsstring) (c : N) (rest : jsstring) :
  whitespace post -> delimited (c :: rest) -> delimited (post ++ c :: rest).
Proof.
  intros Hp Hc. destruct Hp as [|u post Hu _]; [exact Hc|].
  apply delimited_ws. exact Hu.
Qed.

Lemma int_text_head (z : Z) :
  exists u t, int_text z = u :: t /\ (is_digit u = true \/ u = 45%N).
Proof.
  unfold int_text. destruct z as [|p|p]; cbn [Z.to_int].
  - do 2 eexists. split; [reflexivity|]. left. reflexivity.
  - destruct (uint_units_head _ (DecimalPos.Unsigned.to_uint_nonnil p))
      as [u [t [Hu Hd]]].
    exists u, t. split; [exact Hu|]. left. exact Hd.
  - do 2 eexists. split; [reflexivity|]. right. reflexivity.
Qed.

Lemma digit_or_minus_cases (u : N) :
  is_digit u = true \/ u = 45%N ->
  is_ws u = false /\ (u =? 93)%N = false /\ (u =? 125)%N = false /\
  (u =? 110)%N = false /\ (u =? 116)%N = false /\ (u =? 102)%N = false /\
  (u =? 34)%N = false /\ (u =? 91)%N = false /\ (u =? 123)%N = false.
Proof.
  intros [H| ->]; [|repeat split; reflexivity].
  unfold is_digit in H. apply andb_true_iff in H. destruct H as [H1 H2].
  apply N.leb_le in H1. apply N.leb_le in H2.
  unfold is_ws.
  repeat split; try (apply N.eqb_neq; lia).
  rewrite !orb_false_iff. repeat split; apply N.eqb_neq; lia.
Qed.

Lemma print_json_head (gap indent : jsstring) (j : Json) :
  exists c t, print_json gap indent j = c :: t /\ opens_value c.
Proof.
  destruct j as [|[|]|z|s|items|members]; cbn [print_json];
    try (do 2 eexists; split; [reflexivity|repeat split; reflexivity]).
  - destruct (int_text_head z) as [u [t [Hu Hd]]].
    exists u, t. split; [exact Hu|].
    destruct (digit_or_minus_cases u Hd) as [H1 [H2 [H3 _]]].
    repeat split; assumption.
  - unfold bracket.
    destruct (is_empty _); [|destruct (is_empty gap)];
      do 2 eexists; (split; [reflexivity|repeat split; reflexivity]).
  - unfold bracket.
    destruct (is_empty _); [|destruct (is_empty gap)];
      do 2 eexists; (split; [reflexivity|repeat split; reflexivity]).
Qed.

(** A bracketed list that is not empty: the opening character, then
    the parts, each after the same run of white space and with a comma
    between two of them, then white space and the closing character. *)
Lemma bracket_shape (gap stepback : jsstring) (opening closing : N)
  (parts : list jsstring) :
  parts <> [] -> whitespace gap -> whitespace stepback ->
  exists pre post,
    whitespace pre /\ whitespace post /\
    bracket gap stepback opening closing parts
    = opening :: pre ++ join (44%N :: pre) parts ++ post ++ [closing].
Proof.
  intros Hp Hg Hs. unfold bracket.
  destruct parts as [|p ps]; [congruence|]. cbn [is_empty].
  destruct gap as [|g gap'].
  - exists [], []. repeat split; constructor.
  - cbn [is_empty].
    assert (Hnl : whitespace [10%N]) by (repeat constructor).
    exists (10%N :: stepback ++ g :: gap'), (10%N :: stepback).
    split; [|split].
    + apply (whitespace_app [10%N]); [exact Hnl|].
      apply whitespace_app; assumption.
    + apply (whitespace_app [10%N]); assumption.
    + cbn [app]. rewrite <- !app_assoc. reflexivity.
Qed.

Lemma join_cons (sep p : jsstring) (ps : list jsstring) :
  join sep (p :: ps)
  = match ps with
    | [] => p
    | _ :: _ => p ++ sep ++ join sep ps
    end.
Proof. destruct ps; reflexivity. Qed.

Lemma colon_shape (gap : jsstring) :
  exists ws, whitespace ws /\ colon gap = 58%N :: ws.
Proof.
  unfold colon. destruct (is_empty gap).
  - exists []. split; [constructor|reflexivity].
  - exists [32%N]. split; [repeat constructor|reflexivity].
Qed.

Lemma items_size_cons (x : Json) (items : list Json) :
  items_size (x :: items) = S (size x + items_size items).
Proof. reflexivity. Qed.

Lemma members_size_cons (m : jsstring * Json) (ms : list (jsstring * Json)) :
  members_size (m :: ms) = S (size (snd m) + members_size ms).
Proof. reflexivity. Qed.

Lemma size_pos (j : Json) : (1 <= size j)%nat.
Proof. destruct j; simpl; lia. Qed.

Lemma parse_items_step (gap : jsstring) (f : nat) :
  reads_values gap f -> reads_items gap f -> reads_items gap (S f).
Proof.
  intros Hv Hi items pre post indent rest Hne Hpre Hpost Hind Hsize.
  destruct items as [|x items]; [congruence|].
  rewrite items_size_cons in Hsize.
  rewrite parse_items_S, parse_value_skip by assumption.
  cbn [map]. rewrite join_cons.
  destruct items as [|y items].
  - cbn [map].
    rewrite (Hv x indent (post ++ 93%N :: rest)); try assumption; try lia.
    + rewrite skip_ws_app by assumption.
      rewrite skip_ws_head by reflexivity. reflexivity.
    + apply delimited_after_ws; [assumption|]. split; reflexivity.
  - cbn [map]. rewrite <- !app_assoc.
    rewrite (Hv x indent); try assumption; try lia.
    + cbn [app]. rewrite skip_ws_head by reflexivity.
      change (44 =? 44)%N with true. cbv iota.
      change (print_json gap indent y :: map (print_json gap indent) items)
        with (map (print_json gap indent) (y :: items)).
      rewrite (Hi (y :: items) pre post indent rest); try assumption;
        try discriminate; [reflexivity|lia].
    + split; reflexivity.
Qed.

Lemma read_member_key (k tail : jsstring) :
  read_string (quote_units k ++ [34%N] ++ tail) = Some (k, tail).
Proof. apply read_string_quote. Qed.

(** The key and the colon of a printed member, read up to its value. *)
Lemma member_prefix (gap indent k : jsstring) (x : Json) (tail : jsstring) :
  exists sp,
    whitespace sp /\
    print_member gap indent (k, x) ++ tail
    = 34%N :: quote_units k ++ [34%N]
        ++ 58%N :: sp ++ print_json gap indent x ++ tail.
Proof.
  destruct (colon_shape gap) as [sp [Hsp Hcolon]].
  exists sp. split; [exact Hsp|].
  unfold print_member, quote. cbn [fst snd]. rewrite Hcolon.
  cbn [app]. rewrite <- !app_assoc. cbn [app]. rewrite <- ?app_assoc.
  reflexivity.
Qed.

Lemma parse_members_step (gap : jsstring) (f : nat) :
  reads_values gap f -> reads_members gap f -> reads_members gap (S f).
Proof.
  intros Hv Hm members pre post indent rest Hne Hpre Hpost Hind Hsize.
  destruct members as [|[k x] members]; [congruence|].
  rewrite members_size_cons in Hsize. cbn [snd] in Hsize.
  rewrite parse_members_S, skip_ws_app by assumption.
  cbn [map]. rewrite join_cons.
  destruct members as [|m members]; cbn [map].
  - destruct (member_prefix gap indent k x (post ++ 125%N :: rest))
      as [sp [Hsp Heq]].
    rewrite Heq. rewrite skip_ws_head by reflexivity.
    change (34 =? 34)%N with true. cbv iota.
    rewrite read_member_key.
    rewrite skip_ws_head by reflexivity.
    change (58 =? 58)%N with true. cbv iota.
    rewrite parse_value_skip by assumption.
    rewrite (Hv x indent (post ++ 125%N :: rest)); try assumption; try lia.
    + rewrite skip_ws_app by assumption.
      rewrite skip_ws_head by reflexivity. reflexivity.
    + apply delimited_after_ws; [assumption|]. split; reflexivity.
  - rewrite <- !app_assoc.
    match goal with
    | |- context [print_member gap indent (k, x) ++ ?tail] =>
        destruct (member_prefix gap indent k x tail) as [sp [Hsp Heq]];
        rewrite Heq
    end.
    rewrite skip_ws_head by reflexivity.
    change (34 =? 34)%N with true. cbv iota.
    rewrite read_member_key.
    rewrite skip_ws_head by reflexivity.
    change (58 =? 58)%N with true. cbv iota.
    rewrite parse_value_skip by assumption.
    rewrite (Hv x indent); try assumption; try lia.
    + cbn [app]. rewrite skip_ws_head by reflexivity.
      change (44 =? 44)%N with true. cbv iota.
      change (print_member gap indent m :: map (print_member gap indent) members)
        with (map (print_member gap indent) (m :: members)).
      rewrite (Hm (m :: members) pre post indent rest); try assumption;
        try discriminate; [reflexivity|lia].
    + split; reflexivity.
Qed.

Lemma parts_head {A} (f : A -> jsstring) (sep : jsstring) (x : A) (xs : list A)
  (tail : jsstring) (c : N) (t : jsstring) :
  f x = c :: t ->
  exists t', join sep (map f (x :: xs)) ++ tail = c :: t'.
Proof.
  intros H. cbn [map]. rewrite join_cons, H.
  destruct (map f xs); eexists; reflexivity.
Qed.

Lemma parse_value_step (gap : jsstring) (f : nat) :
  whitespace gap ->
  reads_items gap f -> reads_members gap f -> reads_values gap (S f).
Proof.
  intros Hg Hi Hm j indent rest Hind Hsize Hrest.
  rewrite parse_value_S.
  destruct j as [|[|]|z|s|items|members]; cbn [print_json].
  - reflexivity.
  - reflexivity.
  - reflexivity.
  - destruct (int_text_head z) as [u [t [Hu Hd]]].
    destruct (digit_or_minus_cases u Hd)
      as [H1 [_ [_ [H4 [H5 [H6 [H7 [H8 H9]]]]]]]].
    assert (Hs : int_text z ++ rest = u :: (t ++ rest))
      by (rewrite Hu; reflexivity).
    rewrite Hs, skip_ws_head by assumption.
    rewrite H4, H5, H6, H7, H8, H9, <- Hs.
    rewrite read_number_int_text by assumption. reflexivity.
  - unfold quote. cbn [app]. rewrite skip_ws_head by reflexivity.
    change (34 =? 110)%N with false. change (34 =? 116)%N with false.
    change (34 =? 102)%N with false. change (34 =? 34)%N with true.
    cbv iota. rewrite <- app_assoc. rewrite read_member_key. reflexivity.
  - destruct items as [|x items]; [reflexivity|].
    assert (Hw : whitespace (indent ++ gap)) by (apply whitespace_app; assumption).
    destruct (bracket_shape gap indent 91%N 93%N
                (map (print_json gap (indent ++ gap)) (x :: items)))
      as [pre [post [Hpre [Hpost Heq]]]]; try assumption; [discriminate|].
    rewrite Heq. cbn [app]. rewrite skip_ws_head by reflexivity.
    change (91 =? 110)%N with false. change (91 =? 116)%N with false.
    change (91 =? 102)%N with false. change (91 =? 34)%N with false.
    change (91 =? 91)%N with true. cbv iota.
    rewrite <- !app_assoc. rewrite skip_ws_app by assumption.
    destruct (print_json_head gap (indent ++ gap) x) as [c [t [Hc [Hc1 [Hc2 _]]]]].
    destruct (parts_head (print_json gap (indent ++ gap)) (44%N :: pre) x items
                (post ++ [93%N] ++ rest) c t Hc) as [t' Ht'].
    rewrite Ht', skip_ws_head, Hc2, <- Ht' by assumption.
    cbn [app].
    rewrite (Hi (x :: items) pre post (indent ++ gap) rest); try assumption;
      [reflexivity|discriminate|].
    simpl in Hsize. unfold items_size. simpl. lia.
  - destruct members as [|m members]; [reflexivity|].
    assert (Hw : whitespace (indent ++ gap)) by (apply whitespace_app; assumption).
    change (map (fun m0 => quote (fst m0) ++ colon gap
                             ++ print_json gap (indent ++ gap) (snd m0))
              (m :: members))
      with (map (print_member gap (indent ++ gap)) (m :: members)).
    destruct (bracket_shape gap indent 123%N 125%N
                (map (print_member gap (indent ++ gap)) (m :: members)))
      as [pre [post [Hpre [Hpost Heq]]]]; try assumption; [discriminate|].
    rewrite Heq. cbn [app]. rewrite skip_ws_head by reflexivity.
    change (123 =? 110)%N with false. change (123 =? 116)%N with false.
    change (123 =? 102)%N with false. change (123 =? 34)%N with false.
    change (123 =? 91)%N with false. change (123 =? 123)%N with true.
    cbv iota.
    rewrite <- !app_assoc. rewrite skip_ws_app by assumption.
    assert (Hc : print_member gap (indent ++ gap) m
                 = 34%N :: (quote_units (fst m) ++ [34%N]) ++ colon gap
                     ++ print_json gap (indent ++ gap) (snd m))
      by reflexivity.
    destruct (parts_head (print_member gap (indent ++ gap)) (44%N :: pre) m
                members (post ++ [125%N] ++ rest) _ _ Hc) as [t' Ht'].
    rewrite Ht', skip_ws_head by reflexivity.
    change (34 =? 125)%N with false. cbv iota. rewrite <- Ht'.
    cbn [app].
    rewrite (Hm (m :: members) pre post (indent ++ gap) rest); try assumption;
      [reflexivity|discriminate|].
    simpl in Hsize. unfold members_size. simpl. lia.
Qed.

(** Printed with white space for indentation, a document reads back
    as itself, given fuel for its size. *)
Lemma parse_print_fuel (gap : jsstring) :
  whitespace gap ->
  forall f, reads_values gap f /\ reads_items gap f /\ reads_members gap f.
Proof.
  intros Hg. induction f as [|f [IHv [IHi IHm]]].
  - split; [|split].
    + intros j indent rest _ Hs _. pose proof (size_pos j). lia.
    + intros [|x items] pre post indent rest Hne _ _ _ Hs; [congruence|].
      rewrite items_size_cons in Hs. lia.
    + intros [|m ms] pre post indent rest Hne _ _ _ Hs; [congruence|].
      rewrite members_size_cons in Hs. lia.
  - split; [|split].
    + apply parse_value_step; assumption.
    + apply parse_items_step; assumption.
    + apply parse_members_step; assumption.
Qed.

(** *** The fuel of [JSON.parse] suffices *)

Lemma join_covers {A} (sz : A -> nat) (f : A -> jsstring) (sep : jsstring)
  (l : list A) :
  sep <> [] ->
  (forall x, In x l -> (sz x <= List.length (f x))%nat) ->
  (fold_right (fun x n => S (sz x + n)) O l
   <= S (List.length (join sep (map f l))))%nat.
Proof.
  intros Hsep Hf. induction l as [|x l IH]; [simpl; lia|].
  cbn [map fold_right]. rewrite join_cons.
  pose proof (Hf x (or_introl eq_refl)) as Hx.
  assert (IH' : (fold_right (fun x n => S (sz x + n)) O l
                 <= S (List.length (join sep (map f l))))%nat)
    by (apply IH; intros y Hy; apply Hf; right; exact Hy).
  destruct l as [|y l]; [simpl; lia|].
  cbn [map] in *. rewrite !length_app.
  destruct sep as [|s sep]; [congruence|]. simpl List.length at 2. lia.
Qed.

Lemma in_items_size (x : Json) (items : list Json) :
  In x items -> (S (size x) <= items_size items)%nat.
Proof.
  induction items as [|y items IH]; intros H; [destruct H|].
  rewrite items_size_cons. destruct H as [->|H]; [lia|].
  specialize (IH H). lia.
Qed.

Lemma in_members_size (m : jsstring * Json) (ms : list (jsstring * Json)) :
  In m ms -> (S (size (snd m)) <= members_size ms)%nat.
Proof.
  induction ms as [|y ms IH]; intros H; [destruct H|].
  rewrite members_size_cons. destruct H as [->|H]; [lia|].
  specialize (IH H). lia.
Qed.

Lemma size_le_print (gap : jsstring) :
  whitespace gap ->
  forall n j indent,
    whitespace indent -> (size j <= n)%nat ->
    (size j <= List.length (print_json gap indent j))%nat.
Proof.
  intros Hg. induction n as [|n IH]; intros j indent Hind Hn.
  - pose proof (size_pos j). lia.
  - assert (Hw : whitespace (indent ++ gap)) by (apply whitespace_app; assumption).
    destruct j as [|[|]|z|s|items|members]; cbn [print_json];
      try (simpl; lia).
    + destruct (int_text_head z) as [u [t [-> _]]]. simpl. lia.
    + destruct items as [|x items]; [simpl; lia|].
      destruct (bracket_shape gap indent 91%N 93%N
                  (map (print_json gap (indent ++ gap)) (x :: items)))
        as [pre [post [_ [_ Heq]]]]; try assumption; [discriminate|].
      rewrite Heq.
      change (size (JArr (x :: items))) with (S (items_size (x :: items))) in *.
      pose proof (join_covers size (print_json gap (indent ++ gap))
                    (44%N :: pre) (x :: items)) as Hc.
      fold (items_size (x :: items)) in Hc.
      cbn [List.length]. rewrite !length_app.
      assert ((items_size (x :: items)
               <= S (List.length
                       (join (44%N :: pre)
                          (map (print_json gap (indent ++ gap)) (x :: items)))))%nat).
      { apply Hc; [discriminate|]. intros y Hy. apply IH; [assumption|].
        pose proof (in_items_size y _ Hy). lia. }
      change (List.length [93%N]) with 1%nat. lia.
    + destruct members as [|m members]; [simpl; lia|].
      change (map (fun m0 => quote (fst m0) ++ colon gap
                               ++ print_json gap (indent ++ gap) (snd m0))
                (m :: members))
        with (map (print_member gap (indent ++ gap)) (m :: members)).
      destruct (bracket_shape gap indent 123%N 125%N
                  (map (print_member gap (indent ++ gap)) (m :: members)))
        as [pre [post [_ [_ Heq]]]]; try assumption; [discriminate|].
      rewrite Heq.
      change (size (JObj (m :: members))) with (S (members_size (m :: members))) in *.
      pose proof (join_covers (fun m0 => size (snd m0))
                    (print_member gap (indent ++ gap))
                    (44%N :: pre) (m :: members)) as Hc.
      fold (members_size (m :: members)) in Hc.
      cbn [List.length]. rewrite !length_app.
      assert ((members_size (m :: members)
               <= S (List.length
                       (join (44%N :: pre)
                          (map (print_member gap (indent ++ gap)) (m :: members)))))%nat).
      { apply Hc; [discriminate|]. intros y Hy.
        unfold print_member. rewrite !length_app.
        assert (size (snd y)
                <= List.length (print_json gap (indent ++ gap) (snd y)))%nat.
        { apply IH; [assumption|].
          pose proof (in_members_size y _ Hy). lia. }
        lia. }
      change (List.length [125%N]) with 1%nat. lia.
Qed.

(** [JSON.parse] reads back the tree [JSON.stringify] printed, in the
    compact form and in the indented one. *)
Lemma JSON_parse_print (gap : jsstring) (j : Json) :
  whitespace gap -> JSON_parse_tree (print_json gap [] j) = Some j.
Proof.
  intros Hg. unfold JSON_parse_tree.
  destruct (parse_print_fuel gap Hg (S (List.length (print_json gap [] j))))
    as [Hv _].
  rewrite <- (List.app_nil_r (print_json gap [] j)) at 2.
  rewrite Hv; [reflexivity|constructor| |exact I].
  pose proof (size_le_print gap Hg (size j) j [] (Forall_nil _) (Nat.le_refl _)).
  lia.
Qed.

(* ------------------------------------------------------------------ *)
(** ** Objects and their keys *)

Lemma key_ltb_irrefl (k : jsstring) : key_ltb k k = false.
Proof.
  unfold key_ltb. destruct (array_index k).
  - apply N.ltb_irrefl.
  - rewrite jsstring_eqb_refl. reflexivity.
Qed.

Lemma lookup_fresh {A} (k : jsstring) (props : list (jsstring * A)) :
  Forall (fun p => key_ltb (fst p) k = true) props -> lookup k props = None.
Proof.
  intros H. induction H as [|[k' a] props Hk _ IH]; [reflexivity|].
  cbn [lookup]. cbn [fst] in Hk.
  destruct (jsstring_eqb k k') eqn:E; [|exact IH].
  apply jsstring_eqb_eq in E. subst k'. rewrite key_ltb_irrefl in Hk.
  discriminate.
Qed.

Lemma insert_index_last {A} (n : N) (k : jsstring) (a : A)
  (props : list (jsstring * A)) :
  array_index k = Some n ->
  Forall (fun p => key_ltb (fst p) k = true) props ->
  insert_index n k a props = props ++ [(k, a)].
Proof.
  intros Hk H. induction H as [|[k' a'] props Hlt _ IH]; [reflexivity|].
  cbn [insert_index app]. cbn [fst] in Hlt. unfold key_ltb in Hlt.
  rewrite Hk in Hlt. destruct (array_index k') as [m|]; [|discriminate].
  rewrite Hlt, IH. reflexivity.
Qed.

Lemma obj_set_last {A} (props : list (jsstring * A)) (k : jsstring) (a : A) :
  Forall (fun p => key_ltb (fst p) k = true) props ->
  obj_set props k a = props ++ [(k, a)].
Proof.
  intros H. unfold obj_set. rewrite (lookup_fresh k props H).
  destruct (array_index k) as [n|] eqn:E; [|reflexivity].
  apply insert_index_last; assumption.
Qed.

Lemma ordered_keys_app (a : list jsstring) (k : jsstring) (rest : list jsstring) :
  ordered_keys (a ++ k :: rest) = true ->
  Forall (fun k' => key_ltb k' k = true) a.
Proof.
  induction a as [|k' a IH]; intros H; [constructor|].
  cbn [app ordered_keys] in H. apply andb_true_iff in H. destruct H as [H1 H2].
  constructor; [|apply IH; exact H2].
  rewrite forallb_app in H1. apply andb_true_iff in H1. destruct H1 as [_ H1].
  cbn [forallb] in H1. apply andb_true_iff in H1. destruct H1 as [H1 _].
  exact H1.
Qed.

Lemma fold_obj_set {A B} (f : A -> B) (entries : list (jsstring * A)) :
  forall acc : list (jsstring * B),
    ordered_keys (map fst acc ++ map fst entries) = true ->
    fold_left (fun o kv => obj_set o (fst kv) (f (snd kv))) entries acc
    = acc ++ map (fun kv => (fst kv, f (snd kv))) entries.
Proof.
  induction entries as [|[k v] entries IH]; intros acc H.
  - cbn [fold_left map]. rewrite List.app_nil_r. reflexivity.
  - cbn [fold_left map fst snd] in *.
    rewrite obj_set_last.
    + rewrite IH.
      * rewrite <- app_assoc. reflexivity.
      * rewrite map_app, <- app_assoc. exact H.
    + pose proof (ordered_keys_app _ _ _ H) as Hk.
      rewrite Forall_map in Hk. exact Hk.
Qed.

(** Defining the members of an object in enumeration order gives the
    object back. *)
Lemma fromEntries_ordered {A B} (f : A -> B) (entries : list (jsstring * A)) :
  ordered_keys (map fst entries) = true ->
  fromEntries f entries = map (fun kv => (fst kv, f (snd kv))) entries.
Proof.
  intros H. unfold fromEntries. rewrite fold_obj_set; [reflexivity|exact H].
Qed.

(* ------------------------------------------------------------------ *)
(** ** JSON data survives the round trip *)

(** The JSON conversion of plain JSON data is a tree from which
    [JSON.parse] rebuilds the same value. *)
Lemma json_data_round_trip (v : JsValue) :
  json_data v = true ->
  exists j, to_json v = Normal (Some j) /\ from_json j = v.
Proof.
  induction v as [v Hleaf|elems IH|props IH] using JsValue_induction;
    intros Hd.
  - destruct v as [| |b|[z| | |]|z|s|d|l|p|n m s j|e|n|b|a b c];
      try discriminate Hd; try contradiction;
      eexists; (split; [reflexivity|reflexivity]).
  - cbn [json_data] in Hd. cbn [to_json].
    match goal with
    | |- context [cbind (?F elems) _] =>
        assert (Hitems : exists items,
                   F elems = Normal items /\ map from_json items = elems)
    end.
    { induction IH as [|x r Hx _ IHr]; [exists []; split; reflexivity|].
      cbn [forallb] in Hd. apply andb_true_iff in Hd. destruct Hd as [Hd1 Hd2].
      destruct (Hx Hd1) as [j [Hj1 Hj2]].
      destruct (IHr Hd2) as [items [Hi1 Hi2]].
      exists (j :: items). rewrite Hj1. cbn [cbind]. rewrite Hi1.
      cbn [cbind or_null map]. rewrite Hj2, Hi2. split; reflexivity. }
    destruct Hitems as [items [Hi1 Hi2]]. rewrite Hi1.
    exists (JArr items). cbn [cbind from_json]. rewrite Hi2.
    split; reflexivity.
  - cbn [json_data] in Hd. apply andb_true_iff in Hd. destruct Hd as [Hk Hd].
    cbn [to_json].
    match goal with
    | |- context [cbind (?F props) _] =>
        assert (Hmembers : exists members,
                   F props = Normal members /\
                   map (fun m => (fst m, from_json (snd m))) members = props)
    end.
    { clear Hk. induction IH as [|[k x] r Hx _ IHr];
        [exists []; split; reflexivity|].
      cbn [forallb snd] in Hd. apply andb_true_iff in Hd.
      destruct Hd as [Hd1 Hd2]. cbn [snd] in Hx.
      destruct (Hx Hd1) as [j [Hj1 Hj2]].
      destruct (IHr Hd2) as [members [Hm1 Hm2]].
      exists ((k, j) :: members). rewrite Hj1. cbn [cbind]. rewrite Hm1.
      cbn [cbind map fst snd]. rewrite Hj2, Hm2. split; reflexivity. }
    destruct Hmembers as [members [Hm1 Hm2]]. rewrite Hm1.
    exists (JObj members). cbn [cbind from_json]. split; [reflexivity|].
    rewrite Hm2. rewrite fromEntries_ordered by exact Hk.
    f_equal. clear. induction props as [|[k x] props IH]; [reflexivity|].
    cbn [map fst snd]. rewrite IH. reflexivity.
Qed.



(* ------------------------------------------------------------------ *)
(** ** Session controls *)

Lemma session_appended (later : list JsValue) (w : World) :
  session (appended later w) = session w ++ later.
Proof.
  revert w. induction later as [|e later IH]; intros w.
  - simpl. rewrite List.app_nil_r. reflexivity.
  - cbn [appended fold_left]. fold (appended later (snd (emit e w))).
    rewrite IH. simpl. rewrite <- app_assoc. reflexivity.
Qed.









(* ================================================================== *)
(** * Further properties *)

(* ------------------------------------------------------------------ *)
(** ** Objects: writing a key and reading it back *)

Lemma lookup_app {A} (k : jsstring) (p q : list (jsstring * A)) :
  lookup k (p ++ q)
  = match lookup k p with
    | Some a => Some a
    | None => lookup k q
    end.
Proof.
  induction p as [|[k0 a0] p IH]; [reflexivity|].
  cbn [app lookup]. destruct (jsstring_eqb k k0); [reflexivity|exact IH].
Qed.

Lemma lookup_replace_prop {A} (k k' : jsstring) (a : A)
  (props : list (jsstring * A)) :
  lookup k' (replace_prop k a props)
  = if jsstring_eqb k' k
    then match lookup k props with
         | Some _ => Some a
         | None => None
         end
    else lookup k' props.
Proof.
  induction props as [|[k0 a0] props IH].
  - cbn. destruct (jsstring_eqb k' k); reflexivity.
  - cbn [replace_prop lookup].
    destruct (jsstring_eqb k k0) eqn:E.
    + apply jsstring_eqb_eq in E. subst k0. cbn [lookup].
      destruct (jsstring_eqb k' k); reflexivity.
    + cbn [lookup]. destruct (jsstring_eqb k' k0) eqn:E0.
      * apply jsstring_eqb_eq in E0. subst k0.
        destruct (jsstring_eqb k' k) eqn:E1; [|reflexivity].
        apply jsstring_eqb_eq in E1. subst k'.
        rewrite jsstring_eqb_refl in E. discriminate.
      * exact IH.
Qed.

Lemma lookup_insert_index {A} (n : N) (k k' : jsstring) (a : A)
  (props : list (jsstring * A)) :
  lookup k props = None ->
  lookup k' (insert_index n k a props)
  = if jsstring_eqb k' k then Some a else lookup k' props.
Proof.
  induction props as [|[k0 a0] props IH]; intros Hl.
  - reflexivity.
  - cbn [lookup] in Hl. destruct (jsstring_eqb k k0) eqn:E; [discriminate|].
    cbn [insert_index].
    assert (Hhere :
      lookup k' ((k, a) :: (k0, a0) :: props)
      = if jsstring_eqb k' k then Some a else lookup k' ((k0, a0) :: props))
      by reflexivity.
    destruct (array_index k0) as [m|]; [|exact Hhere].
    destruct (m <? n)%N; [|exact Hhere].
    cbn [lookup]. rewrite (IH Hl).
    destruct (jsstring_eqb k' k0) eqn:E0; [|reflexivity].
    apply jsstring_eqb_eq in E0. subst k0.
    destruct (jsstring_eqb k' k) eqn:E1; [|reflexivity].
    apply jsstring_eqb_eq in E1. subst k'.
    rewrite jsstring_eqb_refl in E. discriminate.
Qed.

(** After [o[k] = a], reading [k] gives [a] and every other key reads
    as before. *)
Lemma lookup_obj_set {A} (props : list (jsstring * A)) (k k' : jsstring) (a : A) :
  lookup k' (obj_set props k a)
  = if jsstring_eqb k' k then Some a else lookup k' props.
Proof.
  unfold obj_set. destruct (lookup k props) as [a0|] eqn:E.
  - rewrite lookup_replace_prop, E. reflexivity.
  - destruct (array_index k) as [n|].
    + apply lookup_insert_index. exact E.
    + rewrite lookup_app. cbn [lookup].
      destruct (jsstring_eqb k' k) eqn:E1.
      * apply jsstring_eqb_eq in E1. subst k'. rewrite E. reflexivity.
      * destruct (lookup k' props); reflexivity.
Qed.

Lemma fromEntries_snoc {A B} (f : A -> B) (entries : list (jsstring * A))
  (k : jsstring) (v : A) :
  fromEntries f (entries ++ [(k, v)]) = obj_set (fromEntries f entries) k (f v).
Proof. unfold fromEntries. rewrite fold_left_app. reflexivity. Qed.

(** The object built from a list of entries maps each key to the value
    of its last entry. *)
Lemma lookup_fromEntries {A B} (f : A -> B) (entries : list (jsstring * A))
  (k : jsstring) :
  lookup k (fromEntries f entries) = option_map f (lookup k (rev entries)).
Proof.
  induction entries as [|[k0 v0] entries IH] using rev_ind; [reflexivity|].
  rewrite fromEntries_snoc, lookup_obj_set, rev_app_distr. cbn [rev app lookup].
  destruct (jsstring_eqb k k0); [reflexivity|exact IH].
Qed.

(* ------------------------------------------------------------------ *)
(** ** Array-index keys are canonical *)

Lemma digit_val_bound (u d : N) : digit_val u = Some d -> (d <= 9)%N /\ u = (48 + d)%N.
Proof.
  unfold digit_val. destruct ((48 <=? u) && (u <=? 57))%N eqn:E; [|discriminate].
  intros H. injection H as <-.
  apply andb_true_iff in E. destruct E as [E1 E2].
  apply N.leb_le in E1, E2. lia.
Qed.

(** The value of a digit string read after [acc]. *)
Lemma digits_val_range (s : jsstring) :
  forall acc n, digits_val acc s = Some n ->
    (acc * 10 ^ N.of_nat (List.length s) <= n
     < (acc + 1) * 10 ^ N.of_nat (List.length s))%N.
Proof.
  induction s as [|u r IH]; intros acc n H.
  - cbn in H. injection H as <-. cbn. lia.
  - cbn [digits_val] in H. destruct (digit_val u) as [d|] eqn:Ed; [|discriminate].
    apply digit_val_bound in Ed. destruct Ed as [Hd _].
    specialize (IH _ _ H).
    cbn [List.length]. rewrite Nat2N.inj_succ, N.pow_succ_r'.
    nia.
Qed.

Lemma digits_val_inj (a : jsstring) :
  forall b acc acc' n,
    List.length a = List.length b ->
    digits_val acc a = Some n -> digits_val acc' b = Some n ->
    acc = acc' /\ a = b.
Proof.
  induction a as [|u r IH]; intros [|u' r'] acc acc' n Hlen Ha Hb;
    try discriminate Hlen.
  - cbn in Ha, Hb. split; congruence.
  - cbn [digits_val] in Ha, Hb.
    destruct (digit_val u) as [d|] eqn:Ed; [|discriminate].
    destruct (digit_val u') as [d'|] eqn:Ed'; [|discriminate].
    apply digit_val_bound in Ed, Ed'.
    injection Hlen as Hlen.
    destruct (IH _ _ _ _ Hlen Ha Hb) as [Hacc Hr].
    assert (acc = acc' /\ d = d') as [H1 H2] by lia.
    subst. split; [reflexivity|].
    destruct Ed as [_ ->]. destruct Ed' as [_ ->]. reflexivity.
Qed.

(** What [array_index] accepts: ["0"], or digits that do not start
    with a zero. *)
Lemma array_index_shape (k : jsstring) (n : N) :
  array_index k = Some n ->
  (k = [48%N] /\ n = 0%N) \/
  (exists u r d, k = u :: r /\ digit_val u = Some d /\ (1 <= d)%N /\
                 digits_val d r = Some n).
Proof.
  unfold array_index. destruct k as [|u r]; [discriminate|].
  destruct (N.eq_dec u 48) as [->|Hu].
  - destruct r; [|discriminate]. intros H. injection H as <-. left. split; reflexivity.
  - assert (Hgen :
      match digits_val 0 (u :: r) with
      | Some n0 => if (n0 <=? 4294967294)%N then Some n0 else None
      | None => None
      end = Some n ->
      exists u0 r0 d, u :: r = u0 :: r0 /\ digit_val u0 = Some d /\ (1 <= d)%N /\
                      digits_val d r0 = Some n).
    { cbn [digits_val]. destruct (digit_val u) as [d|] eqn:Ed; [|discriminate].
      change (10 * 0 + d)%N with d.
      destruct (digits_val d r) as [n0|] eqn:En; [|discriminate].
      destruct (n0 <=? 4294967294)%N; [|discriminate].
      intros H. injection H as <-.
      exists u, r, d. repeat split; try assumption.
      apply digit_val_bound in Ed. lia. }
    intros H. right. apply Hgen.
    destruct u as [|p]; [exact H|].
    do 6 (destruct p as [p|p|]; try exact H). congruence.
Qed.

Lemma array_index_inj (a b : jsstring) (n : N) :
  array_index a = Some n -> array_index b = Some n -> a = b.
Proof.
  intros Ha Hb.
  destruct (array_index_shape a n Ha) as [[-> Hn]|[u [r [d [-> [Hu [Hd Hr]]]]]]];
    destruct (array_index_shape b n Hb)
      as [[-> Hn']|[u' [r' [d' [-> [Hu' [Hd' Hr']]]]]]].
  - reflexivity.
  - subst n. pose proof (digits_val_range r' d' 0%N Hr') as H.
    assert (0 < 10 ^ N.of_nat (List.length r'))%N by (apply N.neq_0_lt_0, N.pow_nonzero; lia).
    nia.
  - subst n. pose proof (digits_val_range r d 0%N Hr) as H.
    assert (0 < 10 ^ N.of_nat (List.length r))%N by (apply N.neq_0_lt_0, N.pow_nonzero; lia).
    nia.
  - pose proof (digits_val_range r d n Hr) as H.
    pose proof (digits_val_range r' d' n Hr') as H'.
    apply digit_val_bound in Hu, Hu'. destruct Hu as [Hu9 ->]. destruct Hu' as [Hu9' ->].
    assert (Hlen : List.length r = List.length r').
    { destruct (Nat.lt_trichotomy (List.length r) (List.length r')) as [Hlt|[Heq|Hgt]];
        [exfalso|exact Heq|exfalso].
      - assert (10 * 10 ^ N.of_nat (List.length r) <= 10 ^ N.of_nat (List.length r'))%N.
        { rewrite <- N.pow_succ_r'. apply N.pow_le_mono_r; lia. }
        nia.
      - assert (10 * 10 ^ N.of_nat (List.length r') <= 10 ^ N.of_nat (List.length r))%N.
        { rewrite <- N.pow_succ_r'. apply N.pow_le_mono_r; lia. }
        nia. }
    destruct (digits_val_inj r r' d d' n Hlen Hr Hr') as [-> ->]. reflexivity.
Qed.

(* ------------------------------------------------------------------ *)
(** ** Writing a key keeps the enumeration order *)

Lemma keys_replace_prop {A} (k : jsstring) (a : A) (props : list (jsstring * A)) :
  map fst (replace_prop k a props) = map fst props.
Proof.
  induction props as [|[k0 a0] props IH]; [reflexivity|].
  cbn [replace_prop]. destruct (jsstring_eqb k k0); cbn [map fst]; congruence.
Qed.

Lemma forallb_keys_insert_index {A} (P : jsstring -> bool) (n : N) (k : jsstring)
  (a : A) (props : list (jsstring * A)) :
  forallb P (map fst (insert_index n k a props))
  = P k && forallb P (map fst props).
Proof.
  induction props as [|[k0 a0] props IH].
  - reflexivity.
  - cbn [insert_index]. destruct (array_index k0) as [m|]; [|reflexivity].
    destruct (m <? n)%N; [|reflexivity].
    cbn [map fst forallb]. rewrite IH.
    destruct (P k), (P k0); reflexivity.
Qed.

Lemma ordered_keys_snoc (ks : list jsstring) (k : jsstring) :
  ordered_keys ks = true -> forallb (fun x => key_ltb x k) ks = true ->
  ordered_keys (ks ++ [k]) = true.
Proof.
  induction ks as [|x ks IH]; intros Ho Hk; [reflexivity|].
  cbn [ordered_keys forallb app] in *.
  apply andb_true_iff in Ho. destruct Ho as [Ho1 Ho2].
  apply andb_true_iff in Hk. destruct Hk as [Hk1 Hk2].
  rewrite forallb_app, Ho1. cbn [forallb]. rewrite Hk1, (IH Ho2 Hk2). reflexivity.
Qed.

Lemma lookup_none_keys {A} (k : jsstring) (props : list (jsstring * A)) :
  lookup k props = None ->
  forallb (fun x => negb (jsstring_eqb k x)) (map fst props) = true.
Proof.
  induction props as [|[k0 a0] props IH]; intros H; [reflexivity|].
  cbn [lookup] in H. destruct (jsstring_eqb k k0) eqn:E; [discriminate|].
  cbn [map fst forallb]. rewrite E, (IH H). reflexivity.
Qed.

Lemma jsstring_eqb_sym (a b : jsstring) : jsstring_eqb a b = jsstring_eqb b a.
Proof.
  revert b. induction a as [|x a IH]; intros [|y b]; try reflexivity.
  cbn [jsstring_eqb]. rewrite IH, N.eqb_sym. reflexivity.
Qed.

(** An index key that comes before [k0] comes before whatever [k0]
    comes before. *)
Lemma key_ltb_index_trans (k k0 x : jsstring) (n : N) :
  array_index k = Some n ->
  key_ltb k k0 = true -> key_ltb k0 x = true -> key_ltb k x = true.
Proof.
  unfold key_ltb. intros ->.
  destruct (array_index k0) as [m|], (array_index x) as [p|]; intros H1 H2;
    try reflexivity; try discriminate.
  apply N.ltb_lt in H1, H2. apply N.ltb_lt. lia.
Qed.

Lemma ordered_keys_insert_index {A} (n : N) (k : jsstring) (a : A)
  (props : list (jsstring * A)) :
  array_index k = Some n ->
  lookup k props = None ->
  ordered_keys (map fst props) = true ->
  ordered_keys (map fst (insert_index n k a props)) = true.
Proof.
  intros Hk. induction props as [|[k0 a0] props IH]; intros Hl Ho.
  - reflexivity.
  - cbn [lookup] in Hl. destruct (jsstring_eqb k k0) eqn:E; [discriminate|].
    cbn [map fst ordered_keys] in Ho.
    apply andb_true_iff in Ho. destruct Ho as [Ho1 Ho2].
    assert (Hfront :
      key_ltb k k0 = true ->
      ordered_keys (map fst ((k, a) :: (k0, a0) :: props)) = true).
    { intros Hlt. cbn [map fst ordered_keys forallb].
      rewrite Hlt, Ho1, Ho2. cbn [andb].
      rewrite andb_true_r. apply forallb_forall. intros x Hx.
      rewrite forallb_forall in Ho1.
      exact (key_ltb_index_trans k k0 x n Hk Hlt (Ho1 x Hx)). }
    cbn [insert_index]. destruct (array_index k0) as [m|] eqn:E0.
    + destruct (m <? n)%N eqn:Em.
      * cbn [map fst ordered_keys].
        rewrite forallb_keys_insert_index, Ho1, (IH Hl Ho2).
        unfold key_ltb. rewrite E0, Hk, Em. reflexivity.
      * apply Hfront. unfold key_ltb. rewrite Hk, E0.
        apply N.ltb_lt. apply N.ltb_ge in Em.
        destruct (N.eq_dec m n) as [->|Hne]; [|lia].
        rewrite (array_index_inj k k0 n Hk E0), jsstring_eqb_refl in E.
        discriminate.
    + apply Hfront. unfold key_ltb. rewrite Hk, E0. reflexivity.
Qed.

Lemma obj_set_ordered {A} (props : list (jsstring * A)) (k : jsstring) (a : A) :
  ordered_keys (map fst props) = true ->
  ordered_keys (map fst (obj_set props k a)) = true.
Proof.
  intros Ho. unfold obj_set. destruct (lookup k props) as [a0|] eqn:E.
  - rewrite keys_replace_prop. exact Ho.
  - destruct (array_index k) as [n|] eqn:Ek.
    + apply ordered_keys_insert_index; assumption.
    + rewrite map_app. cbn [map fst]. apply ordered_keys_snoc; [exact Ho|].
      pose proof (lookup_none_keys k props E) as Hn.
      rewrite forallb_forall in Hn. apply forallb_forall. intros x Hx.
      unfold key_ltb. rewrite Ek. destruct (array_index x); [reflexivity|].
      rewrite jsstring_eqb_sym. exact (Hn x Hx).
Qed.

(** The object built from any list of entries lists its keys in
    enumeration order. *)
Lemma fromEntries_keys_ordered {A B} (f : A -> B) (entries : list (jsstring * A)) :
  ordered_keys (map fst (fromEntries f entries)) = true.
Proof.
  induction entries as [|[k v] entries IH] using rev_ind; [reflexivity|].
  rewrite fromEntries_snoc. apply obj_set_ordered. exact IH.
Qed.

Lemma obj_set_values {A} (P : A -> bool) (props : list (jsstring * A))
  (k : jsstring) (a : A) :
  P a = true -> forallb (fun p => P (snd p)) props = true ->
  forallb (fun p => P (snd p)) (obj_set props k a) = true.
Proof.
  intros Ha Hp. unfold obj_set. destruct (lookup k props) as [old|].
  - clear old. induction props as [|[k0 a0] props IH]; [reflexivity|].
    cbn [forallb snd] in Hp. apply andb_true_iff in Hp. destruct Hp as [H1 H2].
    cbn [replace_prop]. destruct (jsstring_eqb k k0); cbn [forallb snd].
    + rewrite Ha, H2. reflexivity.
    + rewrite H1, (IH H2). reflexivity.
  - destruct (array_index k) as [n|].
    + induction props as [|[k0 a0] props IH]; [cbn; rewrite Ha; reflexivity|].
      cbn [forallb snd] in Hp. apply andb_true_iff in Hp. destruct Hp as [H1 H2].
      assert (Hhere : forallb (fun p => P (snd p)) ((k, a) :: (k0, a0) :: props) = true)
        by (cbn [forallb snd]; rewrite Ha, H1, H2; reflexivity).
      cbn [insert_index]. destruct (array_index k0) as [m|]; [|exact Hhere].
      destruct (m <? n)%N; [|exact Hhere].
      cbn [forallb snd]. rewrite H1, (IH H2). reflexivity.
    + rewrite forallb_app, Hp. cbn [forallb snd]. rewrite Ha. reflexivity.
Qed.

Lemma fromEntries_values {A B} (f : A -> B) (P : B -> bool)
  (entries : list (jsstring * A)) :
  (forall v, P (f v) = true) ->
  forallb (fun p => P (snd p)) (fromEntries f entries) = true.
Proof.
  intros Hf. induction entries as [|[k v] entries IH] using rev_ind; [reflexivity|].
  rewrite fromEntries_snoc. apply obj_set_values; [apply Hf|exact IH].
Qed.

(* ------------------------------------------------------------------ *)
(** ** [serializeData]: the cap *)

Lemma whitespace_nil : whitespace [].
Proof. constructor. Qed.

(** [JSON.parse(JSON.stringify(v))] is [v] for plain JSON data. *)
Lemma JSON_compact_round_trip (v : JsValue) :
  json_data v = true ->
  exists text,
    JSON_stringify v = Normal (VString text) /\ JSON_parse text = Some v.
Proof.
  intros Hd. destruct (json_data_round_trip v Hd) as [j [Hj1 Hj2]].
  exists (print_json [] [] j). split.
  - unfold JSON_stringify, JSON_stringify_gap. rewrite Hj1. reflexivity.
  - unfold JSON_parse. rewrite (JSON_parse_print [] j whitespace_nil), Hj2.
    reflexivity.
Qed.

Lemma slice_all (s : jsstring) (n : Z) :
  Z.of_nat (List.length s) <= n -> slice s 0 n = s.
Proof.
  intros H. rewrite slice_from_start by lia.
  rewrite Z.min_r by lia. rewrite Nat2Z.id. apply firstn_all.
Qed.

Lemma slice_short (s : jsstring) (n : Z) :
  0 <= n -> Z.of_nat (List.length (slice s 0 n)) <= n.
Proof. intros H. rewrite slice_length by exact H. lia. Qed.

Lemma call_slice_short (v : JsValue) (n : Z) (t : jsstring) :
  0 <= n -> call_slice v n = Normal t -> Z.of_nat (List.length t) <= n.
Proof.
  intros Hn H. destruct v; try discriminate H.
  cbn in H. injection H as <-. apply slice_short. exact Hn.
Qed.

Lemma json_branch_short (data : JsValue) (n : Z) (t : jsstring) :
  0 <= n -> json_branch data n = Normal t -> Z.of_nat (List.length t) <= n.
Proof.
  intros Hn. unfold json_branch.
  destruct (JSON_stringify data) as [v|e]; cbn [cbind ctry].
  - destruct (call_slice v n) as [t0|e] eqn:E; cbn [ctry].
    + intros H. injection H as <-. exact (call_slice_short v n t0 Hn E).
    + destruct (String_ data) as [s|e']; cbn [cbind]; [|discriminate].
      intros H. injection H as <-. apply slice_short. exact Hn.
  - destruct (String_ data) as [s|e']; cbn [cbind]; [|discriminate].
    intros H. injection H as <-. apply slice_short. exact Hn.
Qed.

Lemma serializeData_short (data : JsValue) (n : Z) (t : jsstring) :
  0 <= n -> binary_data data = false ->
  serializeData data n = Normal t ->
  Z.of_nat (List.length t) <= n.
Proof.
  intros Hn Hb. unfold serializeData.
  destruct (negb (ToBoolean data)).
  { intros H. injection H as <-. cbn. exact Hn. }
  destruct data; try discriminate Hb;
    try exact (json_branch_short _ n t Hn).
  - cbn [ctry]. intros H. injection H as <-. apply slice_short. exact Hn.
  - match goal with
    | |- ctry (cbind ?j ?k) ?h = _ -> _ =>
        destruct j as [v|e]; cbn [cbind ctry]
    end.
    + destruct (call_slice v n) as [t0|e] eqn:E; cbn [ctry].
      * intros H. injection H as <-. exact (call_slice_short v n t0 Hn E).
      * cbn. intros H. injection H as <-. apply slice_short. exact Hn.
    + cbn. intros H. injection H as <-. apply slice_short. exact Hn.
Qed.

Lemma serializeData_string (s : jsstring) (n : Z) :
  serializeData (VString s) n = Normal (slice s 0 n).
Proof. destruct s; [|reflexivity]. unfold slice. cbn. rewrite firstn_nil. reflexivity. Qed.

(** X1.  Whatever [serializeData] returns for a value that is not
    binary data is at most [maxSize] code units long, in every branch:
    the string branch, the [FormData] branch, the generic branch and the
    fallback of the [catch] block. *)
Theorem serializeData_within_cap (data : JsValue) (n : Z) (t : jsstring) :
  0 <= n -> binary_data data = false ->
  serializeData data n = Normal t ->
  Z.of_nat (List.length t) <= n.
Proof. exact (serializeData_short data n t). Qed.

Lemma serializeData_within_cap_witness :
  serializeData (VObject [(js "a", num 1)]) 3 = Normal [123%N; 34%N; 97%N] /\
  Z.of_nat (List.length [123%N; 34%N; 97%N]) <= 3.
Proof.
  assert (H : serializeData (VObject [(js "a", num 1)]) 3
              = Normal [123%N; 34%N; 97%N]) by (vm_compute; reflexivity).
  split; [exact H|].
  apply (serializeData_within_cap (VObject [(js "a", num 1)]) 3);
    [lia | reflexivity | exact H].
Defined.

(** X2.  Binary data is described by its byte length, and the
    description is not cut: it is the same for every [maxSize], and at
    least 22 code units long. *)
Theorem serializeData_binary_not_cut (data : JsValue) (n : Z) :
  binary_data data = true ->
  exists size,
    get data "byteLength" = Normal (num size) /\
    serializeData data n
    = Normal (js "[Binary data: " ++ int_text size ++ js " bytes]") /\
    (22 <= List.length (js "[Binary data: " ++ int_text size ++ js " bytes]"))%nat.
Proof.
  intros Hb.
  assert (Hlen : forall size,
    (22 <= List.length (js "[Binary data: " ++ int_text size ++ js " bytes]"))%nat).
  { intros size. destruct (int_text_head size) as [u [r [Hu _]]].
    rewrite Hu, !length_app. cbn [List.length js map list_ascii_of_string]. lia. }
  destruct data; try discriminate Hb.
  - exists (Z.of_N byteLength). split; [reflexivity|]. split; [reflexivity|apply Hlen].
  - exists (Z.of_nat (List.length bytes)).
    split; [reflexivity|]. split; [reflexivity|apply Hlen].
Qed.

Lemma serializeData_binary_not_cut_witness :
  exists size,
    get (VUint8Array [1%N; 2%N; 3%N]) "byteLength" = Normal (num size) /\
    serializeData (VUint8Array [1%N; 2%N; 3%N]) 5
    = Normal (js "[Binary data: " ++ int_text size ++ js " bytes]") /\
    (22 <= List.length (js "[Binary data: " ++ int_text size ++ js " bytes]"))%nat.
Proof.
  apply (serializeData_binary_not_cut (VUint8Array [1%N; 2%N; 3%N]) 5).
  reflexivity.
Defined.

(* ------------------------------------------------------------------ *)
(** ** [serializeData]: a [FormData] *)

Lemma form_field_json_data (v : FormEntry) : json_data (form_field v) = true.
Proof. destruct v; reflexivity. Qed.

(** X3.  A [FormData] is recorded as the JSON text of an object that
    maps each field name to the value of the last field of that name,
    a file being written as the string [[File]]; the text is cut at
    [maxSize], and where it fits, parsing it gives that object back.
    (No field is named [__proto__]: the loop's assignment would define
    nothing for it.) *)
Theorem serializeData_form_reads_back (fd : list (jsstring * FormEntry)) (n : Z) :
  Forall (fun kv => definable (fst kv)) fd ->
  exists full,
    serializeData (VFormData fd) n = Normal (slice full 0 n) /\
    JSON_parse full = Some (VObject (fromEntries form_field fd)) /\
    (forall k, lookup k (fromEntries form_field fd)
               = option_map form_field (lookup k (rev fd))) /\
    (Z.of_nat (List.length full) <= n -> slice full 0 n = full).
Proof.
  intros _.
  assert (Hd : json_data (VObject (fromEntries form_field fd)) = true).
  { cbn [json_data]. rewrite fromEntries_keys_ordered.
    apply (fromEntries_values form_field json_data). exact form_field_json_data. }
  destruct (JSON_compact_round_trip _ Hd) as [full [Hs Hp]].
  exists full. split; [|split; [exact Hp|split]].
  - unfold serializeData. cbn [ToBoolean negb]. rewrite Hs. reflexivity.
  - intros k. apply lookup_fromEntries.
  - apply slice_all.
Qed.

Lemma serializeData_form_reads_back_witness :
  exists full,
    serializeData (VFormData sample_form) 4096 = Normal (slice full 0 4096) /\
    JSON_parse full = Some (VObject (fromEntries form_field sample_form)) /\
    (forall k, lookup k (fromEntries form_field sample_form)
               = option_map form_field (lookup k (rev sample_form))) /\
    (Z.of_nat (List.length full) <= 4096 -> slice full 0 4096 = full).
Proof.
  apply (serializeData_form_reads_back sample_form 4096).
  repeat constructor; discriminate.
Defined.

(** The sample form: the index name comes first, the repeated name
    keeps its place and its last value. *)
Example sample_form_recorded :
  fromEntries form_field sample_form
  = [(js "2", str "x"); (js "name", str "Bob"); (js "photo", str "[File]")].
Proof. vm_compute. reflexivity. Qed.

(* ------------------------------------------------------------------ *)
(** ** Console capture: what is recorded *)

Lemma cmap_map {A B C} (f : B -> completion C) (g : A -> B) (h : A -> C)
  (l : list A) :
  (forall a, f (g a) = Normal (h a)) ->
  cmap f (map g l) = Normal (map h l).
Proof.
  intros Hf. induction l as [|a l IH]; [reflexivity|].
  cbn [map cmap]. rewrite Hf, IH. reflexivity.
Qed.

Lemma capture_console_run (sink : jsstring -> JsValue -> M unit)
  (level : Level) (args rendered : list JsValue) (parts : list JsValue)
  (message : jsstring) (w : World) :
  cmap render_message args = Normal parts ->
  Array_join (js " ") parts = Normal message ->
  cmap render_arg args = Normal rendered ->
  capture_console sink level args w
  = sink (js "console")
      (console_payload level message rendered (clock w (reads w)) (href w))
      (after_reads 1 w).
Proof.
  intros Hp Hm Hr. unfold capture_console, bind, lift.
  rewrite Hp. cbn [cbind]. rewrite Hm, Hr. reflexivity.
Qed.

Lemma capture_strings (sink : jsstring -> JsValue -> M unit) (level : Level)
  (ss : list jsstring) (w : World) :
  capture_console sink level (map VString ss) w
  = sink (js "console")
      (console_payload level (join (js " ") ss) (map VString ss)
         (clock w (reads w)) (href w))
      (after_reads 1 w).
Proof.
  apply (capture_console_run sink level _ (map VString ss) (map VString ss)).
  - apply (cmap_map render_message VString VString). reflexivity.
  - unfold Array_join.
    rewrite (cmap_map _ VString (fun s => s)) by reflexivity.
    rewrite map_id. reflexivity.
  - apply (cmap_map render_arg VString VString). reflexivity.
Qed.

(** X4.  String arguments are recorded as they are: the message is the
    arguments joined by single spaces, [args] holds the same strings,
    none of them quoted or cut. *)
Theorem console_strings_verbatim (sink : jsstring -> JsValue -> M unit)
  (level : Level) (ss : list jsstring) (w : World) :
  capture_console sink level (map VString ss) w
  = sink (js "console")
      (console_payload level (join (js " ") ss) (map VString ss)
         (clock w (reads w)) (href w))
      (after_reads 1 w) /\
  session (snd (console_wrapper addCustomEvent level (map VString ss) w))
  = session w
    ++ [custom_event (js "console")
          (console_payload level (join (js " ") ss) (map VString ss)
             (clock w (reads w)) (href w))
          (clock w (S (reads w)))].
Proof.
  split; [apply capture_strings|].
  unfold console_wrapper, bind, try_catch. cbn [originalConsole].
  rewrite capture_strings, addCustomEvent_run. reflexivity.
Qed.


(** An error as the engine makes it, and one that was given a code:
    the code is the only thing [args] keeps of it. *)
Example console_errors_recorded :
  map (fun e => (field (payload_of e) "message", field (payload_of e) "args"))
    (session (snd (capture_console addCustomEvent Error
                     [error_of plain_error; error_of coded_error] page)))
  = [(VString (js "Error: boom" ++ [10%N] ++ js "Error: boom at app.js:3:9 "
               ++ js "Error: boom" ++ [10%N] ++ js "Error: boom at app.js:3:9"),
      VArray [str "{}";
              VString ([123%N; 34%N] ++ js "code" ++ [34%N; 58%N; 34%N]
                       ++ js "E_FAIL" ++ [34%N; 125%N])])].
Proof. vm_compute. reflexivity. Qed.

Lemma cmap_ext_in {A B} (f : A -> completion B) (h : A -> B) (l : list A) :
  Forall (fun a => f a = Normal (h a)) l -> cmap f l = Normal (map h l).
Proof.
  induction 1 as [|a l Ha _ IH]; [reflexivity|].
  cbn [cmap map]. rewrite Ha, IH. reflexivity.
Qed.

(** X6.  A number, a boolean or [null] is recorded exactly as the
    string of its JSON text would be: the message and [args] of
    [console.log(1, null)] are those of [console.log("1", "null")],
    and a reader of the buffer cannot tell the two calls apart. *)
Theorem console_scalars_as_text (sink : jsstring -> JsValue -> M unit)
  (level : Level) (args : list JsValue) (w : World) :
  forallb scalar args = true ->
  capture_console sink level args w
  = capture_console sink level (map (fun v => VString (scalar_text v)) args) w.
Proof.
  intros Hs.
  rewrite <- (map_map scalar_text VString), capture_strings.
  assert (Hall : Forall (fun v => scalar v = true) args)
    by (apply Forall_forall; rewrite forallb_forall in Hs; exact Hs).
  apply (capture_console_run sink level args
           (map VString (map scalar_text args))
           (map VString (map scalar_text args))).
  - rewrite map_map. apply cmap_ext_in.
    eapply Forall_impl; [|exact Hall]. intros v Hv.
    destruct v as [| |[|]|[z| | |[|]]|z|s|d|l|p|n m s j|e|n|b|a b c];
      try discriminate Hv; reflexivity.
  - unfold Array_join.
    rewrite (cmap_map _ VString (fun s => s)) by reflexivity.
    rewrite map_id. reflexivity.
  - rewrite map_map. apply cmap_ext_in.
    eapply Forall_impl; [|exact Hall]. intros v Hv.
    destruct v as [| |[|]|[z| | |[|]]|z|s|d|l|p|n m s j|e|n|b|a b c];
      try discriminate Hv; reflexivity.
Qed.

Lemma console_scalars_as_text_witness :
  capture_console addCustomEvent Log [num 1; VNull; VNumber NumNaN] page
  = capture_console addCustomEvent Log
      (map (fun v => VString (scalar_text v)) [num 1; VNull; VNumber NumNaN])
      page.
Proof.
  apply (console_scalars_as_text addCustomEvent Log
           [num 1; VNull; VNumber NumNaN] page).
  reflexivity.
Defined.

Example console_scalars_recorded :
  map (fun e => field (payload_of e) "args")
    (session (snd (capture_console addCustomEvent Log
                     [num 1; VNull; VNumber NumNaN] page)))
  = [VArray [str "1"; str "null"; str "null"]].
Proof. vm_compute. reflexivity. Qed.

Lemma JSON_stringify_gap_kind (gap : jsstring) (v r : JsValue) :
  JSON_stringify_gap gap v = Normal r -> text_or_undefined r = true.
Proof.
  unfold JSON_stringify_gap. destruct (to_json v) as [[j|]|e]; cbn [cbind];
    intros H; try discriminate H; injection H as <-; reflexivity.
Qed.

Lemma fallback_kind (arg r : JsValue) (c : completion JsValue) :
  (forall v, c = Normal v -> text_or_undefined v = true) ->
  ctry c (fun _ => cbind (String_ arg) (fun s => Normal (VString s))) = Normal r ->
  text_or_undefined r = true.
Proof.
  intros Hc. destruct c as [v|e]; cbn [ctry].
  - intros H. injection H as <-. apply Hc. reflexivity.
  - destruct (String_ arg); cbn [cbind]; intros H; try discriminate H.
    injection H as <-. reflexivity.
Qed.

Lemma render_message_kind (arg r : JsValue) :
  render_message arg = Normal r -> text_or_undefined r = true.
Proof.
  unfold render_message.
  destruct arg;
    try (apply fallback_kind; intros v; apply JSON_stringify_gap_kind);
    intros H; injection H as <-; reflexivity.
Qed.

Lemma render_arg_kind (arg r : JsValue) :
  render_arg arg = Normal r -> text_or_undefined r = true.
Proof.
  unfold render_arg. apply fallback_kind. intros v.
  destruct arg; try apply JSON_stringify_gap_kind.
  intros H. injection H as <-. reflexivity.
Qed.

Lemma cmap_kind (f : JsValue -> completion JsValue) (l r : list JsValue) :
  (forall a b, f a = Normal b -> text_or_undefined b = true) ->
  cmap f l = Normal r ->
  List.length r = List.length l /\ forallb text_or_undefined r = true.
Proof.
  intros Hf. revert r. induction l as [|a l IH]; intros r H.
  - cbn in H. injection H as <-. split; reflexivity.
  - cbn [cmap] in H. destruct (f a) as [b|e] eqn:Ea; [|discriminate].
    cbn [cbind] in H. destruct (cmap f l) as [bs|e] eqn:El; [|discriminate].
    cbn [cbind] in H. injection H as <-.
    destruct (IH bs eq_refl) as [H1 H2].
    cbn [List.length forallb]. rewrite H1, H2, (Hf a b Ea). split; reflexivity.
Qed.

(** Joining strings and [undefined]s cannot fail. *)
Lemma Array_join_kind (sep : jsstring) (l : list JsValue) :
  forallb text_or_undefined l = true ->
  exists t, Array_join sep l = Normal t.
Proof.
  intros H. unfold Array_join.
  assert (Hc : exists parts,
    cmap (fun x => match x with
                   | VUndefined | VNull => Normal []
                   | _ => ToString x
                   end) l = Normal parts).
  { induction l as [|a l IH]; [eexists; reflexivity|].
    cbn [forallb] in H. apply andb_true_iff in H. destruct H as [Ha Hl].
    destruct (IH Hl) as [parts Hp]. cbn [cmap]. rewrite Hp.
    destruct a; try discriminate Ha; eexists; reflexivity. }
  destruct Hc as [parts ->]. eexists. reflexivity.
Qed.

Lemma to_json_array (l : list JsValue) :
  to_json (VArray l) = cbind (each_json l) (fun items => Normal (Some (JArr items))).
Proof. reflexivity. Qed.

Lemma each_json_app (a b : list JsValue) :
  each_json (a ++ b)
  = cbind (each_json a) (fun x => cbind (each_json b) (fun y => Normal (x ++ y))).
Proof.
  induction a as [|v a IH].
  - cbn [app each_json cbind]. destruct (each_json b); reflexivity.
  - cbn [app]. change (each_json (v :: a ++ b))
      with (cbind (to_json v) (fun o =>
            cbind (each_json (a ++ b)) (fun js => Normal (or_null o :: js)))).
    change (each_json (v :: a))
      with (cbind (to_json v) (fun o =>
            cbind (each_json a) (fun js => Normal (or_null o :: js)))).
    rewrite IH. destruct (to_json v); [|reflexivity]. cbn [cbind].
    destruct (each_json a); [|reflexivity]. cbn [cbind].
    destruct (each_json b); reflexivity.
Qed.

Lemma each_json_kind (l : list JsValue) :
  forallb text_or_undefined l = true -> exists items, each_json l = Normal items.
Proof.
  induction l as [|a l IH]; intros H; [eexists; reflexivity|].
  cbn [forallb] in H. apply andb_true_iff in H. destruct H as [Ha Hl].
  destruct (IH Hl) as [items Hi].
  change (each_json (a :: l))
    with (cbind (to_json a) (fun o =>
          cbind (each_json l) (fun js => Normal (or_null o :: js)))).
  rewrite Hi. destruct a; try discriminate Ha; eexists; reflexivity.
Qed.

Lemma exportable_each (events : list JsValue) :
  exportable events <-> exists items, each_json events = Normal items.
Proof.
  unfold exportable, export_text, JSON_stringify_2, JSON_stringify_gap.
  rewrite to_json_array. split.
  - intros [text H]. destruct (each_json events) as [items|e]; [eauto|discriminate].
  - intros [items ->]. eexists. reflexivity.
Qed.

Lemma exportable_snoc (events : list JsValue) (ev : JsValue) (j : Json) :
  exportable events -> to_json ev = Normal (Some j) -> exportable (events ++ [ev]).
Proof.
  rewrite !exportable_each. intros [items Hi] Hj.
  rewrite each_json_app, Hi.
  change (each_json [ev])
    with (cbind (to_json ev) (fun o =>
          cbind (Normal []) (fun js => Normal (or_null o :: js)))).
  rewrite Hj. eexists. reflexivity.
Qed.

Lemma console_event_to_json (level : Level) (message : jsstring)
  (rendered : list JsValue) (now ts : Z) (url : jsstring) :
  forallb text_or_undefined rendered = true ->
  exists j,
    to_json (custom_event (js "console")
               (console_payload level message rendered now url) ts)
    = Normal (Some j).
Proof.
  intros H. destruct (each_json_kind rendered H) as [items Hi].
  unfold custom_event, console_payload. cbn [to_json num str cbind].
  fold each_json. rewrite Hi. eexists. reflexivity.
Qed.

(** X7.  Whatever is logged, the buffer stays printable: a console
    call either records nothing (the capture failed) or records one
    console event whose [args] has one entry per argument, each a
    string or [undefined]; if [download] could print the buffer before
    the call, it can print it after. *)
Theorem console_keeps_exportable (level : Level) (args : list JsValue) (w : World) :
  exportable (session w) ->
  exportable (session (snd (console_wrapper addCustomEvent level args w))) /\
  (session (snd (console_wrapper addCustomEvent level args w)) = session w \/
   exists ev message rendered,
     session (snd (console_wrapper addCustomEvent level args w))
     = session w ++ [ev] /\
     tag_of ev = str "console" /\
     field (payload_of ev) "level" = VString (level_name level) /\
     field (payload_of ev) "message" = VString message /\
     field (payload_of ev) "args" = VArray rendered /\
     List.length rendered = List.length args /\
     forallb text_or_undefined rendered = true).
Proof.
  intros He.
  unfold console_wrapper, bind, try_catch. cbn [originalConsole].
  destruct (cmap render_message args) as [parts|e] eqn:Ep.
  2:{ unfold capture_console, bind, lift. rewrite Ep. cbn.
      split; [exact He|left; reflexivity]. }
  destruct (cmap_kind render_message args parts render_message_kind Ep)
    as [_ Hparts].
  destruct (Array_join_kind (js " ") parts Hparts) as [message Hm].
  destruct (cmap render_arg args) as [rendered|e] eqn:Er.
  2:{ unfold capture_console, bind, lift. rewrite Ep. cbn [cbind].
      rewrite Hm, Er. cbn. split; [exact He|left; reflexivity]. }
  destruct (cmap_kind render_arg args rendered render_arg_kind Er) as [Hlen Hk].
  rewrite (capture_console_run addCustomEvent level args rendered parts message
             _ Ep Hm Er).
  rewrite addCustomEvent_run. cbn [snd with_event after_reads session].
  destruct (console_event_to_json level message rendered
              (clock w (reads w)) (clock w (S (reads w))) (href w) Hk) as [j Hj].
  split.
  - eapply exportable_snoc; [exact He|exact Hj].
  - right. eexists _, message, rendered.
    split; [reflexivity|]. repeat split; assumption.
Qed.

Lemma console_keeps_exportable_witness :
  exportable
    (session (snd (console_wrapper addCustomEvent Log
                     [cyclic_object; VBigInt 1; VSymbol (js "s")] page))) /\
  (session (snd (console_wrapper addCustomEvent Log
                   [cyclic_object; VBigInt 1; VSymbol (js "s")] page))
   = session page \/
   exists ev message rendered,
     session (snd (console_wrapper addCustomEvent Log
                     [cyclic_object; VBigInt 1; VSymbol (js "s")] page))
     = session page ++ [ev] /\
     tag_of ev = str "console" /\
     field (payload_of ev) "level" = VString (level_name Log) /\
     field (payload_of ev) "message" = VString message /\
     field (payload_of ev) "args" = VArray rendered /\
     List.length rendered
     = List.length [cyclic_object; VBigInt 1; VSymbol (js "s")] /\
     forallb text_or_undefined rendered = true).
Proof.
  apply (console_keeps_exportable Log
           [cyclic_object; VBigInt 1; VSymbol (js "s")] page).
  eexists. vm_compute. reflexivity.
Defined.

(* ------------------------------------------------------------------ *)
(** ** The window listeners *)

Lemma get_opt_total (v : JsValue) (name : string) :
  exists r, get_opt v name = Normal r.
Proof. destruct v; cbn; eauto. Qed.

(** X8.  The listener for uncaught errors never throws.  For an event
    whose message is a string it hands the sink one payload of level
    [error] whose [args] holds the stack of the thrown value when that
    is not empty, and the message otherwise (a thrown value that is no
    [Error], an error of a foreign script); with the script's own
    emitter that is one more event in the buffer and no call to the
    console. *)
Theorem on_error_records (sink : jsstring -> JsValue -> M unit)
  (props : list (jsstring * JsValue)) (message : jsstring) (w : World) :
  own props (js "message") = VString message ->
  (forall event w0, exists w', on_error sink event w0 = (Normal tt, w')) /\
  exists stack detail,
    get_opt (own props (js "error")) "stack" = Normal stack /\
    detail = or_else stack (VString message) /\
    on_error sink (VObject props) w
    = try_catch
        (sink (js "console")
           (uncaught_payload message detail (clock w (reads w)) (href w)
              (own props (js "filename")) (own props (js "lineno"))
              (own props (js "colno"))))
        (fun e => originalConsole Error
                    [str "Failed to capture error event:"; e])
        (after_reads 1 w) /\
    on_error addCustomEvent (VObject props) w
    = (Normal tt,
       with_event
         (custom_event (js "console")
            (uncaught_payload message detail (clock w (reads w)) (href w)
               (own props (js "filename")) (own props (js "lineno"))
               (own props (js "colno")))
            (clock w (S (reads w))))
         (after_reads 2 w)).
Proof.
  intros Hm. split.
  { intros event w0. unfold on_error, try_catch.
    match goal with
    | |- exists w', (match ?body w0 with _ => _ end) = _ =>
        destruct (body w0) as [[[]|e] w1]
    end; eexists; reflexivity. }
  destruct (get_opt_total (own props (js "error")) "stack") as [stack Hs].
  exists stack, (or_else stack (VString message)).
  split; [exact Hs|]. split; [reflexivity|].
  assert (H : forall sink0,
    on_error sink0 (VObject props) w
    = try_catch
        (sink0 (js "console")
           (uncaught_payload message (or_else stack (VString message))
              (clock w (reads w)) (href w)
              (own props (js "filename")) (own props (js "lineno"))
              (own props (js "colno"))))
        (fun e => originalConsole Error
                    [str "Failed to capture error event:"; e])
        (after_reads 1 w)).
  { intros sink0. unfold on_error, try_catch, bind, lift.
    cbn [get cbind]. rewrite Hm. cbn [ToString String_]. rewrite Hs.
    unfold or_else. destruct (ToBoolean stack); reflexivity. }
  split; [apply H|].
  rewrite H. unfold try_catch. rewrite addCustomEvent_run. reflexivity.
Qed.

Lemma on_error_records_witness :
  (forall event w0,
      exists w', on_error addCustomEvent event w0 = (Normal tt, w')) /\
  exists stack detail,
    get_opt (own thrown_event (js "error")) "stack" = Normal stack /\
    detail = or_else stack (VString (js "Uncaught RangeError: too deep")) /\
    on_error addCustomEvent (VObject thrown_event) page
    = try_catch
        (addCustomEvent (js "console")
           (uncaught_payload (js "Uncaught RangeError: too deep") detail
              (clock page (reads page)) (href page)
              (own thrown_event (js "filename")) (own thrown_event (js "lineno"))
              (own thrown_event (js "colno"))))
        (fun e => originalConsole Error
                    [str "Failed to capture error event:"; e])
        (after_reads 1 page) /\
    on_error addCustomEvent (VObject thrown_event) page
    = (Normal tt,
       with_event
         (custom_event (js "console")
            (uncaught_payload (js "Uncaught RangeError: too deep") detail
               (clock page (reads page)) (href page)
               (own thrown_event (js "filename"))
               (own thrown_event (js "lineno"))
               (own thrown_event (js "colno")))
            (clock page (S (reads page))))
         (after_reads 2 page)).
Proof.
  apply (on_error_records addCustomEvent thrown_event
           (js "Uncaught RangeError: too deep") page).
  reflexivity.
Defined.

(** The two events of the examples: the stack of the thrown error, and
    the bare message of a foreign script's error. *)
Example on_error_details :
  map (fun e => field (payload_of e) "args")
    (session (snd (on_error addCustomEvent (VObject thrown_event) page)))
  = [VArray [str "RangeError: too deep at app.js:12:7"]] /\
  map (fun e => field (payload_of e) "args")
    (session (snd (on_error addCustomEvent (VObject foreign_event) page)))
  = [VArray [str "Script error."]].
Proof. split; vm_compute; reflexivity. Qed.

(** X9.  The listener for unhandled rejections never throws.  When the
    reason can be written into a template literal, it hands the sink
    one payload of level [error] whose message ends with the very text
    its [args] holds, which with the script's own emitter is one more
    event in the buffer; when it cannot (a symbol, an object whose
    coercion throws) nothing is recorded and the failure goes to the
    original [console.error]. *)
Theorem on_unhandledrejection_records (sink : jsstring -> JsValue -> M unit)
  (props : list (jsstring * JsValue)) (w : World) :
  (forall event w0,
      exists w', on_unhandledrejection sink event w0 = (Normal tt, w')) /\
  match ToString (own props (js "reason")) with
  | Normal text =>
      on_unhandledrejection sink (VObject props) w
      = try_catch
          (sink (js "console")
             (console_payload Error
                (js "Unhandled Promise Rejection: " ++ text) [VString text]
                (clock w (reads w)) (href w)))
          (fun e => originalConsole Error
                      [str "Failed to capture promise rejection:"; e])
          (after_reads 1 w) /\
      on_unhandledrejection addCustomEvent (VObject props) w
      = (Normal tt,
         with_event
           (custom_event (js "console")
              (console_payload Error
                 (js "Unhandled Promise Rejection: " ++ text) [VString text]
                 (clock w (reads w)) (href w))
              (clock w (S (reads w))))
           (after_reads 2 w))
  | Throw e =>
      on_unhandledrejection sink (VObject props) w
      = (Normal tt,
         with_console_call
           (Error, [str "Failed to capture promise rejection:"; e]) w)
  end.
Proof.
  split.
  { intros event w0. unfold on_unhandledrejection, try_catch.
    match goal with
    | |- exists w', (match ?body w0 with _ => _ end) = _ =>
        destruct (body w0) as [[[]|e] w1]
    end; eexists; reflexivity. }
  destruct (ToString (own props (js "reason"))) as [text|e] eqn:E.
  - assert (Hs : String_ (own props (js "reason")) = Normal text).
    { destruct (own props (js "reason")); try exact E. discriminate E. }
    assert (H : forall sink0,
      on_unhandledrejection sink0 (VObject props) w
      = try_catch
          (sink0 (js "console")
             (console_payload Error
                (js "Unhandled Promise Rejection: " ++ text) [VString text]
                (clock w (reads w)) (href w)))
          (fun e => originalConsole Error
                      [str "Failed to capture promise rejection:"; e])
          (after_reads 1 w)).
    { intros sink0. unfold on_unhandledrejection, try_catch, bind, lift.
      cbn [get cbind]. rewrite E, Hs. reflexivity. }
    split; [apply H|]. rewrite H. unfold try_catch.
    rewrite addCustomEvent_run. reflexivity.
  - unfold on_unhandledrejection, try_catch, bind, lift. cbn [get cbind].
    rewrite E. reflexivity.
Qed.

(** A rejection with a symbol: [String(reason)] would give its
    description, but the template literal refuses it first. *)
Example rejection_with_symbol :
  String_ (VSymbol (js "gone")) = Normal (js "Symbol(gone)") /\
  session (snd (on_unhandledrejection addCustomEvent
                  (VObject [(js "reason", VSymbol (js "gone"))]) page)) = [] /\
  List.length
    (console_calls (snd (on_unhandledrejection addCustomEvent
                           (VObject [(js "reason", VSymbol (js "gone"))]) page)))
  = 1%nat.
Proof. repeat split. Qed.

(* ------------------------------------------------------------------ *)
(** ** fetch: what the events hold *)

(** X10.  A call without [init], or with an [init] that names no
    method, headers or body, is recorded as a GET with empty headers
    and an empty request body; the URL is the string coercion of the
    first argument, so a [Request] object is recorded by that coercion
    and its own method is not looked at. *)
Theorem fetch_start_defaults (sink : jsstring -> JsValue -> M unit)
  (resource init : JsValue) (props : list (jsstring * JsValue))
  (url : jsstring) (w : World) :
  String_ resource = Normal url ->
  init = VUndefined \/
  (init = VObject props /\ lookup (js "body") props = None /\
   lookup (js "method") props = None /\ lookup (js "headers") props = None) ->
  fetch_begin sink resource init w
  = (sink (js "network")
       (VObject [(js "id", VString (tokens w (draws w)));
                 (js "phase", str "start");
                 (js "api", str "fetch");
                 (js "url", VString url);
                 (js "method", str "GET");
                 (js "headers", VObject []);
                 (js "requestBody", str "");
                 (js "timestamp", num (clock w (reads w)))]) ;;;
     ret (mkFetchCall (tokens w (draws w)) (clock w (reads w))))
      (after_draws 1 (after_reads 1 w)).
Proof.
  intros Hu [->|[-> [Hb [Hm Hh]]]].
  - unfold fetch_begin, bind, lift. cbn [Date_now random_id get own lookup].
    cbn [ToBoolean]. unfold ret at 1. rewrite Hu. reflexivity.
  - unfold fetch_begin, bind, lift. cbn [Date_now random_id get].
    unfold own. rewrite Hb, Hm, Hh. cbn [ToBoolean]. unfold ret at 1.
    rewrite Hu. reflexivity.
Qed.

Lemma fetch_start_defaults_witness :
  fetch_begin addCustomEvent post_request VUndefined page
  = (addCustomEvent (js "network")
       (VObject [(js "id", VString (tokens page (draws page)));
                 (js "phase", str "start");
                 (js "api", str "fetch");
                 (js "url", str "[object Request]");
                 (js "method", str "GET");
                 (js "headers", VObject []);
                 (js "requestBody", str "");
                 (js "timestamp", num (clock page (reads page)))]) ;;;
     ret (mkFetchCall (tokens page (draws page)) (clock page (reads page))))
      (after_draws 1 (after_reads 1 page)).
Proof.
  apply (fetch_start_defaults addCustomEvent post_request VUndefined []
           (js "[object Request]") page).
  - reflexivity.
  - left. reflexivity.
Defined.

Lemma fetch_resolved_with (sink : jsstring -> JsValue -> M unit)
  (call : FetchCall) (res : Response) (text ty : jsstring) (w : World) :
  bodyUsed res = false ->
  ctry (classify res res) read_failed = Normal (text, ty) ->
  fetch_resolved sink call res w
  = try_catch
      (sink (js "network")
         (fetch_end_payload call res (slice text 0 4096) ty
            (clock w (reads w)) (clock w (S (reads w)))) ;;;
       ret res)
      (fetch_failed sink call) (after_reads 2 w).
Proof.
  intros Hu Hc. unfold fetch_resolved, try_catch, bind, lift, Response_clone.
  rewrite Hu, Hc. cbn [fst snd]. unfold serializeData_default.
  rewrite serializeData_string. reflexivity.
Qed.

Lemma fetch_resolved_own (call : FetchCall) (res : Response)
  (text ty : jsstring) (w : World) :
  bodyUsed res = false ->
  ctry (classify res res) read_failed = Normal (text, ty) ->
  fetch_resolved addCustomEvent call res w
  = (Normal res,
     with_event
       (custom_event (js "network")
          (fetch_end_payload call res (slice text 0 4096) ty
             (clock w (reads w)) (clock w (S (reads w))))
          (clock w (S (S (reads w)))))
       (after_reads 3 w)).
Proof.
  intros Hu Hc. rewrite (fetch_resolved_with _ call res text ty w Hu Hc).
  unfold try_catch, bind. rewrite addCustomEvent_run. reflexivity.
Qed.

Lemma classify_read (res : Response) :
  described_only res = false ->
  exists ty, classify res res = cbind (body res) (fun t => Normal (t, ty)).
Proof.
  unfold described_only, classify, content_type, Response_text. cbn [fst].
  destruct (includes _ (js "application/json")); [eauto|].
  destruct (includes _ (js "text/")); [eauto|].
  cbn [negb andb]. intros ->. eauto.
Qed.

(** X11.  A response whose body is read (any content type but image,
    video and audio) is recorded with that body, cut at 4096 code
    units; its response type is ["json"] when the content type
    mentions [application/json] and ["text"] otherwise. *)
Theorem fetch_text_body_recorded (sink : jsstring -> JsValue -> M unit)
  (call : FetchCall) (res : Response) (t : jsstring) (w : World) :
  bodyUsed res = false -> described_only res = false -> body res = Normal t ->
  fetch_resolved sink call res w
  = try_catch
      (sink (js "network")
         (fetch_end_payload call res (slice t 0 4096)
            (text_type (includes (content_type res) (js "application/json")))
            (clock w (reads w)) (clock w (S (reads w)))) ;;;
       ret res)
      (fetch_failed sink call) (after_reads 2 w) /\
  fetch_resolved addCustomEvent call res w
  = (Normal res,
     with_event
       (custom_event (js "network")
          (fetch_end_payload call res (slice t 0 4096)
             (text_type (includes (content_type res) (js "application/json")))
             (clock w (reads w)) (clock w (S (reads w))))
          (clock w (S (S (reads w)))))
       (after_reads 3 w)).
Proof.
  intros Hu Hd Hb.
  assert (Hc : ctry (classify res res) read_failed
               = Normal (t, text_type (includes (content_type res)
                                         (js "application/json")))).
  { unfold described_only in Hd. unfold classify, content_type in *.
    unfold Response_text. cbn [fst]. rewrite Hb. cbn [cbind].
    destruct (includes _ (js "application/json")); [reflexivity|].
    destruct (includes _ (js "text/")); [reflexivity|].
    cbn [negb andb] in Hd. rewrite Hd. reflexivity. }
  split.
  - exact (fetch_resolved_with sink call res _ _ w Hu Hc).
  - exact (fetch_resolved_own call res _ _ w Hu Hc).
Qed.

Lemma fetch_text_body_recorded_witness :
  fetch_resolved addCustomEvent (mkFetchCall (js "k7x0") 1700000000000)
    json_response page
  = (Normal json_response,
     with_event
       (custom_event (js "network")
          (fetch_end_payload (mkFetchCall (js "k7x0") 1700000000000)
             json_response (slice (js "[1,2]") 0 4096)
             (text_type (includes (content_type json_response)
                           (js "application/json")))
             (clock page (reads page)) (clock page (S (reads page))))
          (clock page (S (S (reads page)))))
       (after_reads 3 page)).
Proof.
  apply (fetch_text_body_recorded addCustomEvent
           (mkFetchCall (js "k7x0") 1700000000000) json_response
           (js "[1,2]") page); reflexivity.
Defined.

(** X12.  When the body of a resolved response cannot be read, the
    call is still recorded as an [end], never as an [error]: the
    response body is the bracketed message of the failure, cut at 4096,
    the response type is ["text"] even for a JSON content type, and the
    caller gets the response itself. *)
Theorem fetch_read_failure_is_end (sink : jsstring -> JsValue -> M unit)
  (call : FetchCall) (res : Response) (e m : JsValue) (s : jsstring)
  (w : World) :
  bodyUsed res = false -> described_only res = false ->
  body res = Throw e -> get e "message" = Normal m -> ToString m = Normal s ->
  fetch_resolved sink call res w
  = try_catch
      (sink (js "network")
         (fetch_end_payload call res (slice (read_failure_text s) 0 4096)
            (js "text") (clock w (reads w)) (clock w (S (reads w)))) ;;;
       ret res)
      (fetch_failed sink call) (after_reads 2 w) /\
  fetch_resolved addCustomEvent call res w
  = (Normal res,
     with_event
       (custom_event (js "network")
          (fetch_end_payload call res (slice (read_failure_text s) 0 4096)
             (js "text") (clock w (reads w)) (clock w (S (reads w))))
          (clock w (S (S (reads w)))))
       (after_reads 3 w)).
Proof.
  intros Hu Hd Hb Hm Hs.
  assert (Hc : ctry (classify res res) read_failed
               = Normal (read_failure_text s, js "text")).
  { destruct (classify_read res Hd) as [ty ->]. rewrite Hb. cbn [cbind ctry].
    unfold read_failed. rewrite Hm. cbn [cbind]. rewrite Hs. reflexivity. }
  split.
  - exact (fetch_resolved_with sink call res _ _ w Hu Hc).
  - exact (fetch_resolved_own call res _ _ w Hu Hc).
Qed.

Lemma fetch_read_failure_is_end_witness :
  fetch_resolved addCustomEvent (mkFetchCall (js "k7x0") 1700000000000)
    dropped_response page
  = (Normal dropped_response,
     with_event
       (custom_event (js "network")
          (fetch_end_payload (mkFetchCall (js "k7x0") 1700000000000)
             dropped_response
             (slice (read_failure_text (js "network error")) 0 4096)
             (js "text") (clock page (reads page)) (clock page (S (reads page))))
          (clock page (S (S (reads page)))))
       (after_reads 3 page)).
Proof.
  apply (fetch_read_failure_is_end addCustomEvent
           (mkFetchCall (js "k7x0") 1700000000000) dropped_response
           (TypeError "network error")
           (str "network error") (js "network error") page);
    reflexivity.
Defined.

(** X13.  For an image, video or audio content type (that is neither
    JSON nor text) the body is not read: the recorded response body is
    a description made of the content type and the content length
    header, the response type is ["binary"], and what reading the body
    would have given, text or failure, changes nothing. *)
Theorem fetch_media_body_not_read (call : FetchCall) (res : Response)
  (b : completion jsstring) (w : World) :
  bodyUsed res = false -> described_only res = true ->
  fetch_resolved addCustomEvent call res w
  = (Normal res,
     with_event
       (custom_event (js "network")
          (fetch_end_payload call res (slice (description_text res) 0 4096)
             (js "binary") (clock w (reads w)) (clock w (S (reads w))))
          (clock w (S (S (reads w)))))
       (after_reads 3 w)) /\
  session (snd (fetch_resolved addCustomEvent call (with_body b res) w))
  = session (snd (fetch_resolved addCustomEvent call res w)).
Proof.
  intros Hu Hd.
  assert (Hc : forall r, bodyUsed r = false -> described_only r = true ->
    ctry (classify r r) read_failed = Normal (description_text r, js "binary")).
  { intros r _ Hr. unfold described_only, content_type in Hr.
    unfold classify, description_text, content_type.
    destruct (includes _ (js "application/json")); [discriminate Hr|].
    destruct (includes _ (js "text/")); [discriminate Hr|].
    cbn [negb andb] in Hr. rewrite Hr. reflexivity. }
  rewrite (fetch_resolved_own call res _ _ w Hu (Hc res Hu Hd)).
  split; [reflexivity|].
  rewrite (fetch_resolved_own call (with_body b res) _ _ w Hu
             (Hc (with_body b res) Hu Hd)).
  reflexivity.
Qed.

Lemma fetch_media_body_not_read_witness :
  fetch_resolved addCustomEvent (mkFetchCall (js "k7x0") 1700000000000)
    png_response page
  = (Normal png_response,
     with_event
       (custom_event (js "network")
          (fetch_end_payload (mkFetchCall (js "k7x0") 1700000000000)
             png_response (slice (description_text png_response) 0 4096)
             (js "binary") (clock page (reads page))
             (clock page (S (reads page))))
          (clock page (S (S (reads page)))))
       (after_reads 3 page)) /\
  session (snd (fetch_resolved addCustomEvent
                  (mkFetchCall (js "k7x0") 1700000000000)
                  (with_body (Throw VNull) png_response) page))
  = session (snd (fetch_resolved addCustomEvent
                    (mkFetchCall (js "k7x0") 1700000000000) png_response page)).
Proof.
  apply (fetch_media_body_not_read (mkFetchCall (js "k7x0") 1700000000000)
           png_response (Throw VNull) page); reflexivity.
Defined.

Example png_response_recorded :
  map (fun e => (field (payload_of e) "responseBody",
                 field (payload_of e) "responseType"))
    (session (snd (fetch_resolved addCustomEvent
                     (mkFetchCall (js "k7x0") 1700000000000) png_response page)))
  = [(str "[image/png - 5120 bytes]", str "binary")].
Proof. vm_compute. reflexivity. Qed.

Lemma fetch_begin_body (resource init : JsValue) (w w0 : World) (call : FetchCall) :
  fetch_begin addCustomEvent resource init w = (Normal call, w0) ->
  exists url method hs rb,
    session w0
    = session w
      ++ [custom_event (js "network")
            (fetch_start_payload call url method hs rb)
            (clock w (S (reads w)))] /\
    (rb = [] \/ serializeData_default (init_body init) = Normal rb).
Proof.
  unfold fetch_begin.
  set (init' := match init with VUndefined => VObject [] | _ => init end).
  assert (Hb : forall b, get init' "body" = Normal b -> ToBoolean b = true ->
                         init_body init = b).
  { intros b Hg Ht. unfold init_body. subst init'.
    destruct init; try (rewrite Hg; reflexivity).
    cbn in Hg. injection Hg as <-. discriminate Ht. }
  unfold bind, lift, ret. cbn [Date_now random_id].
  destruct (get init' "body") as [b|e]; [|discriminate].
  destruct (ToBoolean b) eqn:Et;
    [destruct (serializeData_default b) as [rb|e] eqn:Es; [|discriminate]|].
  all: destruct (String_ resource) as [url|e]; [|discriminate].
  all: destruct (get init' "method") as [method|e]; [|discriminate].
  all: destruct (get init' "headers") as [hs|e]; [|discriminate].
  all: rewrite addCustomEvent_run; intros H; injection H as <- <-.
  - exists url, method, hs, rb. split; [reflexivity|].
    right. rewrite (Hb b eq_refl Et). exact Es.
  - exists url, method, hs, []. split; [reflexivity|]. left. reflexivity.
Qed.

(** X14.  The bodies a [fetch] call leaves in the buffer are bounded:
    the request body of the start event is at most 4096 code units
    long unless the body is binary data, and so is the response body of
    the end event, whatever the size of the response. *)
Theorem fetch_bodies_within_cap (resource init : JsValue) (w w0 w1 : World)
  (call : FetchCall) (res : Response) :
  fetch_begin addCustomEvent resource init w = (Normal call, w0) ->
  binary_data (init_body init) = false ->
  ordinary (Resolved res) ->
  exists start terminal requestBody responseBody,
    session w0 = session w ++ [start] /\
    field (payload_of start) "requestBody" = VString requestBody /\
    (List.length requestBody <= 4096)%nat /\
    session (snd (fetch_settle addCustomEvent call (Resolved res) w1))
    = session w1 ++ [terminal] /\
    field (payload_of terminal) "responseBody" = VString responseBody /\
    (List.length responseBody <= 4096)%nat.
Proof.
  intros Hbegin Hbin [Hu Hb].
  destruct (fetch_begin_body _ _ _ _ _ Hbegin) as [url [method [hs [rb [Hs Hrb]]]]].
  destruct (classify_total res Hb) as [text [ty Hc]].
  eexists _, _, rb, (slice text 0 4096).
  split; [exact Hs|]. split; [reflexivity|]. split.
  { destruct Hrb as [->|Hrb]; [cbn; lia|].
    pose proof (serializeData_short _ 4096 rb ltac:(lia) Hbin Hrb). lia. }
  cbn [fetch_settle]. rewrite (fetch_resolved_own call res text ty w1 Hu Hc).
  split; [reflexivity|]. split; [reflexivity|].
  pose proof (slice_short text 4096 ltac:(lia)). lia.
Qed.

Lemma fetch_bodies_within_cap_witness :
  exists start terminal requestBody responseBody,
    session (snd post_call) = session tick_page ++ [start] /\
    field (payload_of start) "requestBody" = VString requestBody /\
    (List.length requestBody <= 4096)%nat /\
    session (snd (fetch_settle addCustomEvent
                    (mkFetchCall (js "k7x0") 1700000000000)
                    (Resolved json_response) (snd post_call)))
    = session (snd post_call) ++ [terminal] /\
    field (payload_of terminal) "responseBody" = VString responseBody /\
    (List.length responseBody <= 4096)%nat.
Proof.
  apply (fetch_bodies_within_cap (str "/api/items")
           (VObject [(js "method", str "POST"); (js "body", str "a=1")])
           tick_page (snd post_call) (snd post_call)
           (mkFetchCall (js "k7x0") 1700000000000) json_response).
  - reflexivity.
  - reflexivity.
  - split; [reflexivity|]. intros e H. discriminate H.
Defined.

(* ------------------------------------------------------------------ *)
(** ** XMLHttpRequest: what the events hold *)

Lemma set_headers_fields (calls : list ((jsstring * JsValue) * completion JsValue))
  (x : XhrInstance) :
  xhr_id (set_headers calls x) = xhr_id x /\
  xhr_url (set_headers calls x) = xhr_url x /\
  xhr_method (set_headers calls x) = xhr_method x /\
  listeners (set_headers calls x) = listeners x /\
  requestHeaders (set_headers calls x)
  = fold_left (fun o kv => obj_set o (fst kv) (snd kv)) (map fst calls)
      (requestHeaders x).
Proof.
  revert x. induction calls as [|[[h v] n] calls IH]; intros x.
  - repeat split; reflexivity.
  - cbn [set_headers fold_left map fst snd].
    fold (set_headers calls (snd (xhr_setRequestHeader h v n x))).
    destruct (IH (snd (xhr_setRequestHeader h v n x))) as [H1 [H2 [H3 [H4 H5]]]].
    rewrite H1, H2, H3, H4, H5. repeat split; reflexivity.
Qed.

(** X15.  The start event of a request describes it by what the page
    passed to [open] and [setRequestHeader], whatever the browser's own
    methods did with the calls: the method and the URL are those of
    [open], as given; the headers map each name to the value of the
    last call for that name, index-like names first.  Both wrappers
    hand back what the browser's method returned or threw.  (No header
    is named [__proto__], which the assignment [requestHeaders[header]
    = value] would not define.) *)
Theorem xhr_start_reflects_calls (m u : JsValue) (opened : completion JsValue)
  (calls : list ((jsstring * JsValue) * completion JsValue))
  (body : JsValue) (native : completion JsValue) (requestBody : jsstring)
  (x : XhrInstance) (w : World) :
  requestHeaders x = [] ->
  Forall (fun c => definable (fst (fst c))) calls ->
  serializeData_default body = Normal requestBody ->
  fst (xhr_open m u opened x) = opened /\
  (forall h v n x0, fst (xhr_setRequestHeader h v n x0) = n) /\
  exists start hs,
    session (snd (xhr_send addCustomEvent body native
                    (set_headers calls (snd (xhr_open m u opened x))) w))
    = session w ++ [start] /\
    field (payload_of start) "method" = m /\
    field (payload_of start) "url" = u /\
    field (payload_of start) "headers" = VObject hs /\
    (forall k, lookup k hs = lookup k (rev (map fst calls))) /\
    ordered_keys (map fst hs) = true.
Proof.
  intros Hh _ Hb. split; [reflexivity|]. split; [reflexivity|].
  set (x1 := snd (xhr_open m u opened x)).
  destruct (set_headers_fields calls x1) as [H1 [H2 [H3 [H4 H5]]]].
  exists (custom_event (js "network")
            (VObject [(js "id", VString (xhr_id x));
                      (js "phase", str "start");
                      (js "api", str "xhr");
                      (js "url", u);
                      (js "method", m);
                      (js "headers", VObject (fromEntries (fun v => v) (map fst calls)));
                      (js "requestBody", VString requestBody);
                      (js "timestamp", num (clock w (reads w)))])
            (clock w (S (reads w)))),
    (fromEntries (fun v => v) (map fst calls)).
  split.
  { unfold xhr_send. unfold bind at 1. cbn [Date_now]. rewrite Hb.
    unfold try_catch, bind. rewrite addCustomEvent_run.
    rewrite H1, H2, H3, H5. subst x1. cbn [xhr_open snd xhr_id xhr_url
      xhr_method requestHeaders]. rewrite Hh. reflexivity. }
  split; [reflexivity|]. split; [reflexivity|]. split; [reflexivity|].
  split.
  - intros k. rewrite lookup_fromEntries.
    destruct (lookup k (rev (map fst calls))); reflexivity.
  - apply fromEntries_keys_ordered.
Qed.

Lemma xhr_start_reflects_calls_witness :
  exists start hs,
    session
      (snd (xhr_send addCustomEvent VUndefined (Normal VUndefined)
              (set_headers
                 [((js "Accept", str "text/html"), Normal VUndefined);
                  ((js "X-Trace", str "1"), Normal VUndefined);
                  ((js "Accept", str "text/plain"), Throw InvalidStateError)]
                 (snd (xhr_open (str "get") (str "/api/items")
                         (Normal VUndefined)
                         (mkXhrInstance (js "k7x0") (str "") (str "GET") 0
                            [] [] []))))
              page))
    = session page ++ [start] /\
    field (payload_of start) "method" = str "get" /\
    field (payload_of start) "url" = str "/api/items" /\
    field (payload_of start) "headers" = VObject hs /\
    (forall k,
        lookup k hs
        = lookup k
            (rev (map fst
                    [((js "Accept", str "text/html"), Normal VUndefined);
                     ((js "X-Trace", str "1"), Normal VUndefined);
                     ((js "Accept", str "text/plain"),
                      Throw InvalidStateError)]))) /\
    ordered_keys (map fst hs) = true.
Proof.
  apply (xhr_start_reflects_calls (str "get") (str "/api/items")
           (Normal VUndefined)
           [((js "Accept", str "text/html"), Normal VUndefined);
            ((js "X-Trace", str "1"), Normal VUndefined);
            ((js "Accept", str "text/plain"), Throw InvalidStateError)]
           VUndefined (Normal VUndefined) []
           (mkXhrInstance (js "k7x0") (str "") (str "GET") 0 [] [] []) page).
  - reflexivity.
  - repeat constructor; discriminate.
  - reflexivity.
Defined.

(** One batch of listeners, on any instance: the one listener of the
    signal runs and records one terminal event. *)
Lemma run_batch (sig : Signal) (v : XhrView) (x : XhrInstance) (w : World) :
  exists ev,
    run_listeners addCustomEvent send_listeners sig x v w
    = (Normal [], with_event ev (after_reads 3 w)) /\
    phase_of ev = signal_phase sig /\
    is_terminal (xhr_id x) ev = true.
Proof.
  destruct (handleResponse_run x v w) as [rb [ty Hr]].
  pose proof (handleError_run x w) as He.
  destruct sig; unfold send_listeners, run_listeners, run_handler;
    cbn [Signal_eqb]; unfold bind, try_catch, ret;
    rewrite ?Hr, ?He; eexists;
    (split; [reflexivity|]); (split; [reflexivity|]);
    unfold is_terminal, xhr_end_payload, xhr_error_payload;
    rewrite is_phase_custom; try reflexivity; apply orb_true_r.
Qed.

Lemma run_listeners_app (a b : list (Signal * Handler)) (sig : Signal)
  (x : XhrInstance) (v : XhrView) (w : World) :
  run_listeners addCustomEvent (a ++ b) sig x v w
  = (t1 <- run_listeners addCustomEvent a sig x v ;;
     t2 <- run_listeners addCustomEvent b sig x v ;;
     ret (t1 ++ t2)) w.
Proof.
  revert w. induction a as [|[s h] a IH]; intros w.
  - cbn [app run_listeners]. unfold bind, ret.
    destruct (run_listeners addCustomEvent b sig x v w) as [[t|e] w']; reflexivity.
  - cbn [app run_listeners].
    set (first := if Signal_eqb s sig
                  then try_catch (run_handler addCustomEvent h x v ;;; ret [])
                         (fun e => ret [e])
                  else ret []).
    unfold bind. destruct (first w) as [[t|e] w1]; [|reflexivity].
    fold (@bind (list JsValue) (list JsValue)). rewrite IH. unfold bind, ret.
    destruct (run_listeners addCustomEvent a sig x v w1) as [[ta|e] w2];
      [|reflexivity].
    destruct (run_listeners addCustomEvent b sig x v w2) as [[tb|e] w3];
      [|reflexivity].
    rewrite app_assoc. reflexivity.
Qed.

Lemma run_batches (k : nat) (sig : Signal) (v : XhrView) (x : XhrInstance) :
  forall w, exists evs w',
    run_listeners addCustomEvent (listeners_after k) sig x v w = (Normal [], w') /\
    session w' = session w ++ evs /\
    List.length evs = k /\
    Forall (fun ev => is_terminal (xhr_id x) ev = true /\
                      phase_of ev = signal_phase sig) evs.
Proof.
  induction k as [|k IH]; intros w.
  - exists [], w. cbn. rewrite List.app_nil_r. repeat split. constructor.
  - unfold listeners_after. cbn [repeat List.concat].
    fold (listeners_after k). rewrite run_listeners_app. unfold bind at 1.
    destruct (run_batch sig v x w) as [ev [Hr [Hp Ht]]]. rewrite Hr.
    destruct (IH (with_event ev (after_reads 3 w))) as [evs [w' [Hk [Hs [Hl Hf]]]]].
    unfold bind. rewrite Hk. exists (ev :: evs), w'.
    split; [reflexivity|]. split.
    { rewrite Hs. cbn. rewrite <- app_assoc. reflexivity. }
    split; [cbn; rewrite Hl; reflexivity|].
    constructor; [split; assumption|exact Hf].
Qed.

Lemma listeners_after_S (k : nat) :
  listeners_after k ++ send_listeners = listeners_after (S k).
Proof.
  unfold listeners_after. induction k as [|k IH]; [reflexivity|].
  cbn [repeat List.concat] in *. rewrite <- app_assoc, IH. reflexivity.
Qed.

(** X16.  Every [send] adds five listeners more to the request, and
    none is ever removed: on a request object that has been sent [k]
    times, one signal records [k] terminal events, all with the
    instance's id. *)
Theorem xhr_resend_multiplies_terminals (k : nat) (x : XhrInstance)
  (sig : Signal) (v : XhrView) (w : World) :
  listeners x = listeners_after k ->
  (forall body native requestBody w0,
      serializeData_default body = Normal requestBody ->
      exists x',
        fst (xhr_send addCustomEvent body native x w0) = Normal (native, x') /\
        xhr_id x' = xhr_id x /\
        listeners x' = listeners_after (S k)) /\
  exists evs w',
    dispatch addCustomEvent sig v x w = (Normal [], w') /\
    session w' = session w ++ evs /\
    List.length evs = k /\
    Forall (fun ev => is_terminal (xhr_id x) ev = true /\
                      phase_of ev = signal_phase sig) evs.
Proof.
  intros Hl. split.
  - intros body native requestBody w0 Hb.
    destruct (xhr_send_run x body native requestBody w0 Hb) as [start [Hs _]].
    rewrite Hs. eexists. split; [reflexivity|]. split; [reflexivity|].
    cbn [listeners]. rewrite Hl. apply listeners_after_S.
  - unfold dispatch. rewrite Hl. apply run_batches.
Qed.

Lemma xhr_resend_multiplies_terminals_witness :
  exists evs w',
    dispatch addCustomEvent Load not_modified_view
      (mkXhrInstance (js "k7x0") (str "/api") (str "GET") 0 [] []
         (send_listeners ++ send_listeners)) page
    = (Normal [], w') /\
    session w' = session page ++ evs /\
    List.length evs = 2%nat /\
    Forall (fun ev => is_terminal (js "k7x0") ev = true /\
                      phase_of ev = signal_phase Load) evs.
Proof.
  apply (xhr_resend_multiplies_terminals 2
           (mkXhrInstance (js "k7x0") (str "/api") (str "GET") 0 [] []
              (send_listeners ++ send_listeners))
           Load not_modified_view page).
  reflexivity.
Defined.

Lemma handleResponse_with (sink : jsstring -> JsValue -> M unit)
  (x : XhrInstance) (v : XhrView) (text ty : jsstring) (w : World) :
  ctry (xhr_classify v) xhr_read_failed = Normal (VString text, ty) ->
  handleResponse sink x v w
  = sink (js "network")
      (xhr_end_payload x v (slice text 0 4096) ty
         (clock w (reads w)) (clock w (S (reads w))))
      (after_reads 2 w).
Proof.
  intros Hc. unfold handleResponse, bind, lift. rewrite Hc. cbn [fst snd].
  unfold serializeData_default. rewrite serializeData_string. reflexivity.
Qed.

(** X17.  A request whose response type is the default or ["text"] is
    recorded with its response text, cut at 4096 code units; the
    recorded response type is ["json"] when the content type header
    mentions [application/json] and ["text"] otherwise. *)
Theorem xhr_text_body_recorded (sink : jsstring -> JsValue -> M unit)
  (x : XhrInstance) (v : XhrView) (t : jsstring) (w : World) :
  readable_text v = Some t ->
  handleResponse sink x v w
  = sink (js "network")
      (xhr_end_payload x v (slice t 0 4096) (text_type (json_typed v))
         (clock w (reads w)) (clock w (S (reads w))))
      (after_reads 2 w).
Proof.
  intros Ht. apply handleResponse_with.
  destruct v as [p ct st stt hs]. unfold readable_text, json_typed in *.
  cbn [xhr_payload xhr_contentType] in *.
  unfold xhr_classify, xhr_responseText, xhr_response.
  cbn [xhr_payload xhr_contentType].
  destruct p as [t0|t0|val|size|size|present]; try discriminate Ht;
    injection Ht as ->;
    destruct (match ct with
              | Some c => includes c (js "application/json")
              | None => false
              end); destruct t as [|u t]; reflexivity.
Qed.

Lemma xhr_text_body_recorded_witness :
  handleResponse addCustomEvent
    (mkXhrInstance (js "k7x0") (str "/api") (str "GET") 0 [] [] send_listeners)
    (mkXhrView (AsText (js "[1,2]")) (Some (js "application/json")) 200
       (js "OK") [])
    page
  = addCustomEvent (js "network")
      (xhr_end_payload
         (mkXhrInstance (js "k7x0") (str "/api") (str "GET") 0 [] []
            send_listeners)
         (mkXhrView (AsText (js "[1,2]")) (Some (js "application/json")) 200
            (js "OK") [])
         (slice (js "[1,2]") 0 4096)
         (text_type
            (json_typed
               (mkXhrView (AsText (js "[1,2]")) (Some (js "application/json"))
                  200 (js "OK") [])))
         (clock page (reads page)) (clock page (S (reads page))))
      (after_reads 2 page).
Proof.
  apply (xhr_text_body_recorded addCustomEvent
           (mkXhrInstance (js "k7x0") (str "/api") (str "GET") 0 [] []
              send_listeners)
           (mkXhrView (AsText (js "[1,2]")) (Some (js "application/json")) 200
              (js "OK") [])
           (js "[1,2]") page).
  reflexivity.
Defined.

(** X18.  The response of a request whose response type is neither
    the default nor ["text"] is not recorded where the listener goes
    for [responseText]: with the response type ["json"] or
    ["document"], and with a [blob] or [arraybuffer] served as JSON,
    reading [responseText] throws, and the event holds the bracketed
    message of that failure with the response type ["text"]. *)
Theorem xhr_unreadable_text_recorded_as_failure
  (sink : jsstring -> JsValue -> M unit)
  (x : XhrInstance) (v : XhrView) (w : World) :
  text_unreadable v = true ->
  sized v = None \/ json_typed v = true ->
  exists s,
    cbind (get InvalidStateError "message") ToString = Normal s /\
    handleResponse sink x v w
    = sink (js "network")
        (xhr_end_payload x v (slice (read_failure_text s) 0 4096) (js "text")
           (clock w (reads w)) (clock w (S (reads w))))
        (after_reads 2 w).
Proof.
  intros Hu Hs. eexists. split; [reflexivity|].
  apply handleResponse_with.
  destruct v as [p ct st stt hs]. unfold text_unreadable, sized, json_typed in *.
  cbn [xhr_payload xhr_contentType] in *.
  unfold xhr_classify, xhr_responseText. cbn [xhr_payload xhr_contentType].
  destruct p as [t|t|val|size|size|present]; try discriminate Hu;
    try reflexivity.
  - destruct Hs as [Hs|Hs]; [discriminate Hs|]. rewrite Hs. reflexivity.
  - destruct Hs as [Hs|Hs]; [discriminate Hs|]. rewrite Hs. reflexivity.
  - destruct (match ct with
              | Some c => includes c (js "application/json")
              | None => false
              end); reflexivity.
Qed.

Lemma xhr_unreadable_text_recorded_as_failure_witness :
  exists s,
    cbind (get InvalidStateError "message") ToString = Normal s /\
    handleResponse addCustomEvent
      (mkXhrInstance (js "k7x0") (str "/api") (str "GET") 0 [] [] send_listeners)
      json_view page
    = addCustomEvent (js "network")
        (xhr_end_payload
           (mkXhrInstance (js "k7x0") (str "/api") (str "GET") 0 [] []
              send_listeners)
           json_view (slice (read_failure_text s) 0 4096) (js "text")
           (clock page (reads page)) (clock page (S (reads page))))
        (after_reads 2 page).
Proof.
  apply (xhr_unreadable_text_recorded_as_failure addCustomEvent
           (mkXhrInstance (js "k7x0") (str "/api") (str "GET") 0 [] []
              send_listeners)
           json_view page).
  - reflexivity.
  - left. reflexivity.
Defined.

(** X19.  A [blob] or [arraybuffer] response that is not served as
    JSON is described by its size and typed ["binary"]; an empty one
    is described like a missing one, as of unknown size, since a size
    of zero is falsy. *)
Theorem xhr_binary_described_by_size (sink : jsstring -> JsValue -> M unit)
  (x : XhrInstance) (v : XhrView) (size : option N) (w : World) :
  sized v = Some size -> json_typed v = false ->
  handleResponse sink x v w
  = sink (js "network")
      (xhr_end_payload x v
         (slice (js "[Binary response: " ++ size_text size ++ js " bytes]")
            0 4096)
         (js "binary") (clock w (reads w)) (clock w (S (reads w))))
      (after_reads 2 w).
Proof.
  intros Hs Hj. apply handleResponse_with.
  destruct v as [p ct st stt hs]. unfold sized, json_typed in *.
  cbn [xhr_payload xhr_contentType] in *.
  unfold xhr_classify, xhr_response. cbn [xhr_payload xhr_contentType].
  rewrite Hj.
  destruct p as [t|t|val|sz|sz|present]; try discriminate Hs;
    injection Hs as ->; destruct size as [[|n]|]; reflexivity.
Qed.

Lemma xhr_binary_described_by_size_witness :
  handleResponse addCustomEvent
    (mkXhrInstance (js "k7x0") (str "/api") (str "GET") 0 [] [] send_listeners)
    empty_buffer_view page
  = addCustomEvent (js "network")
      (xhr_end_payload
         (mkXhrInstance (js "k7x0") (str "/api") (str "GET") 0 [] []
            send_listeners)
         empty_buffer_view
         (slice (js "[Binary response: " ++ size_text (Some 0%N) ++ js " bytes]")
            0 4096)
         (js "binary") (clock page (reads page)) (clock page (S (reads page))))
      (after_reads 2 page).
Proof.
  apply (xhr_binary_described_by_size addCustomEvent
           (mkXhrInstance (js "k7x0") (str "/api") (str "GET") 0 [] []
              send_listeners)
           empty_buffer_view (Some 0%N) page); reflexivity.
Defined.

Example empty_buffer_recorded :
  map (fun e => field (payload_of e) "responseBody")
    (session (snd (handleResponse addCustomEvent
                     (mkXhrInstance (js "k7x0") (str "/api") (str "GET") 0
                        [] [] send_listeners)
                     empty_buffer_view page)))
  = [str "[Binary response: unknown bytes]"].
Proof. vm_compute. reflexivity. Qed.

(** X20.  The times of a request's events: with a clock that does not
    run backwards, a terminal event is not dated before the start
    event, and its duration, taken from a clock read of its own just
    before, lies between 0 and the difference of the two timestamps. *)
Theorem xhr_duration_within_timestamps (x : XhrInstance) (body : JsValue)
  (native : completion JsValue) (requestBody : jsstring) (w w1 : World)
  (sig : Signal) (v : XhrView) :
  listeners x = [] ->
  serializeData_default body = Normal requestBody ->
  monotone (clock w) -> clock w1 = clock w -> (2 + reads w <= reads w1)%nat ->
  exists x' start terminal t0 d t,
    xhr_send addCustomEvent body native x w
    = (Normal (native, x'), with_event start (after_reads 2 w)) /\
    dispatch addCustomEvent sig v x' w1
    = (Normal [], with_event terminal (after_reads 3 w1)) /\
    field (payload_of start) "timestamp" = num t0 /\
    field (payload_of terminal) "duration" = num d /\
    field (payload_of terminal) "timestamp" = num t /\
    t0 <= t /\ 0 <= d <= t - t0.
Proof.
  intros Hl Hb Hmono Hclock Hreads.
  set (x' := mkXhrInstance (xhr_id x) (xhr_url x) (xhr_method x)
               (clock w (reads w)) (requestHeaders x) requestBody
               send_listeners).
  assert (Hsend : xhr_send addCustomEvent body native x w
    = (Normal (native, x'),
       with_event
         (custom_event (js "network")
            (VObject [(js "id", VString (xhr_id x));
                      (js "phase", str "start");
                      (js "api", str "xhr");
                      (js "url", xhr_url x);
                      (js "method", xhr_method x);
                      (js "headers", VObject (requestHeaders x));
                      (js "requestBody", VString requestBody);
                      (js "timestamp", num (clock w (reads w)))])
            (clock w (S (reads w))))
         (after_reads 2 w))).
  { unfold xhr_send. unfold bind at 1. cbn [Date_now]. rewrite Hb.
    unfold try_catch, bind. rewrite addCustomEvent_run. subst x'.
    rewrite Hl. reflexivity. }
  assert (H1 : clock w (reads w) <= clock w1 (reads w1))
    by (rewrite Hclock; apply Hmono; lia).
  assert (H2 : clock w1 (reads w1) <= clock w1 (S (reads w1)))
    by (rewrite Hclock; apply Hmono; lia).
  assert (Hterm : exists terminal,
    dispatch addCustomEvent sig v x' w1
    = (Normal [], with_event terminal (after_reads 3 w1)) /\
    field (payload_of terminal) "duration"
    = num (clock w1 (reads w1) - clock w (reads w)) /\
    field (payload_of terminal) "timestamp" = num (clock w1 (S (reads w1)))).
  { destruct (handleResponse_run x' v w1) as [rb [ty Hr]].
    pose proof (handleError_run x' w1) as He.
    unfold dispatch. change (listeners x') with send_listeners.
    destruct sig; unfold send_listeners, run_listeners, run_handler;
      cbn [Signal_eqb]; unfold bind, try_catch, ret;
      rewrite ?Hr, ?He; eexists; repeat split; reflexivity. }
  destruct Hterm as [terminal [Hd [Hdur Hts]]].
  exists x'. eexists. exists terminal.
  exists (clock w (reads w)), (clock w1 (reads w1) - clock w (reads w)),
    (clock w1 (S (reads w1))).
  split; [exact Hsend|]. split; [exact Hd|].
  split; [reflexivity|]. split; [exact Hdur|]. split; [exact Hts|].
  lia.
Qed.

Lemma xhr_duration_within_timestamps_witness :
  exists x' start terminal t0 d t,
    xhr_send addCustomEvent VUndefined (Normal VUndefined)
      (mkXhrInstance (js "k7x0") (str "/api") (str "GET") 0 [] [] []) tick_page
    = (Normal (Normal VUndefined, x'), with_event start (after_reads 2 tick_page)) /\
    dispatch addCustomEvent Load not_modified_view x' (after_reads 2 tick_page)
    = (Normal [], with_event terminal (after_reads 3 (after_reads 2 tick_page))) /\
    field (payload_of start) "timestamp" = num t0 /\
    field (payload_of terminal) "duration" = num d /\
    field (payload_of terminal) "timestamp" = num t /\
    t0 <= t /\ 0 <= d <= t - t0.
Proof.
  apply (xhr_duration_within_timestamps
           (mkXhrInstance (js "k7x0") (str "/api") (str "GET") 0 [] [] [])
           VUndefined (Normal VUndefined) [] tick_page (after_reads 2 tick_page)
           Load not_modified_view).
  - reflexivity.
  - reflexivity.
  - exact monotone_tick_clock.
  - reflexivity.
  - cbn. lia.
Defined.

(* ------------------------------------------------------------------ *)
(** ** Session controls: [getNetworkEvents] *)

Lemma is_network_event_shape (event : JsValue) :
  recorded_shape event = true ->
  is_network_event event = Normal (network_tagged event).
Proof.
  destruct event; try discriminate. cbn [recorded_shape].
  unfold is_network_event, network_tagged, tag_of, field. cbn [get cbind].
  destruct (strict_equal_num (own props (js "type")) 5); [|reflexivity].
  destruct (own props (js "data")); try discriminate. reflexivity.
Qed.

Lemma cfilter_filter {A} (p : A -> completion bool) (q : A -> bool) (l : list A) :
  Forall (fun a => p a = Normal (q a)) l ->
  cfilter p l = Normal (filter q l).
Proof.
  induction 1 as [|a l Ha _ IH]; [reflexivity|].
  cbn [cfilter filter]. rewrite Ha, IH. reflexivity.
Qed.

(** X21.  [getNetworkEvents] returns, in the order of the buffer,
    exactly the events of type 5 whose tag is ["network"], and leaves
    the buffer as it is: every event the [fetch] and [XMLHttpRequest]
    wrappers record is among them, no console or nav event is. *)
Theorem getNetworkEvents_selects (w : World) :
  forallb recorded_shape (session w) = true ->
  getNetworkEvents w = (Normal (filter network_tagged (session w)), w) /\
  (forall tag payload ts,
      recorded_shape (custom_event tag payload ts) = true /\
      network_tagged (custom_event tag payload ts)
      = jsstring_eqb tag (js "network")).
Proof.
  intros H. split.
  - unfold getNetworkEvents. f_equal. apply cfilter_filter.
    rewrite forallb_forall in H. apply Forall_forall. intros e He.
    apply is_network_event_shape. exact (H e He).
  - intros tag payload ts. split; reflexivity.
Qed.

Lemma getNetworkEvents_selects_witness :
  getNetworkEvents (snd errored_request)
  = (Normal (filter network_tagged (session (snd errored_request))),
     snd errored_request) /\
  (forall tag payload ts,
      recorded_shape (custom_event tag payload ts) = true /\
      network_tagged (custom_event tag payload ts)
      = jsstring_eqb tag (js "network")).
Proof.
  apply (getNetworkEvents_selects (snd errored_request)).
  vm_compute. reflexivity.
Defined.

(** An event of type 5 that has no [data] makes the filter throw; an
    event of another type is passed over without a look at its
    [data]. *)
Example getNetworkEvents_without_data :
  (exists e, cfilter is_network_event [VObject [(js "type", num 5)]] = Throw e) /\
  cfilter is_network_event [VObject [(js "type", num 3)]] = Normal [].
Proof. split; [eexists|]; reflexivity. Qed.

(* ------------------------------------------------------------------ *)
(** ** A buffer that cannot be printed *)

Lemma each_json_throws (before later : list JsValue) (ev e : JsValue)
  (items : list Json) :
  each_json before = Normal items -> to_json ev = Throw e ->
  each_json (before ++ ev :: later) = Throw e.
Proof.
  intros Hb He. rewrite each_json_app, Hb. cbn [cbind].
  change (each_json (ev :: later))
    with (cbind (to_json ev) (fun o =>
          cbind (each_json later) (fun js => Normal (or_null o :: js)))).
  rewrite He. reflexivity.
Qed.

(** X22.  [download] is all or nothing: when one event of the buffer
    cannot be encoded as JSON, [download] throws what encoding that
    event throws and saves no file, however many printable events come
    before and after it.  The buffer is never emptied, so every later
    [download] fails the same way. *)
Theorem download_fails_on_unprintable (w : World) (before later : list JsValue)
  (ev e : JsValue) :
  session w = before ++ ev :: later ->
  exportable before -> to_json ev = Throw e ->
  download w = (Throw e, w) /\
  (forall more,
      download (appended more w) = (Throw e, appended more w)).
Proof.
  intros Hs Hb He. apply exportable_each in Hb. destruct Hb as [items Hi].
  assert (H : forall w0 more, session w0 = before ++ ev :: later ++ more ->
                              download w0 = (Throw e, w0)).
  { intros w0 more H0. unfold download, bind, lift, export_text,
      JSON_stringify_2, JSON_stringify_gap.
    rewrite to_json_array, H0.
    rewrite (each_json_throws before (later ++ more) ev e items Hi He).
    reflexivity. }
  split.
  - apply (H w []). rewrite List.app_nil_r. exact Hs.
  - intros more. apply (H _ more).
    rewrite session_appended, Hs, <- app_assoc. reflexivity.
Qed.

Lemma download_fails_on_unprintable_witness :
  download (snd bigint_headers_call)
  = (Throw (TypeError "Do not know how to serialize a BigInt"),
     snd bigint_headers_call) /\
  (forall more,
      download (appended more (snd bigint_headers_call))
      = (Throw (TypeError "Do not know how to serialize a BigInt"),
         appended more (snd bigint_headers_call))).
Proof.
  apply (download_fails_on_unprintable (snd bigint_headers_call) [] []
           (custom_event (js "network")
              (fetch_start_payload (mkFetchCall (js "k7x0") 1700000000000)
                 (js "/api") VUndefined (VObject [(js "n", VBigInt 1)]) [])
              1700000000003)
           (TypeError "Do not know how to serialize a BigInt")).
  - reflexivity.
  - eexists. reflexivity.
  - reflexivity.
Defined.

(* ------------------------------------------------------------------ *)
(** ** Navigations *)







Example visit_recorded :
  map href_of (session (snd (navigate addCustomEvent visit page)))
  = [str "https://app.example/a"; str "https://app.example/b";
     str "https://app.example/a";
     str "https://app.example/a#top"; str "https://app.example/a#top"].
Proof. vm_compute. reflexivity. Qed.

(* ------------------------------------------------------------------ *)
(** ** Test mode *)

Lemma lookup_filter_other (k : jsstring) (s : list (jsstring * jsstring)) :
  lookup k (filter (fun kv => negb (jsstring_eqb k (fst kv))) s) = None.
Proof.
  induction s as [|[k0 v0] s IH]; [reflexivity|].
  cbn [filter fst]. destruct (jsstring_eqb k k0) eqn:E; cbn [negb]; [exact IH|].
  cbn [lookup]. rewrite E. exact IH.
Qed.

Lemma test_mode_removeItem (s : Storage) :
  test_mode (Storage_removeItem s "rrweb_testmode") = false.
Proof.
  unfold test_mode, Storage_getItem, Storage_removeItem.
  rewrite lookup_filter_other. reflexivity.
Qed.

Lemma test_mode_activate (params : URLSearchParams) (s : Storage) :
  test_mode (activate_test_mode params s)
  = requests_test_mode params || test_mode s.
Proof.
  unfold activate_test_mode. destruct (requests_test_mode params); reflexivity.
Qed.

Lemma test_mode_after_loads (loads : list URLSearchParams) (s : Storage) :
  test_mode s = true -> test_mode (after_loads loads s) = true.
Proof.
  revert s. induction loads as [|params loads IH]; intros s H; [exact H|].
  cbn [after_loads fold_left]. apply IH.
  rewrite test_mode_activate, H. apply orb_true_r.
Qed.

(** X24.  Test mode belongs to the tab: once the storage holds the
    mark, every later load of the script in the tab finds it, whatever
    its query string; removing the mark ends it, and the next load
    brings it back exactly when the first [testmode] or the first
    [debug] parameter of its query string is ["1"]. *)
Theorem test_mode_persists (s : Storage) (loads : list URLSearchParams) :
  test_mode s = true ->
  test_mode (after_loads loads s) = true /\
  test_mode (Storage_removeItem (after_loads loads s) "rrweb_testmode") = false /\
  (forall params,
      test_mode (activate_test_mode params
                   (Storage_removeItem (after_loads loads s) "rrweb_testmode"))
      = requests_test_mode params).
Proof.
  intros H. split; [exact (test_mode_after_loads loads s H)|].
  split; [apply test_mode_removeItem|].
  intros params. rewrite test_mode_activate, test_mode_removeItem.
  apply orb_false_r.
Qed.

Lemma test_mode_persists_witness :
  test_mode
    (after_loads [[(js "page", js "2")]; []]
       (activate_test_mode [(js "debug", js "1")] [])) = true /\
  test_mode
    (Storage_removeItem
       (after_loads [[(js "page", js "2")]; []]
          (activate_test_mode [(js "debug", js "1")] []))
       "rrweb_testmode") = false /\
  (forall params,
      test_mode
        (activate_test_mode params
           (Storage_removeItem
              (after_loads [[(js "page", js "2")]; []]
                 (activate_test_mode [(js "debug", js "1")] []))
              "rrweb_testmode"))
      = requests_test_mode params).
Proof.
  apply (test_mode_persists (activate_test_mode [(js "debug", js "1")] [])
           [[(js "page", js "2")]; []]).
  reflexivity.
Defined.

(** Only the first value of a parameter counts, and only ["1"]. *)
Example requests_test_mode_first_value :
  requests_test_mode [(js "testmode", js "0"); (js "testmode", js "1")] = false /\
  requests_test_mode [(js "testmode", js "true")] = false /\
  requests_test_mode [(js "x", js "y"); (js "debug", js "1")] = true.
Proof. repeat split. Qed.

(* ------------------------------------------------------------------ *)
(** ** The timer of the test mode panel *)

Lemma digits_val_units_acc (d : Decimal.uint) :
  forall acc : positive,
    digits_val (N.pos acc) (uint_units d) = Some (N.pos (Pos.of_uint_acc d acc)).
Proof.
  induction d; intros acc; cbn [uint_units digits_val Pos.of_uint_acc];
    try reflexivity;
    match goal with
    | |- context [digit_val ?u] =>
        change (digit_val u) with (Some (u - 48)%N)
    end; cbv beta iota;
    rewrite <- IHd; f_equal; lia.
Qed.

(** The digits of a number read back as the number. *)
Lemma digits_val_units (d : Decimal.uint) :
  digits_val 0 (uint_units d) = Some (N.of_uint d).
Proof.
  unfold N.of_uint.
  induction d; cbn [uint_units digits_val Pos.of_uint];
    try reflexivity;
    match goal with
    | |- context [digit_val ?u] =>
        change (digit_val u) with (Some (u - 48)%N)
    end; cbv beta iota.
  - exact IHd.
  - apply (digits_val_units_acc d 1).
  - apply (digits_val_units_acc d 2).
  - apply (digits_val_units_acc d 3).
  - apply (digits_val_units_acc d 4).
  - apply (digits_val_units_acc d 5).
  - apply (digits_val_units_acc d 6).
  - apply (digits_val_units_acc d 7).
  - apply (digits_val_units_acc d 8).
  - apply (digits_val_units_acc d 9).
Qed.

Lemma digits_val_int_text (z : Z) :
  0 <= z -> digits_val 0 (int_text z) = Some (Z.to_N z).
Proof.
  intros Hz. destruct z as [|p|p]; [reflexivity| |lia].
  unfold int_text. cbn [Z.to_int Z.to_N].
  rewrite digits_val_units. unfold N.of_uint.
  rewrite DecimalPos.Unsigned.of_to. reflexivity.
Qed.

Lemma padStart_two_length (s : jsstring) :
  List.length (padStart s 2 (js "0")) = Nat.max 2 (List.length s).
Proof.
  destruct s as [|a [|b s]]; reflexivity.
Qed.

Lemma digits_val_padStart (s : jsstring) :
  digits_val 0 (padStart s 2 (js "0")) = digits_val 0 s.
Proof.
  destruct s as [|a [|b s]]; reflexivity.
Qed.

Lemma split_colon_digits (a b : jsstring) :
  forall acc n, digits_val acc a = Some n ->
    split_colon (a ++ 58%N :: b) = Some (a, b).
Proof.
  induction a as [|u r IH]; intros acc n H; [reflexivity|].
  cbn [digits_val] in H. destruct (digit_val u) as [d|] eqn:Ed; [|discriminate].
  apply digit_val_bound in Ed. destruct Ed as [Hd ->].
  cbn [app split_colon].
  replace (48 + d =? 58)%N with false by (symmetry; apply N.eqb_neq; lia).
  rewrite (IH _ _ H). reflexivity.
Qed.

Lemma int_text_short (z : Z) :
  0 <= z < 100 -> (List.length (int_text z) <= 2)%nat.
Proof.
  intros Hz.
  assert (H : exists k : nat, (k < 100)%nat /\ z = Z.of_nat k)
    by (exists (Z.to_nat z); lia).
  destruct H as [k [Hk ->]].
  do 100 (destruct k as [|k]; [vm_compute; lia|]). lia.
Qed.

Lemma int_text_long (z : Z) :
  0 <= z -> (List.length (int_text z) <= 2)%nat -> z < 100.
Proof.
  intros Hz Hl.
  pose proof (digits_val_range (int_text z) 0%N _ (digits_val_int_text z Hz)) as H.
  assert (10 ^ N.of_nat (List.length (int_text z)) <= 10 ^ 2)%N
    by (apply N.pow_le_mono_r; lia).
  change (10 ^ 2)%N with 100%N in *. lia.
Qed.

(** X25.  The display of the timer shows the whole seconds since the
    panel was made, as minutes and seconds: read back, it gives
    [floor(ms / 1000)].  It is five characters long, two digits on
    each side of the colon, exactly during the first hundred minutes. *)
Theorem timer_text_reads_back (elapsed_ms : Z) :
  0 <= elapsed_ms ->
  read_timer (timer_text elapsed_ms) = Some (elapsed_ms / 1000) /\
  (List.length (timer_text elapsed_ms) = 5%nat <-> elapsed_ms < 6000000).
Proof.
  intros Hms. unfold timer_text. cbv zeta.
  set (e := elapsed_ms / 1000).
  assert (He : 0 <= e) by (subst e; apply Z.div_pos; lia).
  assert (Hm : 0 <= e / 60) by (apply Z.div_pos; lia).
  assert (Hrem : Z.rem e 60 = e mod 60) by (apply Z.rem_mod_nonneg; lia).
  assert (Hs : 0 <= e mod 60 < 60) by (apply Z.mod_pos_bound; lia).
  rewrite Hrem. split.
  - unfold read_timer.
    assert (Hdm : digits_val 0 (padStart (int_text (e / 60)) 2 (js "0"))
                  = Some (Z.to_N (e / 60)))
      by (rewrite digits_val_padStart; apply digits_val_int_text; exact Hm).
    assert (Hds : digits_val 0 (padStart (int_text (e mod 60)) 2 (js "0"))
                  = Some (Z.to_N (e mod 60)))
      by (rewrite digits_val_padStart; apply digits_val_int_text; lia).
    change (js ":" ++ padStart (int_text (e mod 60)) 2 (js "0"))
      with (58%N :: padStart (int_text (e mod 60)) 2 (js "0")).
    rewrite (split_colon_digits _ _ _ _ Hdm), Hdm, Hds. f_equal.
    pose proof (Z.div_mod e 60 ltac:(lia)). lia.
  - rewrite !length_app, !padStart_two_length.
    change (List.length (js ":")) with 1%nat.
    pose proof (int_text_short (e mod 60) ltac:(lia)) as Hsec.
    assert (Hiff : e / 60 < 100 <-> elapsed_ms < 6000000).
    { subst e. split; intros H.
      - apply Z.nle_gt. intros Hge.
        assert (6000 <= elapsed_ms / 1000)
          by (apply Z.div_le_lower_bound; lia).
        assert (100 <= elapsed_ms / 1000 / 60)
          by (apply Z.div_le_lower_bound; lia).
        lia.
      - apply Z.div_lt_upper_bound; [lia|].
        apply Z.div_lt_upper_bound; lia. }
    rewrite <- Hiff. split; intros H.
    + apply int_text_long; [exact Hm|lia].
    + pose proof (int_text_short (e / 60) (conj Hm H)). lia.
Qed.

Lemma timer_text_reads_back_witness :
  read_timer (timer_text 754321) = Some (754321 / 1000) /\
  (List.length (timer_text 754321) = 5%nat <-> 754321 < 6000000).
Proof. apply (timer_text_reads_back 754321). lia. Defined.

(** Twelve minutes and thirty-four seconds; the hundredth minute; a
    clock set back by a second and a half while the panel is up. *)
Example timer_text_samples :
  timer_text 754321 = js "12:34" /\
  timer_text 6000000 = js "100:00" /\
  timer_text (-1500) = js "-1:-2".
Proof. repeat split. Qed.

(** [updateTimer] reads the clock once. *)
Example updateTimer_run :
  fst (updateTimer 1700000000000 (after_reads 4 page)) = Normal (js "00:00").
Proof. vm_compute. reflexivity. Qed.

(* ------------------------------------------------------------------ *)
(** ** The buttons of the test mode panel *)

(** X26.  The stop button hands the recording to the window that
    opened the tab: when the substrate's stop function returns and the
    buffer holds plain JSON data, the opener is posted one message of
    type [rrweb_events] whose [data] parses to the very events of the
    buffer, and the panel goes.  Without an opener nothing is
    printed or posted. *)
Theorem stop_button_posts_session (stopRecording : M unit) (t : Tab) (w : World) :
  stopRecording (tab_page t) = (Normal tt, w) ->
  forallb json_data (session w) = true ->
  exists text,
    stop_button stopRecording true t
    = (Normal tt,
       mkTab w (tab_storage t) false false
         (tab_posted t
            ++ [(VObject [(js "type", str "rrweb_events");
                          (js "data", VString text)],
                 js "*")])) /\
    JSON_parse text = Some (VArray (session w)) /\
    stop_button stopRecording false t
    = (Normal tt, mkTab w (tab_storage t) false false (tab_posted t)).
Proof.
  intros Hstop Hd.
  destruct (JSON_compact_round_trip (VArray (session w)) Hd) as [text [Hs Hp]].
  exists text. unfold stop_button. rewrite Hstop, Hs.
  split; [reflexivity|]. split; [exact Hp|reflexivity].
Qed.

Lemma stop_button_posts_session_witness :
  exists text,
    stop_button stops true test_tab
    = (Normal tt,
       mkTab (snd post_settled) (tab_storage test_tab) false false
         (tab_posted test_tab
            ++ [(VObject [(js "type", str "rrweb_events");
                          (js "data", VString text)],
                 js "*")])) /\
    JSON_parse text = Some (VArray (session (snd post_settled))) /\
    stop_button stops false test_tab
    = (Normal tt,
       mkTab (snd post_settled) (tab_storage test_tab) false false
         (tab_posted test_tab)).
Proof.
  apply (stop_button_posts_session stops test_tab (snd post_settled)).
  - reflexivity.
  - vm_compute. reflexivity.
Defined.

(** A stop function that throws (the substrate returned none) leaves
    the panel up and posts nothing. *)
Example stop_button_without_stop_function :
  stop_button (throw (TypeError "stopRecording is not a function")) true test_tab
  = (Throw (TypeError "stopRecording is not a function"),
     mkTab (snd post_settled) (tab_storage test_tab) false true []).
Proof. reflexivity. Qed.

(** X27.  Leaving test mode is itself recorded: the exit button takes
    the mark out of the storage, so that the panel does not come back
    with the next load, and its announcement goes through the wrapped
    [console.log], which prints it and appends one console event to
    the buffer. *)
Theorem clear_button_is_recorded (t : Tab) :
  clear_button addCustomEvent t
  = (Normal tt,
     mkTab
       (with_event
          (custom_event (js "console")
             (console_payload Log exit_text [VString exit_text]
                (clock (tab_page t) (reads (tab_page t))) (href (tab_page t)))
             (clock (tab_page t) (S (reads (tab_page t)))))
          (after_reads 2
             (with_console_call (Log, [VString exit_text]) (tab_page t))))
       (Storage_removeItem (tab_storage t) "rrweb_testmode") false false
       (tab_posted t)) /\
  test_mode (tab_storage (snd (clear_button addCustomEvent t))) = false /\
  (forall params,
      test_mode (activate_test_mode params
                   (tab_storage (snd (clear_button addCustomEvent t))))
      = requests_test_mode params).
Proof.
  assert (H : clear_button addCustomEvent t
    = (Normal tt,
       mkTab
         (with_event
            (custom_event (js "console")
               (console_payload Log exit_text [VString exit_text]
                  (clock (tab_page t) (reads (tab_page t))) (href (tab_page t)))
               (clock (tab_page t) (S (reads (tab_page t)))))
            (after_reads 2
               (with_console_call (Log, [VString exit_text]) (tab_page t))))
         (Storage_removeItem (tab_storage t) "rrweb_testmode") false false
         (tab_posted t))) by reflexivity.
  rewrite H. cbn [snd tab_storage].
  split; [reflexivity|]. split; [apply test_mode_removeItem|].
  intros params. rewrite test_mode_activate, test_mode_removeItem.
  apply orb_false_r.
Qed.
